(** * RegionalEdgeSimPy: resource ledger, greedy tier scheduler, mobility
    manager and simulation loop

  A shallow embedding of the Python sources and the properties of the
  natural-language specification that were checked against them.

  Conventions of the embedding.
  - Python [int] values (capacities, demands, latencies, the clock) are [Z].
  - Monetary rates and the two float counters of a server are exact
    rationals [Q]; positions and signal strengths are real numbers [R].
    Both idealise IEEE doubles: no rounding error is modelled.
  - A Python [dict] keyed by task id is a [gmap string _].
  - Server and task objects are shared by reference between the simulator,
    the scheduler and the mobility manager.  They live in a store (a list)
    and are referred to by index; every mutation goes through the store.
  - An uncaught Python exception is [None] in an [option] result.
  - Random draws (uuid4, random.choice, the random-waypoint positions)
    are read from an oracle given as an argument.
  - The rows that the reporter prints and appends to its CSV file are
    returned as a list; the console and the file system are outside the
    model. *)

From Stdlib Require Import ZArith QArith Qround Reals Lra Sorted.
From stdpp Require Import gmap strings list fin_maps pretty.

Local Open Scope Z_scope.

(** ** config/config.py *)

Module config.

Record TierSpec := mkTierSpec {
  tier : string;
  num_datacenters : nat;
  cpu : Z;
  memory : Z;
  storage : Z;
  bandwidth : Z;
  latency : Z;
  cost : Q;
  tx_cost : Q;
  distance : Z;
  positions : list (R * R)
}.

(** [SERVER_CONFIG]: a dict literal, iterated in insertion order. *)
Definition SERVER_CONFIG : list TierSpec :=
  [ mkTierSpec "Edge" 3 280000 300000 800000 164000 5
      (5 # 100000) (2 # 100000) 2000
      [ (100, 200)%R; (400, 800)%R; (900, 100)%R ];
    mkTierSpec "Regional" 2 6400000 10240000 40000000 800000 50
      (1 # 10000) (5 # 1000000) 200000
      [ (250, 250)%R; (750, 750)%R ];
    mkTierSpec "Cloud" 1 100800000 80640000 1512000000 1050000 300
      (2 # 10000) (5 # 1000000) 2000000
      [ (500, 500)%R ] ].

Record Workload := mkWorkload {
  start_devices : Z;
  max_devices : Z;
  increment : Z;
  data_per_device_kb : Z
}.

Definition WORKLOAD : Workload := mkWorkload 100 6000 10 10.

Record MobilityConfig := mkMobilityConfig {
  enabled : bool;
  apply_to_servers : bool;
  time_step_ms : Z;
  handover_latency_ms : Z;
  handover_threshold_db : R;
  default_speed_m_s : R
}.

Definition MOBILITY_CONFIG : MobilityConfig :=
  mkMobilityConfig true true 100 20 3%R 15%R.

(** [SERVER_CONFIG[tier]]; a missing key raises [KeyError]. *)
Definition lookup_tier (cfg : list TierSpec) (t : string) : option TierSpec :=
  List.find (fun spec => String.eqb (tier spec) t) cfg.

End config.

(** ** Python built-ins used by the sources *)

Module py.

(** [round(q)] to the nearest integer, ties to the even neighbour. *)
Definition round_half_even (q : Q) : Z :=
  let f := Qfloor q in
  match Qcompare (q - inject_Z f) (1 # 2) with
  | Lt => f
  | Gt => f + 1
  | Eq => if Z.even f then f else f + 1
  end.

(** [round(q, 2)]. *)
Definition round2 (q : Q) : Q :=
  Qred (inject_Z (round_half_even (q * 100)) / 100).

Definition underscore : Ascii.ascii := Ascii.ascii_of_nat 95.

(** [s.split('_')[0]]: the text before the first underscore. *)
Fixpoint split_head (s : string) : string :=
  match s with
  | EmptyString => EmptyString
  | String c s' =>
      if Ascii.eqb c underscore then EmptyString else String c (split_head s')
  end.

(** [min(l, key=key)] over the indices of a list: the first index whose
    key is least; [None] stands for the [ValueError] on an empty list. *)
Definition min_by {A} (key : A -> Z) (l : list A) : option A :=
  match l with
  | [] => None
  | a :: l' =>
      Some (fold_left (fun best c => if key c <? key best then c else best) l' a)
  end.

(** [max(l, key=key)] with a real-valued key: the first element whose key
    is greatest. *)
Definition max_by {A} (key : A -> R) (l : list A) : option A :=
  match l with
  | [] => None
  | a :: l' =>
      Some (fold_left
              (fun best c => if Rlt_dec (key best) (key c) then c else best)
              l' a)
  end.

(** [math.hypot] and [math.log10] on reals. *)
Definition hypot (dx dy : R) : R := sqrt (dx * dx + dy * dy).
Definition log10 (r : R) : R := (ln r / ln 10)%R.

(** [round(q, ndigits)]: to [ndigits] decimals, ties to even. *)
Definition round_to (ndigits : nat) (q : Q) : Q :=
  Qred (inject_Z (round_half_even (q * inject_Z (10 ^ Z.of_nat ndigits)))
        / inject_Z (10 ^ Z.of_nat ndigits)).

(** [round] on reals: [up r] is the least integer above [r]. *)
Definition round_half_even_R (r : R) : Z :=
  let f := up r - 1 in
  if Rlt_dec (r - IZR f) (1 / 2) then f
  else if Rlt_dec (1 / 2) (r - IZR f) then f + 1
  else if Z.even f then f else f + 1.

Definition round_to_R (ndigits : nat) (r : R) : R :=
  (IZR (round_half_even_R (r * IZR (10 ^ Z.of_nat ndigits)))
   / IZR (10 ^ Z.of_nat ndigits))%R.

(** [sum(l)] over floats. *)
Definition sum_R (l : list R) : R := fold_left Rplus l 0%R.

End py.

(** ** entities/server.py *)

Module server.

(** One entry of [running_tasks]: [(cpu, storage, memory, release_time)]. *)
Record Reservation := mkReservation {
  r_cpu : Z;
  r_storage : Z;
  r_memory : Z;
  r_release_time : Z
}.

Record Server := mkServer {
  name : string;
  index : nat;
  cpu_capacity : Z;
  storage_capacity : Z;
  memory_capacity : Z;
  bandwidth : Z;
  latency : Z;
  cost : Q;
  tx_cost : Q;
  x : R;
  y : R;
  location : R;
  (** [self.mobility] is a RandomWaypoint ([true]) or [None] ([false]). *)
  mobility : bool;
  available_cpu : Z;
  available_storage : Z;
  available_memory : Z;
  running_tasks : gmap string Reservation;
  total_data_transferred_kb : Q;
  total_cost : Q
}.

(** [Server.__init__].  The position is read from
    [SERVER_CONFIG[tier]["positions"][index]]; when mobility applies to
    servers the waypoint model is started at that position and
    [next_position(0.0)] returns it unchanged (the model starts paused). *)
Definition init (cfg : list config.TierSpec) (M : config.MobilityConfig)
    (name : string) (index : nat)
    (cpu_capacity storage_capacity memory_capacity bandwidth latency : Z)
    (cost tx_cost : Q) : option Server :=
  spec ← config.lookup_tier cfg (py.split_head name);
  pos ← config.positions spec !! index;
  Some (mkServer name index cpu_capacity storage_capacity memory_capacity
          bandwidth latency cost tx_cost
          pos.1 pos.2 pos.1
          (config.enabled M && config.apply_to_servers M)
          cpu_capacity storage_capacity memory_capacity
          ∅ 0%Q 0%Q).

Definition can_allocate (s : Server)
    (cpu_demand storage_demand memory_demand : Z) : bool :=
  (available_cpu s >=? cpu_demand)
  && (available_storage s >=? storage_demand)
  && (available_memory s >=? memory_demand).

Section Allocate.
(** The module-level [WORKLOAD] table read inside [allocate]. *)
Variable W : config.Workload.

Definition allocate (s : Server) (task_id : string)
    (cpu_demand storage_demand memory_demand release_time : Z)
    : bool * Server :=
  if can_allocate s cpu_demand storage_demand memory_demand then
    let data_size_kb := config.data_per_device_kb W in
    (true,
     mkServer (name s) (index s) (cpu_capacity s) (storage_capacity s)
       (memory_capacity s) (bandwidth s) (latency s) (cost s) (tx_cost s)
       (x s) (y s) (location s) (mobility s)
       (available_cpu s - cpu_demand)
       (available_storage s - storage_demand)
       (available_memory s - memory_demand)
       (<[task_id := mkReservation cpu_demand storage_demand memory_demand
                       release_time]> (running_tasks s))
       (total_data_transferred_kb s + inject_Z data_size_kb)%Q
       (total_cost s
        + (inject_Z cpu_demand * cost s + inject_Z data_size_kb * tx_cost s))%Q)
  else (false, s).
End Allocate.

(** The list [completed] built at the start of [release_completed_tasks]. *)
Definition completed (s : Server) (current_time : Z) : list string :=
  (map_to_list
     (filter (fun kv => r_release_time kv.2 <= current_time) (running_tasks s))).*1.

(** One iteration of the loop: [running_tasks.pop(tid)] and the credit.
    The [None] branch is the [KeyError] of [pop]; it cannot be taken
    because [tid] comes from the keys. *)
Definition release_one (s : Server) (tid : string) : Server :=
  match running_tasks s !! tid with
  | Some r =>
      mkServer (name s) (index s) (cpu_capacity s) (storage_capacity s)
        (memory_capacity s) (bandwidth s) (latency s) (cost s) (tx_cost s)
        (x s) (y s) (location s) (mobility s)
        (available_cpu s + r_cpu r)
        (available_storage s + r_storage r)
        (available_memory s + r_memory r)
        (delete tid (running_tasks s))
        (total_data_transferred_kb s) (total_cost s)
  | None => s
  end.

Definition release_completed_tasks (s : Server) (current_time : Z) : Server :=
  foldl release_one s (completed s current_time).

(** [100 * (1 - available / capacity) if capacity else 0], rounded. *)
Definition util_of (available capacity : Z) : Q :=
  if capacity =? 0 then 0%Q
  else py.round2 (100 * (1 - inject_Z available / inject_Z capacity))%Q.

Definition utilization (s : Server) : Q * Q * Q :=
  (util_of (available_cpu s) (cpu_capacity s),
   util_of (available_storage s) (storage_capacity s),
   util_of (available_memory s) (memory_capacity s)).

(** [round((total_data_transferred_kb / bandwidth) * 100, 2)].  The
    division is unguarded: a zero bandwidth raises [ZeroDivisionError]. *)
Definition congestion (s : Server) : option Q :=
  if bandwidth s =? 0 then None
  else Some (py.round2
               ((total_data_transferred_kb s / inject_Z (bandwidth s)) * 100)%Q).

(** Sum of the reservations held, per resource. *)
Definition reserved (proj : Reservation -> Z) (s : Server) : Z :=
  map_fold (fun _ r acc => proj r + acc) 0 (running_tasks s).

End server.

(** ** entities/task.py *)

Module task.

Inductive Status := created | scheduled | completed | failed.

(** The attributes of a task that the ledger, the scheduler and the loop
    read or write.  [flag], [delay], [cost] and [energy] are never read by
    the modelled code and are left out; [entity_id] is the attribute the
    simulator adds after generation. *)
Record Task := mkTask {
  id : string;
  cpu_demand : Z;
  storage_demand : Z;
  memory_demand : Z;
  bandwidth : Z;
  latency : option Z;
  priority : Z;
  server_assigned : option string;
  assigned_server : option string;
  data_size_kb : Z;
  execution_start_time : option Z;
  execution_end_time : option Z;
  status : Status;
  entity_id : option nat
}.

(** [Task.__init__]; [uuid] is the value drawn by [uuid.uuid4()]. *)
Definition init (W : config.Workload) (uuid : string)
    (cpu_demand storage_demand memory_demand bandwidth : Z)
    (latency : option Z) (priority : Z) : Task :=
  mkTask uuid cpu_demand storage_demand memory_demand bandwidth latency
    priority None None (config.data_per_device_kb W) None None created None.

Definition set_server (t : Task) (server_name : string) : Task :=
  mkTask (id t) (cpu_demand t) (storage_demand t) (memory_demand t)
    (bandwidth t) (latency t) (priority t) (server_assigned t)
    (Some server_name) (data_size_kb t) (execution_start_time t)
    (execution_end_time t) scheduled (entity_id t).

Definition is_assigned (t : Task) : bool :=
  match server_assigned t with Some _ => true | None => false end.

Definition complete (t : Task) (start_time end_time : Z) : Task :=
  mkTask (id t) (cpu_demand t) (storage_demand t) (memory_demand t)
    (bandwidth t) (latency t) (priority t) (server_assigned t)
    (assigned_server t) (data_size_kb t) (Some start_time) (Some end_time)
    completed (entity_id t).

Definition fail (t : Task) : Task :=
  mkTask (id t) (cpu_demand t) (storage_demand t) (memory_demand t)
    (bandwidth t) (latency t) (priority t) (server_assigned t)
    (assigned_server t) (data_size_kb t) (execution_start_time t)
    (execution_end_time t) failed (entity_id t).

Definition set_entity_id (idx : nat) (t : Task) : Task :=
  mkTask (id t) (cpu_demand t) (storage_demand t) (memory_demand t)
    (bandwidth t) (latency t) (priority t) (server_assigned t)
    (assigned_server t) (data_size_kb t) (execution_start_time t)
    (execution_end_time t) (status t) (Some idx).

(** [execution_delay]: the length of the execution window, 0 unless both
    ends are set. *)
Definition execution_delay (t : Task) : Z :=
  match execution_start_time t, execution_end_time t with
  | Some start_time, Some end_time => end_time - start_time
  | _, _ => 0
  end.

End task.

(** ** workload/generator.py *)

Module generator.

Record WorkloadGenerator := mkWorkloadGenerator {
  start_devices : Z;
  max_devices : Z;
  increment : Z;
  data_per_device_kb : Z
}.

Definition init (W : config.Workload) : WorkloadGenerator :=
  mkWorkloadGenerator (config.start_devices W) (config.max_devices W)
    (config.increment W) (config.data_per_device_kb W).

(** The device count of a round, after the cap. *)
Definition current_devices (g : WorkloadGenerator) (round_no : Z) : Z :=
  let current_devices := start_devices g + (round_no - 1) * increment g in
  if current_devices >? max_devices g then max_devices g else current_devices.

(** [generate_tasks]: [uuid d] and [choice d] are the id and the priority
    drawn for device [d]; [range(n)] is empty for [n <= 0]. *)
Definition generate_tasks (W : config.Workload) (g : WorkloadGenerator)
    (uuid : nat -> string) (choice : nat -> Z) (round_no : Z)
    : list task.Task :=
  (fun device_id : nat =>
     let cpu_demand := data_per_device_kb g in
     let storage_demand := data_per_device_kb g in
     let memory_demand := data_per_device_kb g in
     let bandwidth := data_per_device_kb g in
     task.init W (uuid device_id) cpu_demand storage_demand memory_demand
       bandwidth None (choice device_id))
  <$> seq 0 (Z.to_nat (current_devices g round_no)).

End generator.

(** ** scheduler/base_scheduler.py and scheduler/rule_scheduler.py *)

Module scheduler.

(** The contract: given the round's task objects, the server store and the
    time, return the [(task, server)] pairs, here as (index of the task,
    index of the server or [None]), with the two stores after the call. *)
Definition Scheduler : Type :=
  list task.Task -> list server.Server -> Z ->
  list (nat * option nat) * list task.Task * list server.Server.

Section RuleBased.
Variable W : config.Workload.

(** The list comprehension of one tier: the servers whose name starts with
    the tier name and that can take the task, in store order. *)
Definition eligible (tier : string) (t : task.Task)
    (servers : list server.Server) : list (nat * server.Server) :=
  List.filter
    (fun p => String.prefix tier (server.name p.2)
              && server.can_allocate p.2 (task.cpu_demand t)
                   (task.storage_demand t) (task.memory_demand t))
    (imap pair servers).

(** The key of [min]: the sum of the three available quantities. *)
Definition load (s : server.Server) : Z :=
  server.available_cpu s + server.available_memory s + server.available_storage s.

(** One tier block of [schedule]: pick the eligible server of least key,
    allocate on it with release time [current_time + latency]. *)
Definition try_tier (tier : string) (t : task.Task)
    (servers : list server.Server) (current_time : Z)
    : option (nat * list server.Server) :=
  match py.min_by (fun p => load p.2) (eligible tier t servers) with
  | Some (i, selected) =>
      let release_time := current_time + server.latency selected in
      let r := server.allocate W selected (task.id t) (task.cpu_demand t)
                 (task.storage_demand t) (task.memory_demand t) release_time in
      Some (i, <[i := r.2]> servers)
  | None => None
  end.

(** The body of the loop over tasks: Edge, then Regional, then Cloud; the
    result is the value of [server] appended to [results] with the task,
    [None] when no tier took it. *)
Definition schedule_task (t : task.Task) (servers : list server.Server)
    (current_time : Z) : option nat * list server.Server :=
  match try_tier "Edge" t servers current_time with
  | Some (i, servers') => (Some i, servers')
  | None =>
      match try_tier "Regional" t servers current_time with
      | Some (i, servers') => (Some i, servers')
      | None =>
          match try_tier "Cloud" t servers current_time with
          | Some (i, servers') => (Some i, servers')
          | None => (None, servers)
          end
      end
  end.

Fixpoint schedule_from (k : nat) (tasks : list task.Task)
    (servers : list server.Server) (current_time : Z)
    : list (nat * option nat) * list server.Server :=
  match tasks with
  | [] => ([], servers)
  | t :: tasks' =>
      let r := schedule_task t servers current_time in
      let rest := schedule_from (S k) tasks' r.2 current_time in
      ((k, r.1) :: rest.1, rest.2)
  end.

(** [RuleBasedScheduler.schedule]. *)
Definition schedule : Scheduler :=
  fun tasks servers current_time =>
    let r := schedule_from 0 tasks servers current_time in
    (r.1, tasks, r.2).

End RuleBased.

End scheduler.

(** ** mobility/mobile_entity.py *)

Module mobile_entity.

(** A position is a float (1D) or a pair [[x, y]] (2D). *)
Inductive Position :=
| Pos1 (p : R)
| Pos2 (px py : R).

Record MobileEntity := mkMobileEntity {
  id : nat;
  position : Position;
  speed : R;
  (** The serving node, a reference into the server store. *)
  attached_server : option nat;
  ho_latency : Z;
  ho_threshold_db : R;
  (** [ent.mobility]: a RandomWaypoint was attached ([true]) or not. *)
  mobility : bool
}.

Definition init (M : config.MobilityConfig) (entity_id : nat)
    (init_pos : Position) (speed : R) : MobileEntity :=
  mkMobileEntity entity_id init_pos speed None
    (config.handover_latency_ms M) (config.handover_threshold_db M) false.

Definition set_position (e : MobileEntity) (p : Position) : MobileEntity :=
  mkMobileEntity (id e) p (speed e) (attached_server e) (ho_latency e)
    (ho_threshold_db e) (mobility e).

Definition set_attached_server (e : MobileEntity) (a : option nat)
    : MobileEntity :=
  mkMobileEntity (id e) (position e) (speed e) a (ho_latency e)
    (ho_threshold_db e) (mobility e).

Definition set_mobility (e : MobileEntity) (b : bool) : MobileEntity :=
  mkMobileEntity (id e) (position e) (speed e) (attached_server e)
    (ho_latency e) (ho_threshold_db e) b.

(** [move]: a 1D position shifts by [speed * dt_ms / 1000]; a 2D position
    is left to the external model. *)
Definition move (e : MobileEntity) (dt_ms : Z) : MobileEntity :=
  match position e with
  | Pos1 p => set_position e (Pos1 (p + speed e * (IZR dt_ms / 1000))%R)
  | Pos2 _ _ => e
  end.

Definition distance (e : MobileEntity) (s : server.Server) : R :=
  match position e with
  | Pos2 px py => py.hypot (px - server.x s) (py - server.y s)
  | Pos1 p => Rabs (p - server.location s)
  end.

(** [-20 * log10(max(dist, 1))]. *)
Definition signal_strength (e : MobileEntity) (s : server.Server) : R :=
  (-20 * py.log10 (Rmax (distance e s) 1))%R.

(** [pick_best_bs]: [None] stands for the [ValueError] of [max] on an empty
    list.  The attached server is read through the store.  In the program
    the attribute holds the server object itself, so an index outside the
    store has no counterpart there; for such an index the result is [None]
    as well. *)
Definition pick_best_bs (e : MobileEntity) (servers : list server.Server)
    : option nat :=
  best_server ← py.max_by (fun p => signal_strength e p.2) (imap pair servers);
  match attached_server e with
  | None => Some best_server.1
  | Some a =>
      cur ← servers !! a;
      if Rge_dec (signal_strength e best_server.2 - signal_strength e cur)
           (ho_threshold_db e)
      then Some best_server.1
      else Some a
  end.

Definition handover (e : MobileEntity) (new_server : nat) : MobileEntity * Z :=
  (set_attached_server e (Some new_server), ho_latency e).

End mobile_entity.

(** ** mobility/manager.py *)

Module manager.

Record MobilityManager := mkMobilityManager {
  entities : list mobile_entity.MobileEntity;
  ho_count : Z;
  ho_delay : Z;
  time_step_ms : Z
}.

(** [MobilityManager.__init__]; the server list is the simulator's own
    list object, so it is passed to every call instead of being copied. *)
Definition init (M : config.MobilityConfig)
    (devices : list mobile_entity.MobileEntity) : MobilityManager :=
  mkMobilityManager devices 0 0 (config.time_step_ms M).

(** What the random-waypoint models return in one time step:
    [server_next i] for the [i]-th server, [entity_next i] for the [i]-th
    entity. *)
Record Motion := mkMotion {
  server_next : nat -> R * R;
  entity_next : nat -> R * R
}.

Definition move_server (mo : Motion) (i : nat) (s : server.Server)
    : server.Server :=
  if server.mobility s then
    let p := server_next mo i in
    server.mkServer (server.name s) (server.index s) (server.cpu_capacity s)
      (server.storage_capacity s) (server.memory_capacity s)
      (server.bandwidth s) (server.latency s) (server.cost s)
      (server.tx_cost s) p.1 p.2 p.1 (server.mobility s)
      (server.available_cpu s) (server.available_storage s)
      (server.available_memory s) (server.running_tasks s)
      (server.total_data_transferred_kb s) (server.total_cost s)
  else s.

Definition move_entity (mo : Motion) (dt_ms : Z) (i : nat)
    (e : mobile_entity.MobileEntity) : mobile_entity.MobileEntity :=
  if mobile_entity.mobility e then
    let p := entity_next mo i in
    mobile_entity.set_position e (mobile_entity.Pos2 p.1 p.2)
  else mobile_entity.move e dt_ms.

Section UpdateAll.
Variable M : config.MobilityConfig.

(** The attachment part of the loop body, for an entity already moved;
    [c] and [d] are [self.ho_count] and [self.ho_delay]. *)
Definition attach (servers : list server.Server)
    (e : mobile_entity.MobileEntity) (c d : Z)
    : option (mobile_entity.MobileEntity * Z * Z) :=
  new_bs ← mobile_entity.pick_best_bs e servers;
  match mobile_entity.attached_server e with
  | None => Some (mobile_entity.set_attached_server e (Some new_bs), c, d)
  | Some a =>
      if decide (new_bs = a) then Some (e, c, d)
      else
        old ← servers !! a;
        new ← servers !! new_bs;
        let old_sig := mobile_entity.signal_strength e old in
        let new_sig := mobile_entity.signal_strength e new in
        let delta := (new_sig - old_sig)%R in
        if Rge_dec delta (config.handover_threshold_db M) then
          Some (mobile_entity.set_attached_server e (Some new_bs),
                c + 1, d + config.handover_latency_ms M)
        else Some (e, c, d)
  end.

Fixpoint update_entities (mo : Motion) (dt_ms : Z)
    (servers : list server.Server) (i : nat)
    (ents : list mobile_entity.MobileEntity) (c d : Z)
    : option (list mobile_entity.MobileEntity * Z * Z) :=
  match ents with
  | [] => Some ([], c, d)
  | e :: ents' =>
      r ← attach servers (move_entity mo dt_ms i e) c d;
      rest ← update_entities mo dt_ms servers (S i) ents' r.1.2 r.2;
      Some (r.1.1 :: rest.1.1, rest.1.2, rest.2)
  end.

(** [update_all]: the new manager, the server store after the moves, and
    the returned pair [(self.ho_count, self.ho_delay)]. *)
Definition update_all (mgr : MobilityManager) (servers : list server.Server)
    (mo : Motion) : option (MobilityManager * list server.Server * (Z * Z)) :=
  let servers' := imap (move_server mo) servers in
  r ← update_entities mo (time_step_ms mgr) servers' 0 (entities mgr)
        (ho_count mgr) (ho_delay mgr);
  let mgr' := mkMobilityManager r.1.1 r.1.2 r.2 (time_step_ms mgr) in
  Some (mgr', servers', (ho_count mgr', ho_delay mgr')).

End UpdateAll.

(** The position of an entity normalised to 2D: a 1D position [p] becomes
    [[p, 0.0]]. *)
Definition position_2d (e : mobile_entity.MobileEntity) : R * R :=
  match mobile_entity.position e with
  | mobile_entity.Pos2 px0 py0 => (px0, py0)
  | mobile_entity.Pos1 p => (p, 0%R)
  end.

(** [get_metrics]: the average distance of the entities from their centroid,
    rounded to two decimals, with the two handover counters; the keys are
    [avg_pos], [ho_count] and [ho_delay]. *)
Definition get_metrics (mgr : MobilityManager) : R * Z * Z :=
  let positions := position_2d <$> entities mgr in
  let n := length positions in
  if decide (n = 0%nat) then (0%R, ho_count mgr, ho_delay mgr)
  else
    let xs := fst <$> positions in
    let ys := snd <$> positions in
    let x_bar := (py.sum_R xs / INR n)%R in
    let y_bar := (py.sum_R ys / INR n)%R in
    let avg_disp :=
      (py.sum_R ((fun p : R * R => py.hypot (p.1 - x_bar) (p.2 - y_bar))
                 <$> positions) / INR n)%R in
    (py.round_to_R 2 avg_disp, ho_count mgr, ho_delay mgr).

End manager.

(** ** config/metrics.py *)

Module metrics.

(** ["_" in layer_name]. *)
Fixpoint contains_underscore (s : string) : bool :=
  match s with
  | EmptyString => false
  | String c s' => Ascii.eqb c py.underscore || contains_underscore s'
  end.

(** [extract_base_layer]. *)
Definition extract_base_layer (layer_name : string) : string :=
  if contains_underscore layer_name then py.split_head layer_name
  else layer_name.

Definition calculate_transmission_cost (data_kb : Z) (tx_rate : Q) : Q :=
  py.round_to 4 (inject_Z data_kb * tx_rate).

Definition calculate_processing_cost (cpu_demand : Z) (processing_rate : Q)
    : Q :=
  py.round_to 6 (inject_Z cpu_demand * processing_rate).

(** [calculate_energy_consumption]. *)
Definition calculate_energy_consumption (data_kb : Z) (base_energy_rate : Q)
    (distance_m : Z) (minor_distance_rate : Q) : Q :=
  let energy_per_kb :=
    (base_energy_rate + inject_Z distance_m * minor_distance_rate)%Q in
  py.round_to 6 (inject_Z data_kb * energy_per_kb).

(** [calculate_congestion]: the division is not guarded. *)
Definition calculate_congestion (total_data_kb bandwidth_kbps : Z)
    : option Q :=
  if bandwidth_kbps =? 0 then None
  else Some (py.round_to 2
               (inject_Z total_data_kb / inject_Z bandwidth_kbps * 100)).

Section Config.
(** The module-level [SERVER_CONFIG] that the functions below read. *)
Variable cfg : list config.TierSpec.

(** [calculate_transmission_delay], in milliseconds: [KeyError] for a tier
    that is not configured, [ZeroDivisionError] for a zero bandwidth. *)
Definition calculate_transmission_delay (data_kb : Z) (layer_name : string)
    : option Q :=
  let base := extract_base_layer layer_name in
  spec ← config.lookup_tier cfg base;
  let bandwidth_kbps := config.bandwidth spec in
  if bandwidth_kbps =? 0 then None
  else
    let seconds := (inject_Z (data_kb * 8) / inject_Z bandwidth_kbps)%Q in
    Some (seconds * 1000)%Q.

(** [calculate_propagation_delay], in milliseconds. *)
Definition calculate_propagation_delay (layer_name : string) : option Q :=
  let base := extract_base_layer layer_name in
  spec ← config.lookup_tier cfg base;
  let distance_m := config.distance spec in
  let propagation_speed_mps := 2 * 10 ^ 8 in
  Some (py.round_to 4
          (inject_Z distance_m / inject_Z propagation_speed_mps * 1000)).

Definition calculate_edge_energy (data_kb : Z) : option Q :=
  spec ← config.lookup_tier cfg "Edge";
  Some (calculate_energy_consumption data_kb (15 # 10000000)
          (config.distance spec) (1 # 1000000000)).

Definition calculate_regional_energy (data_kb : Z) : option Q :=
  spec ← config.lookup_tier cfg "Regional";
  Some (calculate_energy_consumption data_kb (3 # 1000000)
          (config.distance spec) (1 # 1000000000)).

Definition calculate_cloud_energy (data_kb : Z) : option Q :=
  spec ← config.lookup_tier cfg "Cloud";
  Some (calculate_energy_consumption data_kb (5 # 1000000)
          (config.distance spec) (1 # 1000000000)).

End Config.

End metrics.

(** ** core/simulator.py *)

Module simulator.

Record Simulator := mkSimulator {
  current_time : Z;
  servers : list server.Server;
  (** The task objects created in the current round, in creation order. *)
  task_objects : list task.Task;
  (** [self.tasks]: references to the pending task objects. *)
  tasks : list nat;
  generator : generator.WorkloadGenerator;
  mobility : manager.MobilityManager
}.

(** The random draws of one round. *)
Record Oracle := mkOracle {
  uuid : nat -> string;
  choice : nat -> Z;
  motion : manager.Motion
}.

(** What one round computes besides the new state. *)
Record RoundLog := mkRoundLog {
  ho_count : Z;
  ho_delay : Z;
  num_devices : nat;
  assignments : list (nat * option nat);
  failed_count : Z
}.

Definition tier_servers (cfg : list config.TierSpec)
    (M : config.MobilityConfig) (spec : config.TierSpec)
    : option (list server.Server) :=
  mapM (fun i : nat =>
          server.init cfg M (config.tier spec +:+ "_" +:+ pretty (i + 1)%nat) i
            (config.cpu spec) (config.storage spec) (config.memory spec)
            (config.bandwidth spec) (config.latency spec)
            (config.cost spec) (config.tx_cost spec))
       (seq 0 (config.num_datacenters spec)).

(** [_initialize_servers]. *)
Definition initialize_servers (cfg : list config.TierSpec)
    (M : config.MobilityConfig) : option (list server.Server) :=
  tiers ← mapM (tier_servers cfg M) cfg;
  Some (concat tiers).

(** The device entities built by [__init__]: entity [i] starts at the
    position of server [i % num_servers], attached to it, with a waypoint
    model of its own. *)
Definition device_entity (M : config.MobilityConfig)
    (servers : list server.Server) (i : nat)
    : option mobile_entity.MobileEntity :=
  if decide (length servers = 0%nat) then None
  else
    let k := (i mod length servers)%nat in
    srv ← servers !! k;
    let ent :=
      mobile_entity.init M i
        (mobile_entity.Pos2 (server.x srv) (server.y srv))
        (config.default_speed_m_s M) in
    Some (mobile_entity.set_mobility
            (mobile_entity.set_attached_server ent (Some k)) true).

Definition init (cfg : list config.TierSpec) (W : config.Workload)
    (M : config.MobilityConfig) : option Simulator :=
  servers ← initialize_servers cfg M;
  device_entities ← mapM (device_entity M servers)
                      (seq 0 (Z.to_nat (config.max_devices W)));
  Some (mkSimulator 0 servers [] [] (generator.init W)
          (manager.init M device_entities)).

(** The three assignments that follow [task.complete] in the loop over the
    assignments: availability is reduced by the task's [cpu_demand],
    [data_size_kb] and [memory_demand], each bounded at 0. *)
Definition deduct (srv : server.Server) (t : task.Task) : server.Server :=
  let mem_req := task.memory_demand t in
  server.mkServer (server.name srv) (server.index srv)
    (server.cpu_capacity srv) (server.storage_capacity srv)
    (server.memory_capacity srv) (server.bandwidth srv)
    (server.latency srv) (server.cost srv) (server.tx_cost srv)
    (server.x srv) (server.y srv) (server.location srv)
    (server.mobility srv)
    (Z.max (server.available_cpu srv - task.cpu_demand t) 0)
    (Z.max (server.available_storage srv - task.data_size_kb t) 0)
    (Z.max (server.available_memory srv - mem_req) 0)
    (server.running_tasks srv)
    (server.total_data_transferred_kb srv) (server.total_cost srv).

(** One iteration of the loop that applies the assignments: the task is
    marked completed over [[now, now + srv.latency]] and the server's
    availability is reduced again.  A pair whose server is [None] raises
    [AttributeError] at [srv.latency]. *)
Definition apply_assignment (now : Z)
    (st : list task.Task * list server.Server) (pr : nat * option nat)
    : option (list task.Task * list server.Server) :=
  t ← st.1 !! pr.1;
  si ← pr.2;
  srv ← st.2 !! si;
  Some (<[pr.1 := task.complete t now (now + server.latency srv)]> st.1,
        <[si := deduct srv t]> st.2).

Fixpoint apply_assignments (now : Z)
    (st : list task.Task * list server.Server)
    (prs : list (nat * option nat))
    : option (list task.Task * list server.Server) :=
  match prs with
  | [] => Some st
  | pr :: prs' =>
      st' ← apply_assignment now st pr;
      apply_assignments now st' prs'
  end.

Section Run.
Variable sched : scheduler.Scheduler.
Variable W : config.Workload.
Variable M : config.MobilityConfig.

(** The body of the loop of [run] without its metrics step: steps 1 to 6
    and the clock advance.  Step 7 only reads the state that step 6 leaves;
    it is [report_metrics] below, and [run_round_reported] is the whole
    body. *)
Definition run_round (sim : Simulator) (round_no : Z) (o : Oracle)
    : option (Simulator * RoundLog) :=
  mob ← manager.update_all M (mobility sim) (servers sim) (motion o);
  let ho_count := mob.2.1 in
  let ho_delay := mob.2.2 in
  let now := current_time sim + ho_delay in
  let servers1 := (fun srv => server.release_completed_tasks srv now) <$> mob.1.2 in
  let generated :=
    imap task.set_entity_id
      (generator.generate_tasks W (generator sim) (uuid o) (choice o) round_no) in
  let num_devices := length generated in
  let r := sched generated servers1 now in
  let assignments := r.1.1 in
  let initial_count := Z.of_nat num_devices in
  let assigned_count := Z.of_nat (length assignments) in
  let failed_count := initial_count - assigned_count in
  let pending :=
    List.filter
      (fun i => match r.1.2 !! i with
                | Some t => negb (task.is_assigned t)
                | None => false
                end)
      (seq 0 (length r.1.2)) in
  st ← apply_assignments now (r.1.2, r.2) assignments;
  Some (mkSimulator (now + 1) st.2 st.1 pending (generator sim) mob.1.1,
        mkRoundLog ho_count ho_delay num_devices assignments failed_count).

Fixpoint run_rounds (oracle : nat -> Oracle) (sim : Simulator)
    (rounds : list nat) : option (Simulator * list RoundLog) :=
  match rounds with
  | [] => Some (sim, [])
  | round_no :: rounds' =>
      r ← run_round sim (Z.of_nat round_no) (oracle round_no);
      rest ← run_rounds oracle r.1 rounds';
      Some (rest.1, r.2 :: rest.2)
  end.

(** [run]: [total_rounds] uses floor division, which raises
    [ZeroDivisionError] for a zero increment. *)
Definition total_rounds : option Z :=
  if config.increment W =? 0 then None
  else Some ((config.max_devices W - config.start_devices W)
             `div` config.increment W + 1).

Definition run (oracle : nat -> Oracle) (sim : Simulator)
    : option (Simulator * list RoundLog) :=
  n ← total_rounds;
  run_rounds oracle sim (seq 1 (Z.to_nat n)).

End Run.

(** One row of the per-server metrics table; the fields are the keys of the
    dict given to [task_reporter.report], in order. *)
Record MetricsRow := mkMetricsRow {
  row_round_no : Z;
  row_devices : nat;
  row_workload : Z;
  row_avg_pos : R;
  row_ho_count : Z;
  row_ho_delay : Z;
  row_avg_signal : R;
  row_cpu_util : Q;
  row_memory_util : Q;
  row_storage_util : Q;
  row_layer : string;
  row_avg_tx : Q;
  row_avg_prop : Q;
  row_tx_cost : Q;
  row_proc_cost : Q;
  row_energy : Q;
  row_congestion : Q;
  row_flag : Z;
  row_failed : Z
}.

(** The accumulators of the loop over the tasks placed on one server. *)
Record Accumulators := mkAccumulators {
  tx_delay : Q;
  prop_delay : Q;
  tx_cost : Q;
  proc_cost : Q;
  energy : Q;
  signals : list R
}.

(** [round(used / capacity * 100, 2)]; the division is not guarded. *)
Definition used_percent (used capacity : Z) : option Q :=
  if capacity =? 0 then None
  else Some (py.round_to 2 (inject_Z used / inject_Z capacity * 100)).

Section Report.
(** The module-level [SERVER_CONFIG]. *)
Variable cfg : list config.TierSpec.

(** One iteration of the loop over [assigned_here].  It raises
    [AttributeError] for a task without [entity_id], [IndexError] when
    [entity_id] is not an index of [self.mobility.entities], [KeyError]
    when the tier of the server's name, or the tier whose energy model is
    used, is not in [SERVER_CONFIG], and [ZeroDivisionError] for a tier
    configured with bandwidth 0. *)
Definition task_metrics (entities : list mobile_entity.MobileEntity)
    (srv : server.Server) (acc : Accumulators) (t : task.Task)
    : option Accumulators :=
  entity_id ← task.entity_id t;
  dev ← entities !! entity_id;
  let sig := mobile_entity.signal_strength dev srv in
  d_tx ← metrics.calculate_transmission_delay cfg (task.data_size_kb t)
           (server.name srv);
  d_prop ← metrics.calculate_propagation_delay cfg (server.name srv);
  let tier := py.split_head (server.name srv) in
  spec ← config.lookup_tier cfg tier;
  let c_tx :=
    metrics.calculate_transmission_cost (task.data_size_kb t)
      (config.tx_cost spec) in
  let c_proc :=
    metrics.calculate_processing_cost (task.cpu_demand t) (server.cost srv) in
  e ← (if String.eqb tier "Edge" then
         metrics.calculate_edge_energy cfg (task.data_size_kb t)
       else if String.eqb tier "Regional" then
         metrics.calculate_regional_energy cfg (task.data_size_kb t)
       else metrics.calculate_cloud_energy cfg (task.data_size_kb t));
  Some (mkAccumulators (tx_delay acc + d_tx)%Q (prop_delay acc + d_prop)%Q
          (tx_cost acc + c_tx)%Q (proc_cost acc + c_proc)%Q (energy acc + e)%Q
          (signals acc ++ [sig])).

Fixpoint accumulate (entities : list mobile_entity.MobileEntity)
    (srv : server.Server) (acc : Accumulators) (ts : list task.Task)
    : option Accumulators :=
  match ts with
  | [] => Some acc
  | t :: ts' =>
      acc' ← task_metrics entities srv acc t;
      accumulate entities srv acc' ts'
  end.

(** [[t for t, s in assignments if s is srv]] for the server at index [i]
    of the store: the task objects are read through the task store. *)
Definition assigned_here (task_objects : list task.Task)
    (assignments : list (nat * option nat)) (i : nat)
    : option (list task.Task) :=
  mapM (fun pr : nat * option nat => task_objects !! pr.1)
    (List.filter
       (fun pr : nat * option nat =>
          match pr.2 with Some si => Nat.eqb si i | None => false end)
       assignments).

(** One iteration of the loop over [self.servers] in step 7: no row for a
    server that received no task of the round, else the row given to
    [task_reporter.report].  The utilisation and congestion percentages
    divide by the server's capacities and bandwidth without a guard. *)
Definition server_metrics (entities : list mobile_entity.MobileEntity)
    (task_objects : list task.Task) (assignments : list (nat * option nat))
    (round_no : Z) (num_devices : nat) (mob_metrics : R * Z * Z)
    (failed_count : Z) (i : nat) (srv : server.Server)
    : option (option MetricsRow) :=
  here ← assigned_here task_objects assignments i;
  match here with
  | [] => Some None
  | first :: _ =>
      let total_data := foldr Z.add 0 (task.data_size_kb <$> here) in
      acc ← accumulate entities srv (mkAccumulators 0 0 0 0 0 []) here;
      let n := length here in
      let avg_signal :=
        match signals acc with
        | [] => 0%R
        | _ :: _ =>
            py.round_to_R 2
              (py.sum_R (signals acc) / INR (length (signals acc)))%R
        end in
      let used_cpu := server.cpu_capacity srv - server.available_cpu srv in
      let used_memory :=
        server.memory_capacity srv - server.available_memory srv in
      let used_storage :=
        server.storage_capacity srv - server.available_storage srv in
      cpu_util ← used_percent used_cpu (server.cpu_capacity srv);
      memory_util ← used_percent used_memory (server.memory_capacity srv);
      storage_util ← used_percent used_storage (server.storage_capacity srv);
      congestion ← metrics.calculate_congestion total_data
                     (server.bandwidth srv);
      Some (Some (mkMetricsRow round_no num_devices total_data
                    mob_metrics.1.1 mob_metrics.1.2 mob_metrics.2
                    avg_signal cpu_util memory_util storage_util
                    (server.name srv)
                    (py.round_to 2 (tx_delay acc / inject_Z (Z.of_nat n)))
                    (py.round_to 2 (prop_delay acc / inject_Z (Z.of_nat n)))
                    (py.round_to 2 (tx_cost acc))
                    (py.round_to 2 (proc_cost acc))
                    (py.round_to 4 (energy acc))
                    congestion (task.priority first) failed_count))
  end.

(** Step 7 on the state that step 6 leaves: the rows given to
    [task_reporter.report], in the order of the servers; [None] when
    computing one of them raises.  The reporter prints each row and appends
    it to a CSV file; the file system is outside the model. *)
Definition report_metrics (sim : Simulator) (log : RoundLog) (round_no : Z)
    : option (list MetricsRow) :=
  rows ← mapM (fun p : nat * server.Server =>
                 server_metrics (manager.entities (mobility sim))
                   (task_objects sim) (assignments log) round_no
                   (num_devices log) (manager.get_metrics (mobility sim))
                   (failed_count log) p.1 p.2)
            (imap pair (servers sim));
  Some (omap (fun row => row) rows).

Variable sched : scheduler.Scheduler.
Variable W : config.Workload.
Variable M : config.MobilityConfig.

(** The whole body of the loop of [run], steps 1 to 8, with the rows that
    step 7 reports.  The clock advance of step 8 changes nothing that step 7
    reads, so the rows are computed on the state [run_round] returns. *)
Definition run_round_reported (sim : Simulator) (round_no : Z) (o : Oracle)
    : option (Simulator * RoundLog * list MetricsRow) :=
  r ← run_round sched W M sim round_no o;
  rows ← report_metrics r.1 r.2 round_no;
  Some (r.1, r.2, rows).

Fixpoint run_rounds_reported (oracle : nat -> Oracle) (sim : Simulator)
    (rounds : list nat)
    : option (Simulator * list RoundLog * list MetricsRow) :=
  match rounds with
  | [] => Some (sim, [], [])
  | round_no :: rounds' =>
      r ← run_round_reported sim (Z.of_nat round_no) (oracle round_no);
      rest ← run_rounds_reported oracle r.1.1 rounds';
      Some (rest.1.1, r.1.2 :: rest.1.2, r.2 ++ rest.2)
  end.

(** [run] with its metrics rows. *)
Definition run_reported (oracle : nat -> Oracle) (sim : Simulator)
    : option (Simulator * list RoundLog * list MetricsRow) :=
  n ← total_rounds W;
  run_rounds_reported oracle sim (seq 1 (Z.to_nat n)).

End Report.

End simulator.

(** ** mobility/random_waypoint.py *)

Module random_waypoint.

Record Area := mkArea {
  xmin : R;
  xmax : R;
  ymin : R;
  ymax : R
}.

Inductive State := pause | move.

(** The attributes of a waypoint model.  [vel] holds [vel_x] and [vel_y],
    which [__init__] does not create: they exist once the model has left
    its first pause. *)
Record RandomWaypoint := mkRandomWaypoint {
  area : Area;
  speed_range : R * R;
  pause_range : R * R;
  state : State;
  pos : R * R;
  target : R * R;
  pause_time : R;
  speed : R;
  vel : option (R * R)
}.

(** The random draws one call may consume: the point of [_random_point()],
    the speed and the pause drawn by [random.uniform]. *)
Record Draws := mkDraws {
  point : R * R;
  drawn_speed : R;
  drawn_pause : R
}.

(** [__init__]: paused, at a random point, with a random target and a random
    pause. *)
Definition init (area : Area) (speed_range pause_range : R * R)
    (first_point second_point : R * R) (first_pause : R) : RandomWaypoint :=
  mkRandomWaypoint area speed_range pause_range pause first_point second_point
    first_pause 0 None.

(** [self.pos = p], as [Server.__init__] does after construction. *)
Definition set_pos (w : RandomWaypoint) (p : R * R) : RandomWaypoint :=
  mkRandomWaypoint (area w) (speed_range w) (pause_range w) (state w) p
    (target w) (pause_time w) (speed w) (vel w).

(** [math.hypot(dx, dy) or 1.0]. *)
Definition hypot_or_one (dx dy : R) : R :=
  if Req_dec_T (py.hypot dx dy) 0 then 1%R else py.hypot dx dy.

(** [next_position(dt_ms)]: the new state and the returned position.  A
    move step before any velocity was set raises [AttributeError]. *)
Definition next_position (w : RandomWaypoint) (dr : Draws) (dt_ms : R)
    : option (RandomWaypoint * (R * R)) :=
  let dt := (dt_ms / 1000)%R in
  match state w with
  | pause =>
      let pause_time' := (pause_time w - dt)%R in
      if Rle_dec pause_time' 0 then
        let target' := point dr in
        let speed' := drawn_speed dr in
        let dx := (target'.1 - (pos w).1)%R in
        let dy := (target'.2 - (pos w).2)%R in
        let dist := hypot_or_one dx dy in
        let vel_x := (speed' * dx / dist)%R in
        let vel_y := (speed' * dy / dist)%R in
        Some (mkRandomWaypoint (area w) (speed_range w) (pause_range w) move
                (pos w) target' pause_time' speed' (Some (vel_x, vel_y)),
              pos w)
      else
        Some (mkRandomWaypoint (area w) (speed_range w) (pause_range w) pause
                (pos w) (target w) pause_time' (speed w) (vel w),
              pos w)
  | move =>
      v ← vel w;
      let pos' := ((pos w).1 + v.1 * dt, (pos w).2 + v.2 * dt)%R in
      if Rlt_dec (py.hypot (pos'.1 - (target w).1) (pos'.2 - (target w).2))
           (1 / 1000)
      then
        Some (mkRandomWaypoint (area w) (speed_range w) (pause_range w) pause
                pos' (target w) (drawn_pause dr) (speed w) (vel w),
              pos')
      else
        Some (mkRandomWaypoint (area w) (speed_range w) (pause_range w) move
                pos' (target w) (pause_time w) (speed w) (vel w),
              pos')
  end.

End random_waypoint.

(** * Vocabulary of the properties *)

(** ** Ledger invariants *)

Module ledger.

(** Every held reservation is non-negative in each resource. *)
Definition held_nonneg (s : server.Server) : Prop :=
  map_Forall
    (fun _ r => 0 <= server.r_cpu r /\ 0 <= server.r_storage r
                /\ 0 <= server.r_memory r)
    (server.running_tasks s).

(** [available_X = capacity_X - sum of the reservations on X]. *)
Definition exact (s : server.Server) : Prop :=
  server.available_cpu s = server.cpu_capacity s - server.reserved server.r_cpu s
  /\ server.available_storage s
     = server.storage_capacity s - server.reserved server.r_storage s
  /\ server.available_memory s
     = server.memory_capacity s - server.reserved server.r_memory s.

(** [0 <= available_X <= capacity_X]. *)
Definition within_capacity (s : server.Server) : Prop :=
  0 <= server.available_cpu s <= server.cpu_capacity s
  /\ 0 <= server.available_storage s <= server.storage_capacity s
  /\ 0 <= server.available_memory s <= server.memory_capacity s.

(** [0 <= available_X <= capacity_X - sum of the reservations on X]. *)
Definition bounded (s : server.Server) : Prop :=
  0 <= server.available_cpu s
    <= server.cpu_capacity s - server.reserved server.r_cpu s
  /\ 0 <= server.available_storage s
       <= server.storage_capacity s - server.reserved server.r_storage s
  /\ 0 <= server.available_memory s
       <= server.memory_capacity s - server.reserved server.r_memory s.

(** The invariant of the ledger operations, and the weaker one that the
    whole round keeps. *)
Definition ledger_inv (s : server.Server) : Prop :=
  exact s /\ within_capacity s /\ held_nonneg s.

Definition round_inv (s : server.Server) : Prop :=
  bounded s /\ held_nonneg s.

(** The three availabilities of a server. *)
Definition availability (s : server.Server) : Z * Z * Z :=
  (server.available_cpu s, server.available_storage s,
   server.available_memory s).

(** The demands the loop reads from a task are non-negative. *)
Definition demand_nonneg (t : task.Task) : Prop :=
  0 <= task.cpu_demand t /\ 0 <= task.storage_demand t
  /\ 0 <= task.memory_demand t /\ 0 <= task.data_size_kb t.

(** A run of allocation requests [(task, release_time)] on one server, as
    the schedulers issue them: the number admitted and the final state. *)
Fixpoint admit_all (W : config.Workload) (s : server.Server)
    (reqs : list (task.Task * Z)) : nat * server.Server :=
  match reqs with
  | [] => (0%nat, s)
  | q :: reqs' =>
      let a := server.allocate W s (task.id q.1) (task.cpu_demand q.1)
                 (task.storage_demand q.1) (task.memory_demand q.1) q.2 in
      let r := admit_all W a.2 reqs' in
      (if a.1 then S r.1 else r.1, r.2)
  end.

End ledger.

(** ** Handover accounting *)

Module handover.

(** The strongest signal an entity receives from a non-empty server list. *)
Definition best_signal (e : mobile_entity.MobileEntity)
    (servers : list server.Server) : option R :=
  match servers with
  | [] => None
  | s :: servers' =>
      Some (fold_left Rmax (mobile_entity.signal_strength e <$> servers')
              (mobile_entity.signal_strength e s))
  end.

(** An entity was handed over in a step when it was attached before and is
    attached to another server after. *)
Definition handed_over (e e' : mobile_entity.MobileEntity) : bool :=
  match mobile_entity.attached_server e, mobile_entity.attached_server e' with
  | Some a, Some b => negb (a =? b)%nat
  | _, _ => false
  end.

(** The number of handovers between the entity lists before and after a
    call of [update_all]. *)
Fixpoint handovers (es es' : list mobile_entity.MobileEntity) : nat :=
  match es, es' with
  | e :: es0, e' :: es0' =>
      ((if handed_over e e' then 1 else 0) + handovers es0 es0')%nat
  | _, _ => 0%nat
  end.

End handover.

(** ** Tiers and placement *)

Module placement.

(** Some server of the tier can take the task: its name starts with the tier
    name and [can_allocate] holds for the task's demand. *)
Definition tier_can_take (tier : string) (t : task.Task)
    (servers : list server.Server) : Prop :=
  exists j s,
    servers !! j = Some s
    /\ String.prefix tier (server.name s) = true
    /\ server.can_allocate s (task.cpu_demand t) (task.storage_demand t)
         (task.memory_demand t) = true.

(** The attributes of a server that no operation of the loop may change. *)
Definition same_identity (s s' : server.Server) : Prop :=
  server.name s' = server.name s
  /\ server.index s' = server.index s
  /\ server.cpu_capacity s' = server.cpu_capacity s
  /\ server.storage_capacity s' = server.storage_capacity s
  /\ server.memory_capacity s' = server.memory_capacity s
  /\ server.bandwidth s' = server.bandwidth s
  /\ server.latency s' = server.latency s
  /\ server.cost s' = server.cost s
  /\ server.tx_cost s' = server.tx_cost s.

(** The ledger part of a server: availability, reservations and counters. *)
Definition same_ledger (s s' : server.Server) : Prop :=
  server.available_cpu s' = server.available_cpu s
  /\ server.available_storage s' = server.available_storage s
  /\ server.available_memory s' = server.available_memory s
  /\ server.running_tasks s' = server.running_tasks s
  /\ server.total_data_transferred_kb s' = server.total_data_transferred_kb s
  /\ server.total_cost s' = server.total_cost s.

(** Every entity refers to a server of the store, if it is attached. *)
Definition attachments_valid (servers : list server.Server)
    (ents : list mobile_entity.MobileEntity) : Prop :=
  Forall (fun e => forall a, mobile_entity.attached_server e = Some a ->
                             (a < length servers)%nat) ents.

End placement.

(** ** Waypoint models *)

Module waypoint.

(** A model that is moving has its velocity attributes. *)
Definition ready (w : random_waypoint.RandomWaypoint) : Prop :=
  random_waypoint.state w = random_waypoint.move ->
  is_Some (random_waypoint.vel w).

End waypoint.

(** ** The metrics step *)

Module reporting.

(** The tier part of what step 7 needs of a server: the tier of its name is
    configured with a non-zero bandwidth, and so is the tier whose energy
    model is used (Cloud for every name that is neither Edge nor
    Regional). *)
Definition tier_known (cfg : list config.TierSpec) (srv : server.Server)
    : Prop :=
  (exists spec,
     config.lookup_tier cfg (py.split_head (server.name srv)) = Some spec
     /\ config.bandwidth spec <> 0)
  /\ (py.split_head (server.name srv) <> "Edge" ->
      py.split_head (server.name srv) <> "Regional" ->
      is_Some (config.lookup_tier cfg "Cloud")).

(** Step 7 can compute the row of a server: besides the tier, its
    capacities and its bandwidth are not zero. *)
Definition reportable (cfg : list config.TierSpec) (srv : server.Server)
    : Prop :=
  server.cpu_capacity srv <> 0 /\ server.memory_capacity srv <> 0
  /\ server.storage_capacity srv <> 0 /\ server.bandwidth srv <> 0
  /\ tier_known cfg srv.

End reporting.

(** ** Concrete inputs *)

Module examples.

(** The six servers that [_initialize_servers] builds from [SERVER_CONFIG]. *)
Definition SERVERS : list server.Server :=
  default [] (simulator.initialize_servers config.SERVER_CONFIG
                config.MOBILITY_CONFIG).

(** [Edge_1] as constructed: full availability, no reservation. *)
Definition edge_1 : server.Server :=
  server.mkServer "Edge_1" 0 280000 800000 300000 164000 5
    (5 # 100000) (2 # 100000) 100 200 100 true
    280000 800000 300000 ∅ 0 0.

(** An Edge server whose configured bandwidth is zero. *)
Definition edge_no_bandwidth : server.Server :=
  server.mkServer "Edge_1" 0 280000 800000 300000 0 5
    (5 # 100000) (2 # 100000) 100 200 100 true
    280000 800000 300000 ∅ 0 0.

(** The ids and priorities drawn for the devices of a round. *)
Definition uuid (d : nat) : string := "task-" +:+ pretty d.
Definition choice (d : nat) : Z := 1.

(** The first task of round 1 under the shipped [WORKLOAD]. *)
Definition first_task : task.Task :=
  task.set_entity_id 0
    (task.init config.WORKLOAD (uuid 0) 10 10 10 10 None (choice 0)).

(** A workload whose per-device demand exceeds every configured CPU
    capacity, and the first task it generates. *)
Definition HEAVY_WORKLOAD : config.Workload :=
  config.mkWorkload 100 6000 10 200000000.

Definition heavy_task : task.Task :=
  task.set_entity_id 0
    (task.init HEAVY_WORKLOAD (uuid 0) 200000000 200000000 200000000
       200000000 None (choice 0)).

(** The store after the scheduler has placed [first_task] at time 0, and
    [Edge_1] in it. *)
Definition scheduled_servers : list server.Server :=
  (scheduler.schedule config.WORKLOAD [first_task] SERVERS 0).2.

Definition edge_1_scheduled : server.Server :=
  (server.allocate config.WORKLOAD edge_1 "task-0" 10 10 10 5).2.

(** Two servers seen from the origin: [node_A] at distance 1, [node_B] at
    distance 100. *)
Definition node_A : server.Server :=
  server.mkServer "Edge_1" 0 280000 800000 300000 164000 5
    (5 # 100000) (2 # 100000) 0 1 0 true
    280000 800000 300000 ∅ 0 0.

Definition node_B : server.Server :=
  server.mkServer "Edge_2" 1 280000 800000 300000 164000 5
    (5 # 100000) (2 # 100000) 0 100 0 true
    280000 800000 300000 ∅ 0 0.

(** A device at the origin, built as the simulator builds its devices, and
    attached to server [a] of the store. *)
Definition device_at_origin (a : nat) : mobile_entity.MobileEntity :=
  mobile_entity.set_mobility
    (mobile_entity.set_attached_server
       (mobile_entity.init config.MOBILITY_CONFIG 0
          (mobile_entity.Pos2 0 0) (config.default_speed_m_s config.MOBILITY_CONFIG))
       (Some a))
    true.

(** A time step in which every waypoint model is paused: nobody moves. *)
Definition paused : manager.Motion :=
  manager.mkMotion
    (fun i => match i with O => (0, 1)%R | _ => (0, 100)%R end)
    (fun _ => (0, 0)%R).

(** A manager over one device that is attached to the far server. *)
Definition far_manager : manager.MobilityManager :=
  manager.init config.MOBILITY_CONFIG [device_at_origin 1].

(** The ramp of the specification's example: 100 to 150 devices in steps of
    10. *)
Definition RAMP_WORKLOAD : config.Workload := config.mkWorkload 100 150 10 10.

(** A small workload. *)
Definition SMALL_WORKLOAD : config.Workload := config.mkWorkload 2 4 1 10.

(** A workload of one round with one device, and a simulator over the two
    servers of the scenario, with the one device attached to the far
    server: the task of the round carries [entity_id] 0, the index of that
    device. *)
Definition SINGLE_WORKLOAD : config.Workload := config.mkWorkload 1 1 1 10.

Definition single_simulator : simulator.Simulator :=
  simulator.mkSimulator 0 [node_A; node_B] [] []
    (generator.init SINGLE_WORKLOAD) far_manager.

Definition paused_round : simulator.Oracle :=
  simulator.mkOracle uuid choice paused.

(** The waypoint model of [Edge_1] as [Server.__init__] leaves it before
    the first call: built at random, then put at the configured position. *)
Definition edge_1_waypoint : random_waypoint.RandomWaypoint :=
  random_waypoint.set_pos
    (random_waypoint.init (random_waypoint.mkArea 0 1000 0 1000) (1, 5)%R
       (0, 2)%R (640, 70)%R (310, 820)%R 1%R)
    (100, 200)%R.

(** Draws whose random point is the position [Edge_1] already has. *)
Definition same_point_draws : random_waypoint.Draws :=
  random_waypoint.mkDraws (100, 200)%R 3%R 1%R.

End examples.

(** * Properties *)

(** ** The resource ledger: [allocate] and [release_completed_tasks] *)

Section Ledger.
Import server ledger.
Variable W : config.Workload.

Lemma can_allocate_true (s : Server) (c st m : Z) :
  can_allocate s c st m = true <->
  c <= available_cpu s /\ st <= available_storage s /\ m <= available_memory s.
Proof.
  unfold can_allocate. rewrite !andb_true_iff, !Z.geb_le. tauto.
Qed.

Lemma allocate_admitted (s : Server) id c st m rt :
  can_allocate s c st m = true ->
  allocate W s id c st m rt =
    (true,
     mkServer (name s) (index s) (cpu_capacity s) (storage_capacity s)
       (memory_capacity s) (bandwidth s) (latency s) (cost s) (tx_cost s)
       (x s) (y s) (location s) (mobility s)
       (available_cpu s - c) (available_storage s - st) (available_memory s - m)
       (<[id := mkReservation c st m rt]> (running_tasks s))
       (total_data_transferred_kb s + inject_Z (config.data_per_device_kb W))%Q
       (total_cost s
        + (inject_Z c * cost s
           + inject_Z (config.data_per_device_kb W) * tx_cost s))%Q).
Proof. intros H. unfold allocate. by rewrite H. Qed.

Lemma allocate_refused (s : Server) id c st m rt :
  can_allocate s c st m = false -> allocate W s id c st m rt = (false, s).
Proof. intros H. unfold allocate. by rewrite H. Qed.

Lemma sum_insert (proj : Reservation -> Z) (m : gmap string Reservation) id r :
  m !! id = None ->
  map_fold (fun _ r acc => proj r + acc) 0 (<[id := r]> m)
  = proj r + map_fold (fun _ r acc => proj r + acc) 0 m.
Proof.
  intros H.
  apply (map_fold_insert_L (fun _ r acc => proj r + acc)); [intros; lia | done].
Qed.

Lemma sum_delete (proj : Reservation -> Z) (m : gmap string Reservation) id r :
  m !! id = Some r ->
  map_fold (fun _ r acc => proj r + acc) 0 m
  = proj r + map_fold (fun _ r acc => proj r + acc) 0 (delete id m).
Proof.
  intros H.
  apply (map_fold_delete_L (fun _ r acc => proj r + acc)); [intros; lia | done].
Qed.

(** Overwriting an entry replaces its share of the sum. *)
Lemma sum_overwrite (proj : Reservation -> Z) (m : gmap string Reservation)
    id r r0 :
  m !! id = Some r0 ->
  map_fold (fun _ r acc => proj r + acc) 0 (<[id := r]> m)
  = proj r + map_fold (fun _ r acc => proj r + acc) 0 m - proj r0.
Proof.
  intros H. rewrite <- insert_delete_eq.
  rewrite sum_insert by apply lookup_delete_eq.
  rewrite (sum_delete proj m id r0 H). lia.
Qed.

Lemma sum_nonneg (proj : Reservation -> Z) (m : gmap string Reservation) :
  map_Forall (fun _ r => 0 <= proj r) m ->
  0 <= map_fold (fun _ r acc => proj r + acc) 0 m.
Proof.
  induction m as [|id r m Hid IH] using map_ind.
  - intros _. by rewrite map_fold_empty.
  - intros H. rewrite sum_insert by done.
    apply map_Forall_insert in H as [Hr Hm]; [|done].
    specialize (IH Hm). lia.
Qed.

Lemma reserved_nonneg (s : Server) :
  held_nonneg s ->
  0 <= reserved r_cpu s /\ 0 <= reserved r_storage s /\ 0 <= reserved r_memory s.
Proof.
  intros H. unfold reserved.
  repeat split; apply sum_nonneg; eapply map_Forall_impl; eauto; simpl; tauto.
Qed.

Lemma ledger_inv_round_inv (s : Server) : ledger_inv s -> round_inv s.
Proof.
  unfold ledger_inv, round_inv, exact, within_capacity, bounded.
  intros (He & Hw & Hn). split; [lia | done].
Qed.

Lemma round_inv_within (s : Server) : round_inv s -> within_capacity s.
Proof.
  intros [Hb Hn]. destruct (reserved_nonneg s Hn) as (? & ? & ?).
  unfold within_capacity, bounded in *. lia.
Qed.

(** *** [allocate] *)

Lemma allocate_held_nonneg (s : Server) id c st m rt :
  0 <= c -> 0 <= st -> 0 <= m ->
  held_nonneg s -> held_nonneg (allocate W s id c st m rt).2.
Proof.
  intros Hc Hst Hm Hn. unfold allocate.
  destruct (can_allocate s c st m); simpl; [|done].
  unfold held_nonneg; simpl. apply map_Forall_insert_2; [simpl; lia | done].
Qed.

Lemma allocate_exact (s : Server) id c st m rt :
  running_tasks s !! id = None ->
  exact s -> exact (allocate W s id c st m rt).2.
Proof.
  intros Hid He. unfold allocate.
  destruct (can_allocate s c st m); simpl; [|done].
  unfold exact, reserved in *; simpl.
  rewrite !sum_insert by done. simpl. lia.
Qed.

Lemma allocate_within (s : Server) id c st m rt :
  0 <= c -> 0 <= st -> 0 <= m ->
  within_capacity s -> within_capacity (allocate W s id c st m rt).2.
Proof.
  intros Hc Hst Hm Hw. unfold allocate.
  destruct (can_allocate s c st m) eqn:Hcan; simpl; [|done].
  apply can_allocate_true in Hcan.
  unfold within_capacity in *; simpl. lia.
Qed.

Lemma allocate_bounded (s : Server) id c st m rt :
  0 <= c -> 0 <= st -> 0 <= m ->
  held_nonneg s -> bounded s -> bounded (allocate W s id c st m rt).2.
Proof.
  intros Hc Hst Hm Hn Hb. unfold allocate.
  destruct (can_allocate s c st m) eqn:Hcan; simpl; [|done].
  apply can_allocate_true in Hcan.
  unfold bounded, reserved in *; simpl.
  destruct (running_tasks s !! id) as [r0|] eqn:Hid.
  - rewrite !(sum_overwrite _ _ _ _ r0) by done. simpl.
    specialize (Hn id r0 Hid). simpl in Hn. lia.
  - rewrite !sum_insert by done. simpl. lia.
Qed.

Lemma allocate_ledger_inv (s : Server) id c st m rt :
  0 <= c -> 0 <= st -> 0 <= m -> running_tasks s !! id = None ->
  ledger_inv s -> ledger_inv (allocate W s id c st m rt).2.
Proof.
  intros Hc Hst Hm Hid (He & Hw & Hn). split; [|split].
  - by apply allocate_exact.
  - by apply allocate_within.
  - by apply allocate_held_nonneg.
Qed.

Lemma allocate_round_inv (s : Server) id c st m rt :
  0 <= c -> 0 <= st -> 0 <= m ->
  round_inv s -> round_inv (allocate W s id c st m rt).2.
Proof.
  intros Hc Hst Hm [Hb Hn]. split;
    [by apply allocate_bounded | by apply allocate_held_nonneg].
Qed.

(** *** [release_completed_tasks] *)

Lemma release_one_held (s : Server) tid r :
  running_tasks s !! tid = Some r ->
  release_one s tid =
    mkServer (name s) (index s) (cpu_capacity s) (storage_capacity s)
      (memory_capacity s) (bandwidth s) (latency s) (cost s) (tx_cost s)
      (x s) (y s) (location s) (mobility s)
      (available_cpu s + r_cpu r) (available_storage s + r_storage r)
      (available_memory s + r_memory r)
      (delete tid (running_tasks s))
      (total_data_transferred_kb s) (total_cost s).
Proof. intros H. unfold release_one. by rewrite H. Qed.

Lemma release_one_running (s : Server) tid :
  running_tasks (release_one s tid) = delete tid (running_tasks s).
Proof.
  unfold release_one. destruct (running_tasks s !! tid) eqn:H; simpl; [done|].
  symmetry. by apply delete_id.
Qed.

Lemma release_one_ledger_inv (s : Server) tid :
  ledger_inv s -> ledger_inv (release_one s tid).
Proof.
  intros (He & Hw & Hn). unfold release_one.
  destruct (running_tasks s !! tid) as [r|] eqn:Hr; [|done].
  pose proof (Hn tid r Hr) as Hrn. simpl in Hrn.
  assert (Hn' : held_nonneg
    (mkServer (name s) (index s) (cpu_capacity s) (storage_capacity s)
      (memory_capacity s) (bandwidth s) (latency s) (cost s) (tx_cost s)
      (x s) (y s) (location s) (mobility s)
      (available_cpu s + r_cpu r) (available_storage s + r_storage r)
      (available_memory s + r_memory r)
      (delete tid (running_tasks s))
      (total_data_transferred_kb s) (total_cost s))).
  { unfold held_nonneg; simpl. by apply map_Forall_delete. }
  destruct (reserved_nonneg _ Hn') as (H1 & H2 & H3).
  unfold ledger_inv, exact, within_capacity, reserved in *; simpl in *.
  rewrite (sum_delete r_cpu _ _ _ Hr), (sum_delete r_storage _ _ _ Hr),
    (sum_delete r_memory _ _ _ Hr) in He.
  split; [|split]; [lia | lia | exact Hn'].
Qed.

Lemma release_one_round_inv (s : Server) tid :
  round_inv s -> round_inv (release_one s tid).
Proof.
  intros [Hb Hn]. unfold release_one.
  destruct (running_tasks s !! tid) as [r|] eqn:Hr; [|done].
  pose proof (Hn tid r Hr) as Hrn. simpl in Hrn.
  split.
  - unfold bounded, reserved in *; simpl.
    rewrite (sum_delete r_cpu _ _ _ Hr), (sum_delete r_storage _ _ _ Hr),
      (sum_delete r_memory _ _ _ Hr) in Hb. lia.
  - unfold held_nonneg; simpl. by apply map_Forall_delete.
Qed.

Lemma release_all_preserves (P : Server -> Prop) (ks : list string) :
  (forall s tid, P s -> P (release_one s tid)) ->
  forall s, P s -> P (foldl release_one s ks).
Proof.
  intros HP. induction ks as [|k ks IH]; simpl; intros s Hs; [done|].
  apply IH, HP, Hs.
Qed.

Lemma release_ledger_inv (s : Server) now :
  ledger_inv s -> ledger_inv (release_completed_tasks s now).
Proof. apply (release_all_preserves ledger_inv), release_one_ledger_inv. Qed.

Lemma release_round_inv (s : Server) now :
  round_inv s -> round_inv (release_completed_tasks s now).
Proof. apply (release_all_preserves round_inv), release_one_round_inv. Qed.

(** After the loop, a key is still present exactly when it was present and
    not in the list of completed ids. *)
Lemma release_all_running (ks : list string) (s : Server) k r :
  running_tasks (foldl release_one s ks) !! k = Some r <->
  (k ∉ ks) /\ running_tasks s !! k = Some r.
Proof.
  revert s. induction ks as [|k0 ks IH]; simpl; intros s.
  - rewrite elem_of_nil. tauto.
  - rewrite IH, release_one_running, lookup_delete_Some, not_elem_of_cons.
    split.
    + intros (? & ? & ?). split; [split|]; [congruence | done | done].
    + intros ((? & ?) & ?). split; [|split]; [done | congruence | done].
Qed.

Lemma completed_elem (s : Server) now k :
  k ∈ completed s now <->
  exists r, running_tasks s !! k = Some r /\ r_release_time r <= now.
Proof.
  unfold completed. rewrite list_elem_of_fmap. split.
  - intros [[k' r] [-> H]]. apply elem_of_map_to_list in H.
    apply map_lookup_filter_Some in H. simpl in *. eauto.
  - intros (r & Hr & Hdue). exists (k, r). split; [done|].
    apply elem_of_map_to_list, map_lookup_filter_Some. done.
Qed.

(** No reservation that is due survives [release_completed_tasks]. *)
Lemma release_none_due (s : Server) now k r :
  running_tasks (release_completed_tasks s now) !! k = Some r ->
  now < r_release_time r.
Proof.
  unfold release_completed_tasks. rewrite release_all_running.
  intros [Hk Hr]. destruct (decide (r_release_time r <= now)); [|lia].
  exfalso. apply Hk, completed_elem. eauto.
Qed.

Lemma completed_nil (s : Server) now :
  (forall k r, running_tasks s !! k = Some r -> now < r_release_time r) ->
  completed s now = [].
Proof.
  intros H. unfold completed.
  replace (filter _ (running_tasks s)) with (∅ : gmap string Reservation);
    [by rewrite map_to_list_empty|].
  symmetry. apply map_empty_filter. intros k r Hr. simpl.
  specialize (H k r Hr). lia.
Qed.

(** Releasing twice at the same time is releasing once. *)
Lemma release_idempotent (s : Server) now :
  release_completed_tasks (release_completed_tasks s now) now
  = release_completed_tasks s now.
Proof.
  unfold release_completed_tasks at 1.
  rewrite completed_nil; [done|]. apply release_none_due.
Qed.

End Ledger.

(** ** Claims on the ledger *)

Section LedgerClaims.
Import server ledger.
Variable W : config.Workload.

(** C6. [allocate] returns [True] and makes its three deductions and its
    reservation exactly when [can_allocate] holds for the demand triple;
    otherwise it returns [False] and the server is the very same state: no
    deduction, no reservation, no change of the data or cost counters. *)
Theorem allocate_atomic (s : Server) (task_id : string) (c st m rt : Z) :
  match allocate W s task_id c st m rt with
  | (true, s') =>
      can_allocate s c st m = true
      /\ available_cpu s' = available_cpu s - c
      /\ available_storage s' = available_storage s - st
      /\ available_memory s' = available_memory s - m
      /\ running_tasks s'
         = <[task_id := mkReservation c st m rt]> (running_tasks s)
  | (false, s') => can_allocate s c st m = false /\ s' = s
  end.
Proof.
  destruct (can_allocate s c st m) eqn:Hcan.
  - rewrite allocate_admitted by done. simpl. done.
  - rewrite allocate_refused by done. done.
Qed.

(** C10. A successful [allocate] for a task adds the configured
    [data_per_device_kb] to [total_data_transferred_kb] and
    [cpu_demand * cost + data_per_device_kb * tx_cost] to [total_cost],
    whatever [data_size_kb] the task itself declares. *)
Theorem allocate_counters (s : Server) (t : task.Task) (rt : Z) :
  (allocate W s (task.id t) (task.cpu_demand t) (task.storage_demand t)
     (task.memory_demand t) rt).1 = true ->
  let s' := (allocate W s (task.id t) (task.cpu_demand t)
               (task.storage_demand t) (task.memory_demand t) rt).2 in
  total_data_transferred_kb s'
  = (total_data_transferred_kb s + inject_Z (config.data_per_device_kb W))%Q
  /\ total_cost s'
     = (total_cost s
        + (inject_Z (task.cpu_demand t) * cost s
           + inject_Z (config.data_per_device_kb W) * tx_cost s))%Q.
Proof.
  intros H. simpl.
  destruct (can_allocate s (task.cpu_demand t) (task.storage_demand t)
              (task.memory_demand t)) eqn:Hcan.
  - rewrite allocate_admitted by done. done.
  - rewrite allocate_refused in H by done. done.
Qed.

(** The data counter after a run of allocation requests: the count of the
    admitted ones times the configured constant. *)
Lemma admissions_counter (reqs : list (task.Task * Z)) (s : Server) :
  (total_data_transferred_kb (admit_all W s reqs).2
   == total_data_transferred_kb s
      + inject_Z (Z.of_nat (admit_all W s reqs).1
                  * config.data_per_device_kb W))%Q.
Proof.
  revert s. induction reqs as [|q reqs IH]; intros s; simpl.
  - change (inject_Z _) with 0%Q. ring.
  - rewrite IH.
    destruct (can_allocate s (task.cpu_demand q.1) (task.storage_demand q.1)
                (task.memory_demand q.1)) eqn:Hcan.
    + rewrite allocate_admitted by done. simpl.
      rewrite Nat2Z.inj_succ, Z.mul_succ_l, inject_Z_plus. ring.
    + rewrite allocate_refused by done. simpl. reflexivity.
Qed.

(** C5 (as amended). After a successful [allocate], [release_completed_tasks]
    at the reservation's release time restores the three availabilities to
    their values before the allocation, provided every other reservation the
    server holds is released later than that time; and a second
    [release_completed_tasks] at the same time changes nothing. *)
Theorem allocate_release_round_trip (s : Server) (task_id : string)
    (c st m rt : Z) :
  can_allocate s c st m = true ->
  (forall k r, k <> task_id -> running_tasks s !! k = Some r ->
               rt < r_release_time r) ->
  let s1 := (allocate W s task_id c st m rt).2 in
  availability (release_completed_tasks s1 rt) = availability s
  /\ running_tasks (release_completed_tasks s1 rt)
     = delete task_id (running_tasks s)
  /\ release_completed_tasks (release_completed_tasks s1 rt) rt
     = release_completed_tasks s1 rt.
Proof.
  intros Hcan Hothers. simpl. split; [|split]; [| |apply release_idempotent].
  all: rewrite allocate_admitted by done; simpl.
  all: unfold release_completed_tasks, completed; simpl.
  all: assert (Hf : filter (fun kv : string * Reservation =>
                         r_release_time kv.2 <= rt)
                 (<[task_id := mkReservation c st m rt]> (running_tasks s))
               = {[task_id := mkReservation c st m rt]}).
  1, 3: apply map_eq; intros k; apply option_eq; intros r;
    rewrite map_lookup_filter_Some, lookup_singleton_Some, lookup_insert_Some;
    simpl; split;
    [ intros [[[-> <-]|[Hne Hr]] Hdue]; [done|];
      specialize (Hothers k r (not_eq_sym Hne) Hr); lia
    | intros [-> <-]; simpl; split; [by left | lia] ].
  - rewrite Hf, map_to_list_singleton. simpl.
    unfold release_one; simpl. rewrite lookup_insert_eq.
    unfold availability; simpl. f_equal; [f_equal|]; lia.
  - rewrite Hf, map_to_list_singleton. simpl.
    unfold release_one; simpl. rewrite lookup_insert_eq. simpl.
    apply delete_insert_eq.
Qed.

End LedgerClaims.

(** Witness of C10: the first generated task admitted on [Edge_1]. *)
Lemma allocate_counters_witness :
  server.total_data_transferred_kb
    (server.allocate config.WORKLOAD examples.edge_1 "task-0" 10 10 10 5).2
  = (0 + inject_Z 10)%Q
  /\ server.total_cost
       (server.allocate config.WORKLOAD examples.edge_1 "task-0" 10 10 10 5).2
     = (0 + (inject_Z 10 * (5 # 100000) + inject_Z 10 * (2 # 100000)))%Q.
Proof.
  apply (allocate_counters config.WORKLOAD examples.edge_1 examples.first_task 5).
  reflexivity.
Defined.

(** Witness of C5: [Edge_1] holds one reservation due at time 9 when a
    second task is admitted with release time 5. *)
Lemma allocate_release_round_trip_witness :
  let s :=
    (server.allocate config.WORKLOAD examples.edge_1 "task-0" 10 10 10 9).2 in
  let s1 := (server.allocate config.WORKLOAD s "task-1" 20 20 20 5).2 in
  ledger.availability (server.release_completed_tasks s1 5)
  = ledger.availability s
  /\ server.running_tasks (server.release_completed_tasks s1 5)
     = delete "task-1" (server.running_tasks s)
  /\ server.release_completed_tasks (server.release_completed_tasks s1 5) 5
     = server.release_completed_tasks s1 5.
Proof.
  apply (allocate_release_round_trip config.WORKLOAD).
  - reflexivity.
  - intros k r Hne Hr. simpl in Hr.
    apply lookup_insert_Some in Hr as [[_ <-]|[_ Hr]]; [simpl; lia|].
    by rewrite lookup_empty in Hr.
Defined.

(** Counterexample to C5 as stated: two tasks admitted on [Edge_1] in the
    same round share the release time 5; releasing at 5 after the second
    allocation credits both, so availability is not the value it had just
    before the second allocation. *)
Lemma round_trip_counterexample :
  let s := (server.allocate config.WORKLOAD examples.edge_1 "task-0" 10 10 10 5).2 in
  let s1 := (server.allocate config.WORKLOAD s "task-1" 10 10 10 5).2 in
  server.can_allocate s 10 10 10 = true
  /\ ledger.availability (server.release_completed_tasks s1 5)
     <> ledger.availability s.
Proof. split; [reflexivity|]. vm_compute. discriminate. Qed.

(** C7 (failing input). On a server whose bandwidth is zero [congestion]
    does not return [0.0]: the unguarded division raises. *)
Theorem congestion_zero_bandwidth_raises :
  server.bandwidth examples.edge_no_bandwidth = 0
  /\ server.congestion examples.edge_no_bandwidth = None.
Proof. split; reflexivity. Qed.

(** With a non-zero bandwidth [congestion] is the ratio in percent, rounded
    to two decimals. *)
Lemma congestion_defined (s : server.Server) :
  server.bandwidth s <> 0 ->
  server.congestion s
  = Some (py.round2
            ((server.total_data_transferred_kb s
              / inject_Z (server.bandwidth s)) * 100)%Q).
Proof.
  intros H. unfold server.congestion.
  destruct (server.bandwidth s =? 0) eqn:E; [|done].
  apply Z.eqb_eq in E. done.
Qed.

(** The sibling [utilization] guards its divisions: a zero capacity gives 0. *)
Lemma utilization_zero_capacity (available : Z) : server.util_of available 0 = 0%Q.
Proof. reflexivity. Qed.

(** ** The greedy tier scheduler *)

Section Scheduler.
Import server ledger.
Variable W : config.Workload.

Lemma min_by_elem {A} (key : A -> Z) (l : list A) (a : A) :
  py.min_by key l = Some a -> a ∈ l.
Proof.
  destruct l as [|b l]; simpl; [done|]. intros [= <-].
  assert (G : forall l0 b0,
             fold_left (fun best c => if key c <? key best then c else best) l0 b0
             ∈ b0 :: l0).
  { induction l0 as [|c l0 IH]; intros b0; simpl; [by left|].
    specialize (IH (if key c <? key b0 then c else b0)).
    apply elem_of_cons in IH as [->|IH].
    - destruct (key c <? key b0); [right; left | left].
    - right; by right. }
  apply G.
Qed.

Lemma eligible_elem (tier : string) (t : task.Task) (servers : list Server)
    (i : nat) (s : Server) :
  (i, s) ∈ scheduler.eligible tier t servers ->
  servers !! i = Some s
  /\ String.prefix tier (name s) = true
  /\ can_allocate s (task.cpu_demand t) (task.storage_demand t)
       (task.memory_demand t) = true.
Proof.
  unfold scheduler.eligible. rewrite list_elem_of_In, filter_In.
  rewrite <- list_elem_of_In, elem_of_lookup_imap. simpl.
  intros [(j & s' & Heq & Hl) Hf]. injection Heq as -> ->.
  apply andb_true_iff in Hf. tauto.
Qed.

(** A tier block that places the task chose a server of that tier for which
    [can_allocate] held in the store it was given, and allocated on it. *)
Lemma try_tier_placed (tier : string) (t : task.Task) (servers : list Server)
    (now : Z) (i : nat) (servers' : list Server) :
  scheduler.try_tier W tier t servers now = Some (i, servers') ->
  exists s,
    servers !! i = Some s
    /\ String.prefix tier (name s) = true
    /\ can_allocate s (task.cpu_demand t) (task.storage_demand t)
         (task.memory_demand t) = true
    /\ servers' =
       <[i := (allocate W s (task.id t) (task.cpu_demand t)
                 (task.storage_demand t) (task.memory_demand t)
                 (now + latency s)).2]> servers.
Proof.
  unfold scheduler.try_tier.
  destruct (py.min_by _ _) as [[j sel]|] eqn:Hmin; [|done].
  intros [= <- <-]. apply min_by_elem, eligible_elem in Hmin.
  exists sel. tauto.
Qed.

Lemma try_tier_none (tier : string) (t : task.Task) (servers : list Server)
    (now : Z) :
  scheduler.try_tier W tier t servers now = None ->
  scheduler.eligible tier t servers = [].
Proof.
  unfold scheduler.try_tier.
  destruct (scheduler.eligible tier t servers) as [|p l]; [done|].
  simpl. by destruct (fold_left _ _ _).
Qed.

(** Every pair that names a server names one for which [can_allocate] was
    true in the store immediately before the allocation. *)
Lemma schedule_task_placed (t : task.Task) (servers : list Server) (now : Z)
    (i : nat) (servers' : list Server) :
  scheduler.schedule_task W t servers now = (Some i, servers') ->
  exists s,
    servers !! i = Some s
    /\ can_allocate s (task.cpu_demand t) (task.storage_demand t)
         (task.memory_demand t) = true
    /\ servers' =
       <[i := (allocate W s (task.id t) (task.cpu_demand t)
                 (task.storage_demand t) (task.memory_demand t)
                 (now + latency s)).2]> servers.
Proof.
  unfold scheduler.schedule_task.
  destruct (scheduler.try_tier W "Edge" t servers now) as [[j l]|] eqn:He.
  { intros [= <- <-]. apply try_tier_placed in He as (s & ? & ? & ? & ?). eauto. }
  destruct (scheduler.try_tier W "Regional" t servers now) as [[j l]|] eqn:Hr.
  { intros [= <- <-]. apply try_tier_placed in Hr as (s & ? & ? & ? & ?). eauto. }
  destruct (scheduler.try_tier W "Cloud" t servers now) as [[j l]|] eqn:Hc.
  { intros [= <- <-]. apply try_tier_placed in Hc as (s & ? & ? & ? & ?). eauto. }
  done.
Qed.

(** A task that no tier admits still yields a pair, with [None] as server,
    and leaves the store as it was. *)
Lemma schedule_task_unplaced (t : task.Task) (servers : list Server) (now : Z)
    (servers' : list Server) :
  scheduler.schedule_task W t servers now = (None, servers') ->
  servers' = servers
  /\ scheduler.eligible "Edge" t servers = []
  /\ scheduler.eligible "Regional" t servers = []
  /\ scheduler.eligible "Cloud" t servers = [].
Proof.
  unfold scheduler.schedule_task.
  destruct (scheduler.try_tier W "Edge" t servers now) as [[j l]|] eqn:He; [done|].
  destruct (scheduler.try_tier W "Regional" t servers now) as [[j l]|] eqn:Hr; [done|].
  destruct (scheduler.try_tier W "Cloud" t servers now) as [[j l]|] eqn:Hc; [done|].
  intros [= <-]. split; [done|]. split; [|split]; by eapply try_tier_none.
Qed.

(** The returned sequence has one pair per submitted task, in order. *)
Lemma schedule_from_fst (tasks : list task.Task) (k : nat)
    (servers : list Server) (now : Z) :
  (scheduler.schedule_from W k tasks servers now).1.*1 = seq k (length tasks).
Proof.
  revert k servers. induction tasks as [|t tasks IH]; intros k servers; simpl;
    [done|]. by rewrite IH.
Qed.

Lemma schedule_length (tasks : list task.Task) (servers : list Server) (now : Z) :
  length (scheduler.schedule W tasks servers now).1.1 = length tasks.
Proof.
  unfold scheduler.schedule. simpl.
  rewrite <- (length_fmap fst), schedule_from_fst. apply length_seq.
Qed.

Lemma schedule_task_preserves (P : Server -> Prop) (t : task.Task)
    (servers : list Server) (now : Z) :
  (forall s id rt, P s ->
     P (allocate W s id (task.cpu_demand t) (task.storage_demand t)
          (task.memory_demand t) rt).2) ->
  Forall P servers -> Forall P (scheduler.schedule_task W t servers now).2.
Proof.
  intros HP HF.
  destruct (scheduler.schedule_task W t servers now) as [[i|] servers'] eqn:E.
  - apply schedule_task_placed in E as (s & Hs & _ & ->). simpl.
    apply Forall_insert; [done|]. apply HP. by eapply Forall_lookup_1.
  - apply schedule_task_unplaced in E as [-> _]. done.
Qed.

Lemma schedule_from_preserves (P : Server -> Prop) (tasks : list task.Task)
    (k : nat) (servers : list Server) (now : Z) :
  Forall (fun t => forall s id rt, P s ->
     P (allocate W s id (task.cpu_demand t) (task.storage_demand t)
          (task.memory_demand t) rt).2) tasks ->
  Forall P servers -> Forall P (scheduler.schedule_from W k tasks servers now).2.
Proof.
  revert k servers. induction tasks as [|t tasks IH]; intros k servers Ht HF;
    simpl; [done|].
  apply Forall_cons in Ht as [Ht Hts].
  apply IH; [done|]. by apply schedule_task_preserves.
Qed.

Lemma schedule_round_inv (tasks : list task.Task) (servers : list Server)
    (now : Z) :
  Forall demand_nonneg tasks ->
  Forall round_inv servers ->
  Forall round_inv (scheduler.schedule W tasks servers now).2.
Proof.
  intros Ht HF. unfold scheduler.schedule. simpl.
  apply schedule_from_preserves; [|done].
  eapply Forall_impl; [exact Ht|]. intros t (? & ? & ? & ?) s id rt Hs.
  by apply allocate_round_inv.
Qed.

End Scheduler.

(** ** The simulation loop *)

Section Loop.
Import server ledger.
Variable W : config.Workload.
Variable M : config.MobilityConfig.

Lemma apply_assignment_placed (now : Z) (tasks : list task.Task)
    (servers : list Server) (ti si : nat) (t : task.Task) (srv : Server) :
  tasks !! ti = Some t -> servers !! si = Some srv ->
  simulator.apply_assignment now (tasks, servers) (ti, Some si)
  = Some (<[ti := task.complete t now (now + latency srv)]> tasks,
          <[si := simulator.deduct srv t]> servers).
Proof.
  intros Ht Hs. unfold simulator.apply_assignment. simpl.
  rewrite Ht. simpl. rewrite Hs. done.
Qed.

(** A pair without a server stops the loop with an exception. *)
Lemma apply_assignment_unplaced (now : Z) (st : list task.Task * list Server)
    (ti : nat) :
  simulator.apply_assignment now st (ti, None) = None.
Proof. unfold simulator.apply_assignment. simpl. by destruct (st.1 !! ti). Qed.

Lemma apply_assignment_inv (now : Z) (st st' : list task.Task * list Server)
    (pr : nat * option nat) :
  simulator.apply_assignment now st pr = Some st' ->
  exists t si srv,
    st.1 !! pr.1 = Some t /\ pr.2 = Some si /\ st.2 !! si = Some srv
    /\ st' = (<[pr.1 := task.complete t now (now + latency srv)]> st.1,
              <[si := simulator.deduct srv t]> st.2).
Proof.
  unfold simulator.apply_assignment. destruct pr as [ti [si|]]; simpl.
  - destruct (st.1 !! ti) as [t|] eqn:Ht; simpl; [|done].
    destruct (st.2 !! si) as [srv|] eqn:Hs; simpl; [|done].
    intros [= <-]. by exists t, si, srv.
  - by destruct (st.1 !! ti).
Qed.

Lemma deduct_round_inv (srv : Server) (t : task.Task) :
  demand_nonneg t -> round_inv srv -> round_inv (simulator.deduct srv t).
Proof.
  intros (? & ? & ? & ?) [Hb Hn]. split; [|done].
  unfold bounded, reserved in *. simpl. lia.
Qed.

Lemma complete_demand_nonneg (t : task.Task) (a b : Z) :
  demand_nonneg t -> demand_nonneg (task.complete t a b).
Proof. done. Qed.

Lemma apply_assignments_round_inv (now : Z) (prs : list (nat * option nat))
    (st st' : list task.Task * list Server) :
  Forall demand_nonneg st.1 -> Forall round_inv st.2 ->
  simulator.apply_assignments now st prs = Some st' ->
  Forall demand_nonneg st'.1 /\ Forall round_inv st'.2.
Proof.
  revert st. induction prs as [|pr prs IH]; intros st Ht Hs; simpl.
  - by intros [= <-].
  - destruct (simulator.apply_assignment now st pr) as [st1|] eqn:E; simpl;
      [|done].
    apply apply_assignment_inv in E as (t & si & srv & Hti & _ & Hsi & ->).
    apply IH; simpl.
    + apply Forall_insert; [done|]. apply complete_demand_nonneg.
      by eapply Forall_lookup_1.
    + apply Forall_insert; [done|]. apply deduct_round_inv.
      * by eapply Forall_lookup_1.
      * by eapply Forall_lookup_1.
Qed.

Lemma move_server_round_inv (mo : manager.Motion) (i : nat) (s : Server) :
  round_inv s -> round_inv (manager.move_server mo i s).
Proof. unfold manager.move_server. by destruct (mobility s). Qed.

Lemma update_all_servers (mgr mgr' : manager.MobilityManager)
    (servers servers' : list Server) (mo : manager.Motion) (r : Z * Z) :
  manager.update_all M mgr servers mo = Some (mgr', servers', r) ->
  servers' = imap (manager.move_server mo) servers.
Proof.
  unfold manager.update_all.
  destruct (manager.update_entities _ _ _ _ _ _ _ _) as [u|]; simpl; [|done].
  by intros [= _ <- _].
Qed.

Lemma generated_demand_nonneg (g : generator.WorkloadGenerator)
    (uuid : nat -> string) (choice : nat -> Z) (round_no : Z) :
  0 <= config.data_per_device_kb W -> 0 <= generator.data_per_device_kb g ->
  Forall demand_nonneg
    (imap task.set_entity_id
       (generator.generate_tasks W g uuid choice round_no)).
Proof.
  intros HW Hg. apply Forall_lookup_2. intros i t.
  rewrite list_lookup_imap. unfold generator.generate_tasks.
  rewrite list_lookup_fmap.
  destruct (seq 0 _ !! i) as [d|]; simpl; [|done].
  intros [= <-]. unfold demand_nonneg. simpl. done.
Qed.

(** One round of the loop driven by the greedy tier scheduler keeps every
    server within [0 <= available <= capacity - reserved]. *)
Lemma run_round_round_inv (sim sim' : simulator.Simulator) (round_no : Z)
    (o : simulator.Oracle) (log : simulator.RoundLog) :
  0 <= config.data_per_device_kb W ->
  0 <= generator.data_per_device_kb (simulator.generator sim) ->
  Forall round_inv (simulator.servers sim) ->
  simulator.run_round (scheduler.schedule W) W M sim round_no o
  = Some (sim', log) ->
  Forall round_inv (simulator.servers sim')
  /\ simulator.generator sim' = simulator.generator sim.
Proof.
  intros HW Hg Hinv. unfold simulator.run_round.
  destruct (manager.update_all M _ _ _) as [[[mgr' servers'] r]|] eqn:Hmob;
    simpl; [|done].
  apply update_all_servers in Hmob as ->.
  destruct (simulator.apply_assignments _ _ _) as [st|] eqn:Happ; simpl;
    [|done].
  intros [= <- _]. simpl. split; [|done].
  eapply apply_assignments_round_inv in Happ as [_ H]; [exact H| |]; simpl.
  - by apply generated_demand_nonneg.
  - apply schedule_from_preserves.
    + eapply Forall_impl; [by apply generated_demand_nonneg|].
      intros t (? & ? & ? & ?) s id rt Hs. by apply allocate_round_inv.
    + apply Forall_fmap, Forall_lookup_2. intros i s.
      rewrite list_lookup_imap.
      destruct (simulator.servers sim !! i) as [s0|] eqn:Hs0; simpl; [|done].
      intros [= <-]. apply release_round_inv, move_server_round_inv.
      by eapply Forall_lookup_1.
Qed.

Lemma run_rounds_round_inv (oracle : nat -> simulator.Oracle)
    (rounds : list nat) (sim sim' : simulator.Simulator)
    (logs : list simulator.RoundLog) :
  0 <= config.data_per_device_kb W ->
  0 <= generator.data_per_device_kb (simulator.generator sim) ->
  Forall round_inv (simulator.servers sim) ->
  simulator.run_rounds (scheduler.schedule W) W M oracle sim rounds
  = Some (sim', logs) ->
  Forall round_inv (simulator.servers sim').
Proof.
  intros HW. revert sim logs.
  induction rounds as [|r rounds IH]; intros sim logs Hg Hinv; simpl.
  - by intros [= <- _].
  - destruct (simulator.run_round _ _ _ _ _ _) as [[sim1 log]|] eqn:E; simpl;
      [|done].
    apply run_round_round_inv in E as [H1 H2]; [|done..].
    destruct (simulator.run_rounds _ _ _ _ _ _) as [[sim2 logs2]|] eqn:E2;
      simpl; [|done].
    intros [= <- _]. eapply IH; [| |exact E2]; [by rewrite H2 | done].
Qed.

(** A server as constructed satisfies the ledger invariant when its
    capacities are non-negative. *)
Lemma init_ledger_inv (cfg : list config.TierSpec)
    (nm : string) (i : nat) (c st m bw lat : Z) (co tx : Q) (s : Server) :
  0 <= c -> 0 <= st -> 0 <= m ->
  server.init cfg M nm i c st m bw lat co tx = Some s -> ledger_inv s.
Proof.
  intros Hc Hst Hm. unfold server.init.
  destruct (config.lookup_tier cfg _) as [spec|]; simpl; [|done].
  destruct (config.positions spec !! i) as [pos|]; simpl; [|done].
  intros [= <-]. split; [|split].
  - unfold exact, reserved; simpl. rewrite !map_fold_empty. lia.
  - unfold within_capacity; simpl. lia.
  - apply map_Forall_empty.
Qed.

Lemma initialize_servers_ledger_inv (cfg : list config.TierSpec)
    (l : list Server) :
  Forall (fun spec => 0 <= config.cpu spec /\ 0 <= config.storage spec
                      /\ 0 <= config.memory spec) cfg ->
  simulator.initialize_servers cfg M = Some l -> Forall ledger_inv l.
Proof.
  intros Hcfg. unfold simulator.initialize_servers.
  destruct (mapM _ cfg) as [tiers|] eqn:E; simpl; [|done].
  intros [= <-]. apply Forall_concat.
  eapply Forall2_Forall_r; [apply mapM_Some_1, E|].
  eapply Forall_impl; [exact Hcfg|]. intros spec (? & ? & ?) k Hk.
  unfold simulator.tier_servers in Hk.
  eapply Forall2_Forall_r; [apply mapM_Some_1, Hk|].
  apply Forall_forall. intros i _ s Hs.
  eapply init_ledger_inv; [| | |exact Hs]; done.
Qed.

(** From construction to the end of a run driven by the greedy tier
    scheduler, every server stays within [0 <= available <= capacity]. *)
Lemma run_within_capacity (cfg : list config.TierSpec)
    (oracle : nat -> simulator.Oracle) (sim sim' : simulator.Simulator)
    (logs : list simulator.RoundLog) :
  Forall (fun spec => 0 <= config.cpu spec /\ 0 <= config.storage spec
                      /\ 0 <= config.memory spec) cfg ->
  0 <= config.data_per_device_kb W ->
  simulator.init cfg W M = Some sim ->
  simulator.run (scheduler.schedule W) W M oracle sim = Some (sim', logs) ->
  Forall within_capacity (simulator.servers sim').
Proof.
  intros Hcfg HW Hinit Hrun. unfold simulator.init in Hinit.
  destruct (simulator.initialize_servers cfg M) as [l|] eqn:Hl; simpl in Hinit;
    [|done].
  destruct (mapM _ _) as [ents|]; simpl in Hinit; [|done].
  injection Hinit as <-. unfold simulator.run in Hrun.
  destruct (simulator.total_rounds W) as [n|]; simpl in Hrun; [|done].
  eapply Forall_impl; [|apply round_inv_within].
  eapply run_rounds_round_inv; [exact HW| | |exact Hrun]; simpl; [done|].
  eapply Forall_impl; [by eapply initialize_servers_ledger_inv|].
  apply ledger_inv_round_inv.
Qed.

End Loop.

(** ** Claims on the simulation loop and the scheduler *)

Section LoopClaims.
Import server ledger.

(** C1 (as amended). For a pair [(item, node)] returned by the scheduler the
    application step records the completion window [[now, now + latency]]
    and, besides, deducts the item's [cpu_demand], [data_size_kb] and
    [memory_demand] from the node's availability once more, each bounded
    at 0.  The node's reservations, its two counters, its identity (name,
    index, capacities, bandwidth, latency, rates), its position and its
    mobility flag are unchanged, and so are all other nodes; of the item
    only the window and the status change, and no other item changes. *)
Theorem apply_assignment_effect (now : Z) (tasks : list task.Task)
    (servers : list Server) (ti si : nat) (t : task.Task) (srv : Server) :
  tasks !! ti = Some t -> servers !! si = Some srv ->
  exists tasks' servers' t' srv',
    simulator.apply_assignment now (tasks, servers) (ti, Some si)
    = Some (tasks', servers')
    /\ tasks' !! ti = Some t' /\ servers' !! si = Some srv'
    /\ task.execution_start_time t' = Some now
    /\ task.execution_end_time t' = Some (now + latency srv)
    /\ task.status t' = task.completed
    /\ available_cpu srv' = Z.max (available_cpu srv - task.cpu_demand t) 0
    /\ available_storage srv'
       = Z.max (available_storage srv - task.data_size_kb t) 0
    /\ available_memory srv'
       = Z.max (available_memory srv - task.memory_demand t) 0
    /\ running_tasks srv' = running_tasks srv
    /\ total_data_transferred_kb srv' = total_data_transferred_kb srv
    /\ total_cost srv' = total_cost srv
    /\ placement.same_identity srv srv'
    /\ (x srv' = x srv /\ y srv' = y srv /\ location srv' = location srv
        /\ mobility srv' = mobility srv)
    /\ (task.id t' = task.id t /\ task.cpu_demand t' = task.cpu_demand t
        /\ task.storage_demand t' = task.storage_demand t
        /\ task.memory_demand t' = task.memory_demand t
        /\ task.data_size_kb t' = task.data_size_kb t
        /\ task.priority t' = task.priority t
        /\ task.assigned_server t' = task.assigned_server t
        /\ task.entity_id t' = task.entity_id t)
    /\ (forall j, j <> si -> servers' !! j = servers !! j)
    /\ (forall j, j <> ti -> tasks' !! j = tasks !! j).
Proof.
  intros Ht Hs.
  exists (<[ti := task.complete t now (now + latency srv)]> tasks),
    (<[si := simulator.deduct srv t]> servers),
    (task.complete t now (now + latency srv)), (simulator.deduct srv t).
  split; [by apply apply_assignment_placed|].
  split; [apply list_lookup_insert_eq; by eapply lookup_lt_Some|].
  split; [apply list_lookup_insert_eq; by eapply lookup_lt_Some|].
  do 9 (split; [reflexivity|]).
  split; [by unfold placement.same_identity|].
  split; [done|]. split; [done|].
  split; intros j Hj; by apply list_lookup_insert_ne.
Qed.

(** C3 (as amended). [allocate], called with non-negative demands and an id
    that holds no reservation on the server, and [release_completed_tasks]
    keep [available_X = capacity_X - reserved_X] together with
    [0 <= available_X <= capacity_X].  A round of the loop deducts again
    without a reservation, so across the rounds of a run the servers only
    keep [0 <= available_X <= capacity_X - reserved_X], hence
    [0 <= available_X <= capacity_X]. *)
Theorem ledger_invariants (W : config.Workload) (M : config.MobilityConfig) :
  (forall s id c st m rt,
      0 <= c -> 0 <= st -> 0 <= m -> running_tasks s !! id = None ->
      ledger_inv s -> ledger_inv (allocate W s id c st m rt).2)
  /\ (forall s now, ledger_inv s -> ledger_inv (release_completed_tasks s now))
  /\ (forall sim round_no o sim' log,
        0 <= config.data_per_device_kb W ->
        0 <= generator.data_per_device_kb (simulator.generator sim) ->
        Forall round_inv (simulator.servers sim) ->
        simulator.run_round (scheduler.schedule W) W M sim round_no o
        = Some (sim', log) ->
        Forall round_inv (simulator.servers sim')
        /\ Forall within_capacity (simulator.servers sim'))
  /\ (forall cfg oracle sim sim' logs,
        Forall (fun spec => 0 <= config.cpu spec /\ 0 <= config.storage spec
                            /\ 0 <= config.memory spec) cfg ->
        0 <= config.data_per_device_kb W ->
        simulator.init cfg W M = Some sim ->
        simulator.run (scheduler.schedule W) W M oracle sim
        = Some (sim', logs) ->
        Forall within_capacity (simulator.servers sim')).
Proof.
  split; [|split; [|split]].
  - intros. by apply allocate_ledger_inv.
  - intros. by apply release_ledger_inv.
  - intros sim round_no o sim' log HW Hg Hinv Hrun.
    apply (run_round_round_inv W M) in Hrun as [H _]; [|done..].
    split; [done|]. eapply Forall_impl; [exact H|]. apply round_inv_within.
  - intros. by eapply run_within_capacity.
Qed.

(** A round driven by the greedy tier scheduler that completes reports no
    failure, whatever was placed: the returned sequence has one pair per
    submitted task. *)
Lemma run_round_failed_count (W : config.Workload) (M : config.MobilityConfig)
    (sim sim' : simulator.Simulator) (round_no : Z) (o : simulator.Oracle)
    (log : simulator.RoundLog) :
  simulator.run_round (scheduler.schedule W) W M sim round_no o
  = Some (sim', log) ->
  simulator.failed_count log = 0.
Proof.
  unfold simulator.run_round.
  destruct (manager.update_all M _ _ _) as [mob|]; simpl; [|done].
  destruct (simulator.apply_assignments _ _ _) as [st|]; simpl; [|done].
  intros [= _ <-]. simpl.
  rewrite <- (length_fmap fst), schedule_from_fst, length_seq. lia.
Qed.

(** The loop over the assignments completes only if every pair names a
    server. *)
Lemma apply_assignments_all_placed (now : Z) (prs : list (nat * option nat))
    (st st' : list task.Task * list Server) :
  simulator.apply_assignments now st prs = Some st' ->
  Forall (fun pr => is_Some pr.2) prs.
Proof.
  revert st. induction prs as [|pr prs IH]; intros st; simpl; [done|].
  destruct (simulator.apply_assignment now st pr) as [st1|] eqn:E; simpl;
    [|done].
  intros H. constructor; [|by eapply IH].
  apply apply_assignment_inv in E as (? & si & ? & _ & -> & _). by exists si.
Qed.

End LoopClaims.

(** Witness of C1: the pair [(first_task, Edge_1)] after the scheduler has
    placed the task. *)
Lemma apply_assignment_effect_witness :
  exists tasks' servers' t' srv',
    simulator.apply_assignment 0
      ([examples.first_task], examples.scheduled_servers) (0%nat, Some 0%nat)
    = Some (tasks', servers')
    /\ tasks' !! 0%nat = Some t' /\ servers' !! 0%nat = Some srv'
    /\ task.execution_start_time t' = Some 0
    /\ task.execution_end_time t'
       = Some (0 + server.latency examples.edge_1_scheduled)
    /\ task.status t' = task.completed
    /\ server.available_cpu srv'
       = Z.max (server.available_cpu examples.edge_1_scheduled
                - task.cpu_demand examples.first_task) 0
    /\ server.available_storage srv'
       = Z.max (server.available_storage examples.edge_1_scheduled
                - task.data_size_kb examples.first_task) 0
    /\ server.available_memory srv'
       = Z.max (server.available_memory examples.edge_1_scheduled
                - task.memory_demand examples.first_task) 0
    /\ server.running_tasks srv'
       = server.running_tasks examples.edge_1_scheduled
    /\ server.total_data_transferred_kb srv'
       = server.total_data_transferred_kb examples.edge_1_scheduled
    /\ server.total_cost srv' = server.total_cost examples.edge_1_scheduled
    /\ placement.same_identity examples.edge_1_scheduled srv'
    /\ (server.x srv' = server.x examples.edge_1_scheduled
        /\ server.y srv' = server.y examples.edge_1_scheduled
        /\ server.location srv' = server.location examples.edge_1_scheduled
        /\ server.mobility srv' = server.mobility examples.edge_1_scheduled)
    /\ (task.id t' = task.id examples.first_task
        /\ task.cpu_demand t' = task.cpu_demand examples.first_task
        /\ task.storage_demand t' = task.storage_demand examples.first_task
        /\ task.memory_demand t' = task.memory_demand examples.first_task
        /\ task.data_size_kb t' = task.data_size_kb examples.first_task
        /\ task.priority t' = task.priority examples.first_task
        /\ task.assigned_server t'
           = task.assigned_server examples.first_task
        /\ task.entity_id t' = task.entity_id examples.first_task)
    /\ (forall j, j <> 0%nat ->
                  servers' !! j = examples.scheduled_servers !! j)
    /\ (forall j, j <> 0%nat -> tasks' !! j = [examples.first_task] !! j).
Proof.
  apply (apply_assignment_effect 0 [examples.first_task]
           examples.scheduled_servers 0 0 examples.first_task
           examples.edge_1_scheduled).
  - reflexivity.
  - vm_compute. reflexivity.
Defined.

(** Counterexample to C1 as stated: the scheduler places [first_task] on
    [Edge_1] and allocates there; applying the returned pair then lowers the
    availability of [Edge_1] a second time. *)
Lemma apply_deducts_again :
  let r := scheduler.schedule config.WORKLOAD [examples.first_task]
             examples.SERVERS 0 in
  r.1.1 = [(0%nat, Some 0%nat)]
  /\ exists st,
       simulator.apply_assignments 0 (r.1.2, r.2) r.1.1 = Some st
       /\ ledger.availability <$> st.2 <> ledger.availability <$> r.2.
Proof.
  split; [vm_compute; reflexivity|].
  eexists. split; [vm_compute; reflexivity|].
  vm_compute. discriminate.
Qed.

(** Witness of C3: [Edge_1] as constructed admits the first task and
    releases it at its release time. *)
Lemma ledger_invariants_witness :
  ledger.ledger_inv
    (server.release_completed_tasks
       (server.allocate config.WORKLOAD examples.edge_1 "task-0" 10 10 10 5).2 5).
Proof.
  destruct (ledger_invariants config.WORKLOAD config.MOBILITY_CONFIG)
    as (Halloc & Hrel & _ & _).
  apply Hrel, Halloc; [lia | lia | lia | reflexivity |].
  split; [|split].
  - vm_compute. done.
  - vm_compute. intuition discriminate.
  - apply map_Forall_empty.
Defined.

(** Counterexample to C3 as stated, in three parts.  (1) In the loop, after
    the scheduler has placed [first_task] on [Edge_1] (all servers satisfying
    the ledger equation before), the application step leaves [Edge_1] with
    [available_cpu = 279980] while [capacity - reserved = 279990].
    (2) [allocate] with a negative demand raises availability above
    capacity.  (3) [allocate] on an id that already holds a reservation
    overwrites it, and the equation is lost. *)
Lemma ledger_counterexample :
  (Forall ledger.ledger_inv examples.SERVERS
   /\ exists st srv,
        simulator.apply_assignments 0
          ([examples.first_task], examples.scheduled_servers)
          (scheduler.schedule config.WORKLOAD [examples.first_task]
             examples.SERVERS 0).1.1
        = Some st
        /\ st.2 !! 0%nat = Some srv
        /\ server.available_cpu srv = 279980
        /\ server.cpu_capacity srv - server.reserved server.r_cpu srv = 279990
        /\ ~ ledger.exact srv)
  /\ ~ ledger.within_capacity
         (server.allocate config.WORKLOAD examples.edge_1 "task-0" (-10) 0 0 5).2
  /\ ~ ledger.exact
         (server.allocate config.WORKLOAD examples.edge_1_scheduled
            "task-0" 20 20 20 5).2.
Proof.
  split; [split|split].
  - apply Forall_lookup_2. intros i s Hi.
    do 6 (destruct i as [|i];
          [injection Hi as <-; split; [|split];
           [vm_compute; done | vm_compute; intuition discriminate
           | apply map_Forall_empty]|]).
    discriminate Hi.
  - eexists _, _. split; [vm_compute; reflexivity|].
    split; [reflexivity|]. split; [reflexivity|]. split; [reflexivity|].
    vm_compute. intros [H _]. discriminate.
  - vm_compute. intros [[_ H] _]. by apply H.
  - vm_compute. intros [H _]. discriminate.
Qed.

(** C4 (failing input). A task that no tier can admit is still in the
    sequence returned by the greedy tier scheduler, paired with no server;
    the store is untouched, [failed_count] is 0 although one task is
    unplaced, and the application step then raises on the pair. *)
Theorem schedule_returns_unplaced_task :
  let r := scheduler.schedule examples.HEAVY_WORKLOAD [examples.heavy_task]
             examples.SERVERS 0 in
  Forall (fun s => server.can_allocate s 200000000 200000000 200000000 = false)
    examples.SERVERS
  /\ r.1.1 = [(0%nat, None)]
  /\ r.2 = examples.SERVERS
  /\ Z.of_nat (length [examples.heavy_task]) - Z.of_nat (length r.1.1) = 0
  /\ simulator.apply_assignments 0 (r.1.2, r.2) r.1.1 = None.
Proof.
  split; [repeat constructor|].
  split; [vm_compute; reflexivity|].
  split; [vm_compute; reflexivity|].
  split; [reflexivity|]. vm_compute. reflexivity.
Qed.

(** ** The workload generator *)

Section Generator.
Variable W : config.Workload.

Lemma generate_tasks_length (g : generator.WorkloadGenerator)
    (uuid : nat -> string) (choice : nat -> Z) (round_no : Z) :
  length (generator.generate_tasks W g uuid choice round_no)
  = Z.to_nat (generator.current_devices g round_no).
Proof. unfold generator.generate_tasks. by rewrite length_fmap, length_seq. Qed.

(** C9. With device counts that are natural numbers, round [r >= 1] yields
    exactly [min(start_devices + (r - 1) * increment, max_devices)] tasks,
    and every task has its CPU, storage and memory demand equal to the
    generator's [data_per_device_kb]. *)
Theorem generate_tasks_count (g : generator.WorkloadGenerator)
    (uuid : nat -> string) (choice : nat -> Z) (r : Z) :
  1 <= r ->
  0 <= generator.start_devices g -> 0 <= generator.increment g ->
  0 <= generator.max_devices g ->
  Z.of_nat (length (generator.generate_tasks W g uuid choice r))
  = Z.min (generator.start_devices g + (r - 1) * generator.increment g)
      (generator.max_devices g)
  /\ Forall
       (fun t => task.cpu_demand t = generator.data_per_device_kb g
                 /\ task.storage_demand t = generator.data_per_device_kb g
                 /\ task.memory_demand t = generator.data_per_device_kb g)
       (generator.generate_tasks W g uuid choice r).
Proof.
  intros Hr Hs Hi Hm. split.
  - rewrite generate_tasks_length. unfold generator.current_devices.
    assert (0 <= (r - 1) * generator.increment g) by nia.
    destruct (_ >? _) eqn:E.
    + apply Z.gtb_lt in E. lia.
    + rewrite Z.gtb_ltb in E. apply Z.ltb_ge in E. lia.
  - unfold generator.generate_tasks. apply Forall_fmap, Forall_forall.
    intros d _. done.
Qed.

End Generator.

(** Witness of C9: round 600 of the shipped configuration, past the ramp,
    gives 6000 tasks. *)
Lemma generate_tasks_count_witness :
  (Z.of_nat (length (generator.generate_tasks config.WORKLOAD
                       (generator.init config.WORKLOAD)
                       examples.uuid examples.choice 600))
   = Z.min (100 + (600 - 1) * 10) 6000)
  /\ Forall
       (fun t => task.cpu_demand t = 10 /\ task.storage_demand t = 10
                 /\ task.memory_demand t = 10)
       (generator.generate_tasks config.WORKLOAD
          (generator.init config.WORKLOAD) examples.uuid examples.choice 600).
Proof.
  apply (generate_tasks_count config.WORKLOAD (generator.init config.WORKLOAD)
           examples.uuid examples.choice 600); simpl; lia.
Defined.

(** ** Mobility: signal strength, hysteresis and handover accounting *)

Section Mobility.
Import mobile_entity handover.
Local Open Scope R_scope.

Lemma ln_10_pos : 0 < ln 10.
Proof. rewrite <- ln_1. apply ln_increasing; lra. Qed.

Lemma log10_1 : py.log10 1 = 0.
Proof. unfold py.log10. rewrite ln_1. pose proof ln_10_pos. field. lra. Qed.

Lemma log10_100 : py.log10 100 = 2.
Proof.
  unfold py.log10. replace 100 with (10 * 10) by lra.
  rewrite ln_mult by lra. pose proof ln_10_pos. field. lra.
Qed.

Lemma hypot_vertical (px py d : R) :
  0 <= d -> py.hypot (px - px) (py - (py + d)) = d.
Proof.
  intros Hd. unfold py.hypot.
  replace ((px - px) * (px - px) + (py - (py + d)) * (py - (py + d)))
    with (d * d) by ring.
  by apply sqrt_square.
Qed.

(** The key of the element that [max] returns is the greatest key. *)
Lemma max_by_key {A} (key : A -> R) (a : A) (l : list A) (b : A) :
  py.max_by key (a :: l) = Some b ->
  key b = fold_left Rmax (key <$> l) (key a).
Proof.
  simpl. intros [= <-]. revert a.
  induction l as [|c l IH]; intros a; simpl; [done|].
  rewrite IH. f_equal. unfold Rmax.
  destruct (Rlt_dec (key a) (key c)), (Rle_dec (key a) (key c)); try done; lra.
Qed.

Lemma max_by_elem {A} (key : A -> R) (l : list A) (b : A) :
  py.max_by key l = Some b -> b ∈ l.
Proof.
  destruct l as [|a l]; simpl; [done|]. intros [= <-]. revert a.
  induction l as [|c l IH]; intros a; simpl; [by left|].
  specialize (IH (if Rlt_dec (key a) (key c) then c else a)).
  apply elem_of_cons in IH as [->|IH].
  - destruct (Rlt_dec _ _); [right; left | left].
  - right; by right.
Qed.

(** The signal of the server that [pick_best_bs] takes as best is
    [best_signal]. *)
Lemma best_server_signal (e : MobileEntity) (servers : list server.Server)
    (p : nat * server.Server) :
  py.max_by (fun p => signal_strength e p.2) (imap pair servers) = Some p ->
  servers !! p.1 = Some p.2
  /\ best_signal e servers = Some (signal_strength e p.2).
Proof.
  intros H. split.
  - apply max_by_elem, elem_of_lookup_imap in H as (i & s & -> & Hs). done.
  - destruct servers as [|s servers]; [done|].
    rewrite imap_cons in H. apply max_by_key in H. simpl in *. rewrite H.
    f_equal. f_equal. rewrite fmap_imap, <- imap_const. by apply imap_ext.
Qed.

End Mobility.

(** ** Claims on mobility *)

Section MobilityClaims.
Import mobile_entity handover.

Lemma signal_node_A (a : nat) :
  signal_strength (examples.device_at_origin a) examples.node_A = 0%R.
Proof.
  unfold signal_strength, distance, py.hypot. simpl.
  replace ((0 - 0) * (0 - 0) + (0 - 1) * (0 - 1))%R with (1 * 1)%R by ring.
  rewrite sqrt_square by lra. rewrite Rmax_left by lra.
  rewrite log10_1. ring.
Qed.

Lemma signal_node_B (a : nat) :
  signal_strength (examples.device_at_origin a) examples.node_B = (-40)%R.
Proof.
  unfold signal_strength, distance, py.hypot. simpl.
  replace ((0 - 0) * (0 - 0) + (0 - 100) * (0 - 100))%R with (100 * 100)%R
    by ring.
  rewrite sqrt_square by lra. rewrite Rmax_left by lra.
  rewrite log10_100. ring.
Qed.

(** C8. An attached entity keeps its server whenever the best signal of the
    list exceeds the signal of the attached server by less than the
    handover threshold: [pick_best_bs] returns the attached server and the
    manager records no handover. *)
Theorem pick_best_bs_hysteresis (e : MobileEntity)
    (servers : list server.Server) (a : nat) (cur : server.Server) (best : R) :
  attached_server e = Some a -> servers !! a = Some cur ->
  best_signal e servers = Some best ->
  (best - signal_strength e cur < ho_threshold_db e)%R ->
  pick_best_bs e servers = Some a
  /\ forall M c d, manager.attach M servers e c d = Some (e, c, d).
Proof.
  intros Ha Hcur Hbest Hlt.
  assert (Hpick : pick_best_bs e servers = Some a).
  { unfold pick_best_bs.
    destruct (py.max_by _ _) as [p|] eqn:Hmax.
    - apply best_server_signal in Hmax as [_ Hb].
      rewrite Hb in Hbest. injection Hbest as <-. simpl.
      rewrite Ha. simpl. rewrite Hcur. simpl.
      destruct (Rge_dec _ _); [lra | done].
    - destruct servers; [done|]. by rewrite imap_cons in Hmax. }
  split; [done|]. intros M c d. unfold manager.attach.
  rewrite Hpick. simpl. rewrite Ha. by rewrite decide_True.
Qed.

End MobilityClaims.

(** Witness of C8, the scenario of the specification: threshold 3, the
    entity at (0,0) attached to [node_A] at (0,1) with signal 0, [node_B] at
    (0,100) with signal -40. *)
Lemma pick_best_bs_hysteresis_witness :
  mobile_entity.signal_strength (examples.device_at_origin 0) examples.node_A
  = 0%R
  /\ mobile_entity.signal_strength (examples.device_at_origin 0) examples.node_B
     = (-40)%R
  /\ mobile_entity.ho_threshold_db (examples.device_at_origin 0) = 3%R
  /\ mobile_entity.pick_best_bs (examples.device_at_origin 0)
       [examples.node_A; examples.node_B] = Some 0%nat
  /\ forall M c d,
       manager.attach M [examples.node_A; examples.node_B]
         (examples.device_at_origin 0) c d
       = Some (examples.device_at_origin 0, c, d).
Proof.
  split; [apply signal_node_A|]. split; [apply signal_node_B|].
  split; [reflexivity|].
  apply (pick_best_bs_hysteresis (examples.device_at_origin 0)
           [examples.node_A; examples.node_B] 0 examples.node_A
           (Rmax (mobile_entity.signal_strength (examples.device_at_origin 0)
                    examples.node_A)
                 (mobile_entity.signal_strength (examples.device_at_origin 0)
                    examples.node_B))).
  - reflexivity.
  - reflexivity.
  - reflexivity.
  - rewrite signal_node_A, signal_node_B. rewrite Rmax_left by lra.
    simpl. lra.
Defined.

(** ** Handover accounting of [update_all] *)

Section Accounting.
Import mobile_entity handover.
Variable M : config.MobilityConfig.

Lemma move_entity_attached (mo : manager.Motion) (dt : Z) (i : nat)
    (e : MobileEntity) :
  attached_server (manager.move_entity mo dt i e) = attached_server e.
Proof.
  unfold manager.move_entity, move.
  destruct (mobility e); [done|]. by destruct (position e).
Qed.

(** One entity: the counters grow by one handover exactly when the entity
    was attached and ends attached elsewhere. *)
Lemma attach_accounting (servers : list server.Server) (e e' : MobileEntity)
    (c d c' d' : Z) :
  manager.attach M servers e c d = Some (e', c', d') ->
  c' = c + Z.of_nat (if handed_over e e' then 1 else 0)
  /\ d' = d + Z.of_nat (if handed_over e e' then 1 else 0)
              * config.handover_latency_ms M.
Proof.
  unfold manager.attach, handed_over.
  destruct (pick_best_bs e servers) as [nb|]; simpl; [|done].
  destruct (attached_server e) as [a|] eqn:Ha.
  - destruct (decide (nb = a)) as [->|Hne].
    { intros [= <- <- <-]. rewrite Ha, Nat.eqb_refl. simpl. lia. }
    destruct (servers !! a) as [old|]; simpl; [|done].
    destruct (servers !! nb) as [new|]; simpl; [|done].
    destruct (Rge_dec _ _).
    + intros [= <- <- <-]. simpl.
      assert ((a =? nb)%nat = false) as -> by (apply Nat.eqb_neq; congruence).
      simpl. lia.
    + intros [= <- <- <-]. rewrite Ha, Nat.eqb_refl. simpl. lia.
  - intros [= <- <- <-]. simpl. lia.
Qed.

Lemma update_entities_accounting (mo : manager.Motion) (dt : Z)
    (servers : list server.Server) (ents ents' : list MobileEntity)
    (i : nat) (c d c' d' : Z) :
  manager.update_entities M mo dt servers i ents c d = Some (ents', c', d') ->
  c' = c + Z.of_nat (handovers ents ents')
  /\ d' = d + Z.of_nat (handovers ents ents') * config.handover_latency_ms M.
Proof.
  revert ents' i c d. induction ents as [|e ents IH]; intros ents' i c d; simpl.
  - intros [= <- <- <-]. simpl. lia.
  - destruct (manager.attach M servers _ c d) as [[[e1 c1] d1]|] eqn:Hat;
      simpl; [|done].
    destruct (manager.update_entities M mo dt servers (S i) ents c1 d1)
      as [[[es2 c2] d2]|] eqn:Hrest; simpl; [|done].
    intros [= <- <- <-]. simpl.
    apply attach_accounting in Hat as [-> ->].
    apply IH in Hrest as [-> ->].
    unfold handed_over at 1 3. rewrite move_entity_attached.
    fold (handed_over e e1). rewrite Nat2Z.inj_add. lia.
Qed.

(** [update_all] raises only on an empty server list or on a reference that
    is not in the store; otherwise it returns. *)
Lemma pick_best_bs_defined (servers : list server.Server) (e : MobileEntity) :
  servers <> [] ->
  (forall a, attached_server e = Some a -> (a < length servers)%nat) ->
  exists b, pick_best_bs e servers = Some b /\ (b < length servers)%nat.
Proof.
  intros Hne Hatt. unfold pick_best_bs.
  destruct (py.max_by _ _) as [p|] eqn:Hmax.
  - apply best_server_signal in Hmax as [Hp _]. apply lookup_lt_Some in Hp.
    simpl. destruct (attached_server e) as [a|]; [|eauto].
    specialize (Hatt a eq_refl).
    destruct (lookup_lt_is_Some_2 servers a Hatt) as [cur ->]. simpl.
    destruct (Rge_dec _ _); eauto.
  - destruct servers; [done|]. by rewrite imap_cons in Hmax.
Qed.

Lemma attach_defined (servers : list server.Server) (e : MobileEntity) (c d : Z) :
  servers <> [] ->
  (forall a, attached_server e = Some a -> (a < length servers)%nat) ->
  is_Some (manager.attach M servers e c d).
Proof.
  intros Hne Hatt. unfold manager.attach.
  destruct (pick_best_bs_defined servers e Hne Hatt) as (nb & -> & Hnb). simpl.
  destruct (attached_server e) as [a|]; [|done].
  destruct (decide (nb = a)); [done|].
  destruct (lookup_lt_is_Some_2 servers a (Hatt a eq_refl)) as [old ->].
  destruct (lookup_lt_is_Some_2 servers nb Hnb) as [new ->]. simpl.
  by destruct (Rge_dec _ _).
Qed.

Lemma update_all_defined (mgr : manager.MobilityManager)
    (servers : list server.Server) (mo : manager.Motion) :
  servers <> [] ->
  Forall (fun e => forall a, attached_server e = Some a ->
                             (a < length servers)%nat)
    (manager.entities mgr) ->
  is_Some (manager.update_all M mgr servers mo).
Proof.
  intros Hne Hents. unfold manager.update_all.
  assert (Hne' : imap (manager.move_server mo) servers <> []).
  { destruct servers; [done|]. by rewrite imap_cons. }
  assert (Hents' : Forall (fun e => forall a, attached_server e = Some a ->
              (a < length (imap (manager.move_server mo) servers))%nat)
            (manager.entities mgr)).
  { by rewrite length_imap. }
  generalize (manager.ho_count mgr) (manager.ho_delay mgr) 0%nat.
  revert Hne' Hents'.
  generalize (imap (manager.move_server mo) servers) (manager.entities mgr).
  intros srv ents Hs. induction 1 as [|e ents He Hents' IH]; intros c d i; simpl.
  - done.
  - destruct (attach_defined srv (manager.move_entity mo (manager.time_step_ms mgr) i e)
                c d Hs) as [[[e1 c1] d1] ->].
    { intros a. rewrite move_entity_attached. apply He. }
    simpl. specialize (IH c1 d1 (S i)).
    destruct (manager.update_entities M mo _ srv (S i) ents c1 d1) as [r|];
      simpl in *; [done|]. by destruct IH.
Qed.

(** What [update_all] returns: the counters it stores, which are those
    before the call plus the handovers of the call. *)
Lemma update_all_accounting (mgr mgr' : manager.MobilityManager)
    (servers servers' : list server.Server) (mo : manager.Motion) (c d : Z) :
  manager.update_all M mgr servers mo = Some (mgr', servers', (c, d)) ->
  c = manager.ho_count mgr' /\ d = manager.ho_delay mgr'
  /\ c = manager.ho_count mgr
         + Z.of_nat (handovers (manager.entities mgr) (manager.entities mgr'))
  /\ d = manager.ho_delay mgr
         + Z.of_nat (handovers (manager.entities mgr) (manager.entities mgr'))
           * config.handover_latency_ms M.
Proof.
  unfold manager.update_all.
  destruct (manager.update_entities _ _ _ _ _ _ _ _) as [[[es c1] d1]|] eqn:E;
    simpl; [|done].
  intros [= <- _ <- <-]. simpl.
  apply update_entities_accounting in E as [-> ->]. done.
Qed.

(** C2 (as amended). [update_all] returns the manager's counters, which are
    running totals since construction: the values returned in a round are
    the totals before the round plus that round's handovers, and plus the
    handover latency for each of them. *)
Theorem update_all_returns_running_totals (mgr mgr' : manager.MobilityManager)
    (servers servers' : list server.Server) (mo : manager.Motion) (c d : Z) :
  manager.update_all M mgr servers mo = Some (mgr', servers', (c, d)) ->
  c = manager.ho_count mgr' /\ d = manager.ho_delay mgr'
  /\ c = manager.ho_count mgr
         + Z.of_nat (handovers (manager.entities mgr) (manager.entities mgr'))
  /\ d = manager.ho_delay mgr
         + Z.of_nat (handovers (manager.entities mgr) (manager.entities mgr'))
           * config.handover_latency_ms M.
Proof. apply update_all_accounting. Qed.

(** The mobility step of a round is one call of [update_all]; the loop adds
    the delay it returns to the clock, then one time unit. *)
Lemma run_round_clock (sched : scheduler.Scheduler) (W : config.Workload)
    (sim sim' : simulator.Simulator) (round_no : Z) (o : simulator.Oracle)
    (log : simulator.RoundLog) :
  simulator.run_round sched W M sim round_no o = Some (sim', log) ->
  (exists servers',
      manager.update_all M (simulator.mobility sim) (simulator.servers sim)
        (simulator.motion o)
      = Some (simulator.mobility sim', servers',
              (simulator.ho_count log, simulator.ho_delay log)))
  /\ simulator.current_time sim'
     = simulator.current_time sim + simulator.ho_delay log + 1.
Proof.
  unfold simulator.run_round.
  destruct (manager.update_all M _ _ _) as [[[mgr' servers'] [c d]]|] eqn:Hmob;
    simpl; [|done].
  destruct (simulator.apply_assignments _ _ _) as [st|]; simpl; [|done].
  intros [= <- <-]. simpl. split; [by exists servers' | done].
Qed.

(** Two consecutive rounds, the second without any handover: the delay of
    the handovers made so far is added to the clock in both rounds. *)
Lemma handover_delay_charged_again (sched : scheduler.Scheduler)
    (W : config.Workload) (sim sim1 sim2 : simulator.Simulator)
    (r1 r2 : Z) (o1 o2 : simulator.Oracle) (log1 log2 : simulator.RoundLog) :
  simulator.run_round sched W M sim r1 o1 = Some (sim1, log1) ->
  simulator.run_round sched W M sim1 r2 o2 = Some (sim2, log2) ->
  handovers (manager.entities (simulator.mobility sim1))
    (manager.entities (simulator.mobility sim2)) = 0%nat ->
  simulator.current_time sim2
  = simulator.current_time sim
    + 2 * manager.ho_delay (simulator.mobility sim1) + 2.
Proof.
  intros H1 H2 Hnone.
  apply run_round_clock in H1 as [[s1 Hu1] Hc1].
  apply run_round_clock in H2 as [[s2 Hu2] Hc2].
  apply update_all_accounting in Hu1 as (_ & Hd1 & _).
  apply update_all_accounting in Hu2 as (_ & _ & _ & Hd2).
  rewrite Hnone in Hd2. simpl in Hd2. lia.
Qed.

End Accounting.

(** ** The two-server scenario, evaluated *)

Section Scenario.
Import mobile_entity handover.

Lemma best_of_A_B (a : nat) :
  py.max_by (fun p => signal_strength (examples.device_at_origin a) p.2)
    (imap pair [examples.node_A; examples.node_B])
  = Some (0%nat, examples.node_A).
Proof.
  change (imap pair [examples.node_A; examples.node_B])
    with [(0%nat, examples.node_A); (1%nat, examples.node_B)].
  cbv [py.max_by fold_left snd].
  rewrite (signal_node_A a), (signal_node_B a).
  destruct (Rlt_dec 0 (-40)); [lra | done].
Qed.

Lemma pick_best_far :
  pick_best_bs (examples.device_at_origin 1) [examples.node_A; examples.node_B]
  = Some 0%nat.
Proof.
  unfold pick_best_bs. rewrite best_of_A_B.
  change (attached_server (examples.device_at_origin 1)) with (Some 1%nat).
  cbv [mbind option_bind snd fst].
  change ([examples.node_A; examples.node_B] !! 1%nat)
    with (Some examples.node_B).
  cbv beta iota.
  rewrite (signal_node_A 1), (signal_node_B 1).
  change (ho_threshold_db (examples.device_at_origin 1)) with 3%R.
  destruct (Rge_dec (0 - -40) 3); [done | lra].
Qed.

Lemma pick_best_near :
  pick_best_bs (examples.device_at_origin 0) [examples.node_A; examples.node_B]
  = Some 0%nat.
Proof.
  unfold pick_best_bs. rewrite best_of_A_B.
  change (attached_server (examples.device_at_origin 0)) with (Some 0%nat).
  cbv [mbind option_bind snd fst].
  change ([examples.node_A; examples.node_B] !! 0%nat)
    with (Some examples.node_A).
  cbv beta iota.
  by destruct (Rge_dec _ _).
Qed.

(** The device attached to the far server is handed over to the near one. *)
Lemma attach_far (c d : Z) :
  manager.attach config.MOBILITY_CONFIG [examples.node_A; examples.node_B]
    (examples.device_at_origin 1) c d
  = Some (examples.device_at_origin 0, c + 1, d + 20).
Proof.
  unfold manager.attach. rewrite pick_best_far.
  change (attached_server (examples.device_at_origin 1)) with (Some 1%nat).
  cbv [mbind option_bind]. rewrite decide_False by done.
  change ([examples.node_A; examples.node_B] !! 1%nat)
    with (Some examples.node_B).
  change ([examples.node_A; examples.node_B] !! 0%nat)
    with (Some examples.node_A).
  cbv beta iota.
  rewrite (signal_node_A 1), (signal_node_B 1).
  change (config.handover_threshold_db config.MOBILITY_CONFIG) with 3%R.
  destruct (Rge_dec (0 - -40) 3); [done | lra].
Qed.

(** Once attached to the near server it stays there. *)
Lemma attach_near (c d : Z) :
  manager.attach config.MOBILITY_CONFIG [examples.node_A; examples.node_B]
    (examples.device_at_origin 0) c d
  = Some (examples.device_at_origin 0, c, d).
Proof.
  unfold manager.attach. rewrite pick_best_near.
  change (attached_server (examples.device_at_origin 0)) with (Some 0%nat).
  cbv [mbind option_bind]. by rewrite decide_True.
Qed.

Lemma update_all_far :
  manager.update_all config.MOBILITY_CONFIG examples.far_manager
    [examples.node_A; examples.node_B] examples.paused
  = Some (manager.mkMobilityManager [examples.device_at_origin 0] 1 20 100,
          [examples.node_A; examples.node_B], (1, 20)).
Proof.
  unfold manager.update_all.
  change (imap (manager.move_server examples.paused)
            [examples.node_A; examples.node_B])
    with [examples.node_A; examples.node_B].
  change (manager.entities examples.far_manager)
    with [examples.device_at_origin 1].
  cbv [manager.update_entities].
  change (manager.move_entity examples.paused
            (manager.time_step_ms examples.far_manager) 0
            (examples.device_at_origin 1))
    with (examples.device_at_origin 1).
  rewrite attach_far. reflexivity.
Qed.

Lemma update_all_near :
  manager.update_all config.MOBILITY_CONFIG
    (manager.mkMobilityManager [examples.device_at_origin 0] 1 20 100)
    [examples.node_A; examples.node_B] examples.paused
  = Some (manager.mkMobilityManager [examples.device_at_origin 0] 1 20 100,
          [examples.node_A; examples.node_B], (1, 20)).
Proof.
  unfold manager.update_all.
  change (imap (manager.move_server examples.paused)
            [examples.node_A; examples.node_B])
    with [examples.node_A; examples.node_B].
  cbv [manager.update_entities manager.entities].
  change (manager.move_entity examples.paused
            (manager.time_step_ms
               (manager.mkMobilityManager [examples.device_at_origin 0] 1 20 100))
            0 (examples.device_at_origin 0))
    with (examples.device_at_origin 0).
  rewrite attach_near. reflexivity.
Qed.

End Scenario.

(** Witness of C2: the first step of the scenario, in which the device is
    handed over once. *)
Lemma update_all_returns_running_totals_witness :
  1 = manager.ho_count
        (manager.mkMobilityManager [examples.device_at_origin 0] 1 20 100)
  /\ 20 = manager.ho_delay
            (manager.mkMobilityManager [examples.device_at_origin 0] 1 20 100)
  /\ 1 = manager.ho_count examples.far_manager
         + Z.of_nat
             (handover.handovers (manager.entities examples.far_manager)
                (manager.entities
                   (manager.mkMobilityManager [examples.device_at_origin 0]
                      1 20 100)))
  /\ 20 = manager.ho_delay examples.far_manager
          + Z.of_nat
              (handover.handovers (manager.entities examples.far_manager)
                 (manager.entities
                    (manager.mkMobilityManager [examples.device_at_origin 0]
                       1 20 100)))
            * config.handover_latency_ms config.MOBILITY_CONFIG.
Proof.
  apply (update_all_returns_running_totals config.MOBILITY_CONFIG
           examples.far_manager _ [examples.node_A; examples.node_B]
           [examples.node_A; examples.node_B] examples.paused 1 20).
  apply update_all_far.
Defined.

(** Counterexample to C2 as stated: in the first step the device is handed
    over and [update_all] returns (1, 20); in the second step nobody is
    handed over, yet [update_all] returns (1, 20) again instead of (0, 0). *)
Lemma handover_reported_again :
  exists mgr1 mgr2 servers1 servers2,
    manager.update_all config.MOBILITY_CONFIG examples.far_manager
      [examples.node_A; examples.node_B] examples.paused
    = Some (mgr1, servers1, (1, 20))
    /\ manager.update_all config.MOBILITY_CONFIG mgr1 servers1 examples.paused
       = Some (mgr2, servers2, (1, 20))
    /\ handover.handovers (manager.entities mgr1) (manager.entities mgr2)
       = 0%nat
    /\ (1, 20) <> (0, 0).
Proof.
  eexists _, _, _, _.
  split; [apply update_all_far|].
  split; [apply update_all_near|].
  split; [reflexivity | discriminate].
Qed.

(** * Further properties of the modelled code *)

(** ** The ledger: what [release_completed_tasks] keeps and frees *)

Section Release.
Import server ledger placement.

Lemma release_one_conserves (s : Server) (tid : string) :
  available_cpu (release_one s tid) + reserved r_cpu (release_one s tid)
  = available_cpu s + reserved r_cpu s
  /\ available_storage (release_one s tid) + reserved r_storage (release_one s tid)
     = available_storage s + reserved r_storage s
  /\ available_memory (release_one s tid) + reserved r_memory (release_one s tid)
     = available_memory s + reserved r_memory s.
Proof.
  unfold release_one.
  destruct (running_tasks s !! tid) as [r|] eqn:Hr; [|done].
  unfold reserved; simpl.
  rewrite (sum_delete r_cpu _ _ _ Hr), (sum_delete r_storage _ _ _ Hr),
    (sum_delete r_memory _ _ _ Hr). lia.
Qed.

Lemma release_one_frame (s : Server) (tid : string) :
  same_identity s (release_one s tid)
  /\ x (release_one s tid) = x s /\ y (release_one s tid) = y s
  /\ location (release_one s tid) = location s
  /\ mobility (release_one s tid) = mobility s
  /\ total_data_transferred_kb (release_one s tid) = total_data_transferred_kb s
  /\ total_cost (release_one s tid) = total_cost s.
Proof.
  unfold release_one, same_identity.
  destruct (running_tasks s !! tid); simpl; done.
Qed.

Lemma release_conserves (s : Server) (now : Z) :
  available_cpu (release_completed_tasks s now)
  + reserved r_cpu (release_completed_tasks s now)
  = available_cpu s + reserved r_cpu s
  /\ available_storage (release_completed_tasks s now)
     + reserved r_storage (release_completed_tasks s now)
     = available_storage s + reserved r_storage s
  /\ available_memory (release_completed_tasks s now)
     + reserved r_memory (release_completed_tasks s now)
     = available_memory s + reserved r_memory s.
Proof.
  unfold release_completed_tasks.
  apply (release_all_preserves
           (fun s' =>
              available_cpu s' + reserved r_cpu s'
              = available_cpu s + reserved r_cpu s
              /\ available_storage s' + reserved r_storage s'
                 = available_storage s + reserved r_storage s
              /\ available_memory s' + reserved r_memory s'
                 = available_memory s + reserved r_memory s)); [|done].
  intros s' tid H. pose proof (release_one_conserves s' tid). lia.
Qed.

Lemma release_frame (s : Server) (now : Z) :
  same_identity s (release_completed_tasks s now)
  /\ x (release_completed_tasks s now) = x s
  /\ y (release_completed_tasks s now) = y s
  /\ location (release_completed_tasks s now) = location s
  /\ mobility (release_completed_tasks s now) = mobility s
  /\ total_data_transferred_kb (release_completed_tasks s now)
     = total_data_transferred_kb s
  /\ total_cost (release_completed_tasks s now) = total_cost s.
Proof.
  unfold release_completed_tasks.
  apply (release_all_preserves
           (fun s' =>
              same_identity s s' /\ x s' = x s /\ y s' = y s
              /\ location s' = location s /\ mobility s' = mobility s
              /\ total_data_transferred_kb s' = total_data_transferred_kb s
              /\ total_cost s' = total_cost s)).
  - intros s' tid H. pose proof (release_one_frame s' tid) as H'.
    unfold same_identity in *.
    destruct H as ((? & ? & ? & ? & ? & ? & ? & ? & ?)
                   & ? & ? & ? & ? & ? & ?).
    destruct H' as ((? & ? & ? & ? & ? & ? & ? & ? & ?)
                    & ? & ? & ? & ? & ? & ?).
    repeat split; congruence.
  - unfold same_identity. done.
Qed.

Lemma release_running (s : Server) (now : Z) :
  running_tasks (release_completed_tasks s now)
  = filter (fun kv => now < r_release_time kv.2) (running_tasks s).
Proof.
  apply map_eq. intros k. apply option_eq. intros r.
  unfold release_completed_tasks.
  rewrite release_all_running, map_lookup_filter_Some, completed_elem. simpl.
  split.
  - intros [Hk Hr]. split; [done|].
    destruct (decide (r_release_time r <= now)); [|lia].
    exfalso. apply Hk. eauto.
  - intros [Hr Hlt]. split; [|done].
    intros (r' & Hr' & Hdue). rewrite Hr in Hr'. injection Hr' as <-. lia.
Qed.

(** [release_completed_tasks(now)] keeps exactly the reservations whose
    release time is later than [now]; what it frees is credited in full
    ([available + reserved] is the same before and after, per resource); the
    identity of the server and its data and cost counters are unchanged. *)
Theorem release_completed_tasks_spec (s : Server) (now : Z) :
  running_tasks (release_completed_tasks s now)
  = filter (fun kv => now < r_release_time kv.2) (running_tasks s)
  /\ available_cpu (release_completed_tasks s now)
     + reserved r_cpu (release_completed_tasks s now)
     = available_cpu s + reserved r_cpu s
  /\ available_storage (release_completed_tasks s now)
     + reserved r_storage (release_completed_tasks s now)
     = available_storage s + reserved r_storage s
  /\ available_memory (release_completed_tasks s now)
     + reserved r_memory (release_completed_tasks s now)
     = available_memory s + reserved r_memory s
  /\ same_identity s (release_completed_tasks s now)
  /\ total_data_transferred_kb (release_completed_tasks s now)
     = total_data_transferred_kb s
  /\ total_cost (release_completed_tasks s now) = total_cost s.
Proof.
  split; [apply release_running|].
  destruct (release_conserves s now) as (H1 & H2 & H3).
  destruct (release_frame s now) as (H4 & _ & _ & _ & _ & H5 & H6).
  done.
Qed.

Lemma server_ext (s s' : Server) :
  same_identity s s' -> x s' = x s -> y s' = y s -> location s' = location s ->
  mobility s' = mobility s -> same_ledger s s' -> s' = s.
Proof.
  destruct s, s'. unfold same_identity, same_ledger. simpl.
  intros (-> & -> & -> & -> & -> & -> & -> & -> & ->) -> -> -> ->
    (-> & -> & -> & -> & -> & ->).
  done.
Qed.

(** Releasing at a time and then at a later time is releasing once at the
    later time: the two calls leave the very same server state. *)
Theorem release_twice_is_release_at_later (s : Server) (t1 t2 : Z) :
  t1 <= t2 ->
  release_completed_tasks (release_completed_tasks s t1) t2
  = release_completed_tasks s t2.
Proof.
  intros Hle.
  set (s1 := release_completed_tasks s t1).
  assert (Hrun : running_tasks (release_completed_tasks s1 t2)
                 = running_tasks (release_completed_tasks s t2)).
  { rewrite !release_running. unfold s1. rewrite release_running.
    apply map_eq. intros k. apply option_eq. intros r.
    rewrite !map_lookup_filter_Some. simpl. split.
    - intros [[Hr _] Hlt]. done.
    - intros [Hr Hlt]. split; [split|]; [done | lia | done]. }
  destruct (release_conserves s1 t2) as (A1 & A2 & A3).
  destruct (release_conserves s t1) as (B1 & B2 & B3). fold s1 in B1, B2, B3.
  destruct (release_conserves s t2) as (C1 & C2 & C3).
  destruct (release_frame s1 t2) as (F1 & F2 & F3 & F4 & F5 & F6 & F7).
  destruct (release_frame s t1) as (G1 & G2 & G3 & G4 & G5 & G6 & G7).
  fold s1 in G1, G2, G3, G4, G5, G6, G7.
  destruct (release_frame s t2) as (H1 & H2 & H3 & H4 & H5 & H6 & H7).
  unfold reserved in *. rewrite Hrun in A1, A2, A3.
  apply server_ext.
  - unfold same_identity in *.
    destruct F1 as (? & ? & ? & ? & ? & ? & ? & ? & ?).
    destruct G1 as (? & ? & ? & ? & ? & ? & ? & ? & ?).
    destruct H1 as (? & ? & ? & ? & ? & ? & ? & ? & ?).
    repeat split; congruence.
  - congruence.
  - congruence.
  - congruence.
  - congruence.
  - unfold same_ledger. split; [lia|]. split; [lia|]. split; [lia|].
    split; [done|]. split; congruence.
Qed.

Lemma release_one_grows (s : Server) (tid : string) :
  held_nonneg s ->
  held_nonneg (release_one s tid)
  /\ available_cpu s <= available_cpu (release_one s tid)
  /\ available_storage s <= available_storage (release_one s tid)
  /\ available_memory s <= available_memory (release_one s tid).
Proof.
  intros Hn. unfold release_one.
  destruct (running_tasks s !! tid) as [r|] eqn:Hr; [|split; [done|lia]].
  pose proof (Hn tid r Hr) as Hrn. simpl in Hrn. simpl.
  split; [|lia]. unfold held_nonneg; simpl. by apply map_Forall_delete.
Qed.

(** Releasing never takes capacity away: with non-negative reservations, a
    demand that [can_allocate] accepted before [release_completed_tasks] is
    still accepted after it. *)
Theorem release_keeps_admissible (s : Server) (now c st m : Z) :
  held_nonneg s ->
  can_allocate s c st m = true ->
  can_allocate (release_completed_tasks s now) c st m = true.
Proof.
  intros Hn Hcan. apply can_allocate_true in Hcan. apply can_allocate_true.
  assert (H : held_nonneg (release_completed_tasks s now)
              /\ available_cpu s <= available_cpu (release_completed_tasks s now)
              /\ available_storage s
                 <= available_storage (release_completed_tasks s now)
              /\ available_memory s
                 <= available_memory (release_completed_tasks s now)).
  { unfold release_completed_tasks.
    apply (release_all_preserves
             (fun s' => held_nonneg s'
                        /\ available_cpu s <= available_cpu s'
                        /\ available_storage s <= available_storage s'
                        /\ available_memory s <= available_memory s'));
      [|split; [done|lia]].
    intros s' tid [Hn' Hle].
    destruct (release_one_grows s' tid Hn') as [? ?]. split; [done|lia]. }
  lia.
Qed.

End Release.

(** Witness: [Edge_1] holding the first task accepts a demand of 100 before
    and after the release at time 5. *)
Lemma release_keeps_admissible_witness :
  server.can_allocate
    (server.release_completed_tasks examples.edge_1_scheduled 5) 100 100 100
  = true.
Proof.
  apply release_keeps_admissible.
  - intros k r Hr. simpl in Hr.
    apply lookup_insert_Some in Hr as [[_ <-]|[_ Hr]]; [simpl; lia|].
    by rewrite lookup_empty in Hr.
  - reflexivity.
Defined.

(** Witness: [Edge_1] with one reservation due at 5, released at 3 and then
    at 7. *)
Lemma release_twice_is_release_at_later_witness :
  server.release_completed_tasks
    (server.release_completed_tasks examples.edge_1_scheduled 3) 7
  = server.release_completed_tasks examples.edge_1_scheduled 7.
Proof. apply release_twice_is_release_at_later. lia. Defined.

(** ** Utilization stays a percentage *)

Section Utilization.
Import server ledger.

(** Rounding to the nearest integer stays between integer bounds. *)
Lemma round_half_even_bounds (q : Q) (lo hi : Z) :
  (inject_Z lo <= q)%Q -> (q <= inject_Z hi)%Q ->
  lo <= py.round_half_even q <= hi.
Proof.
  intros Hlo Hhi. unfold py.round_half_even.
  assert (Hf1 : lo <= Qfloor q).
  { rewrite <- (Qfloor_Z lo). by apply Qfloor_resp_le. }
  assert (Hf2 : Qfloor q <= hi).
  { rewrite <- (Qfloor_Z hi). by apply Qfloor_resp_le. }
  assert (Hstep : (1 # 2 <= q - inject_Z (Qfloor q))%Q -> Qfloor q + 1 <= hi).
  { intros Hhalf. destruct (decide (Qfloor q = hi)) as [E|]; [|lia].
    exfalso. rewrite E in Hhalf.
    assert (q - inject_Z hi <= 0)%Q.
    { rewrite <- (Qplus_opp_r (inject_Z hi)). unfold Qminus.
      by apply Qplus_le_l. }
    assert (1 # 2 <= 0)%Q by (eapply Qle_trans; eauto). done. }
  destruct (Qcompare (q - inject_Z (Qfloor q)) (1 # 2)) eqn:C.
  - apply Qeq_alt in C.
    assert (Hh : (1 # 2 <= q - inject_Z (Qfloor q))%Q)
      by (rewrite C; apply Qle_refl).
    specialize (Hstep Hh). destruct (Z.even (Qfloor q)); lia.
  - lia.
  - apply Qgt_alt in C. apply Qlt_le_weak in C. specialize (Hstep C). lia.
Qed.

Lemma round2_bounds (q : Q) :
  (0 <= q)%Q -> (q <= 100)%Q -> (0 <= py.round2 q)%Q /\ (py.round2 q <= 100)%Q.
Proof.
  intros H0 H100. unfold py.round2. rewrite Qred_correct.
  destruct (round_half_even_bounds (q * 100) 0 10000) as [Ha Hb].
  - change (inject_Z 0) with 0%Q. apply Qmult_le_0_compat; done.
  - change (inject_Z 10000) with (100 * 100)%Q. by apply Qmult_le_compat_r.
  - split.
    + apply Qle_shift_div_l; [done|]. rewrite Qmult_0_l.
      change 0%Q with (inject_Z 0). by rewrite <- Zle_Qle.
    + apply Qle_shift_div_r; [done|].
      change (100 * 100)%Q with (inject_Z 10000). by rewrite <- Zle_Qle.
Qed.

Lemma util_of_bounds (available capacity : Z) :
  0 <= available <= capacity ->
  (0 <= util_of available capacity)%Q /\ (util_of available capacity <= 100)%Q.
Proof.
  intros [Ha Hc]. unfold util_of.
  destruct (capacity =? 0) eqn:E; [done|].
  apply Z.eqb_neq in E. assert (Hpos : 0 < capacity) by lia.
  assert (Hq : (0 < inject_Z capacity)%Q).
  { change 0%Q with (inject_Z 0). by rewrite <- Zlt_Qlt. }
  assert (Hr0 : (0 <= inject_Z available / inject_Z capacity)%Q).
  { apply Qle_shift_div_l; [done|]. rewrite Qmult_0_l.
    change 0%Q with (inject_Z 0). by rewrite <- Zle_Qle. }
  assert (Hr1 : (inject_Z available / inject_Z capacity <= 1)%Q).
  { apply Qle_shift_div_r; [done|]. rewrite Qmult_1_l. by rewrite <- Zle_Qle. }
  apply round2_bounds.
  - apply Qmult_le_0_compat; [done|].
    rewrite <- (Qplus_opp_r (inject_Z available / inject_Z capacity)).
    unfold Qminus. by apply Qplus_le_l.
  - apply (Qle_trans _ (100 * 1)%Q); [|done].
    apply Qmult_le_l; [done|].
    apply (Qle_trans _ (1 + - 0)%Q); [|done].
    unfold Qminus. apply Qplus_le_r. by apply Qopp_le_compat.
Qed.

(** [utilization()] of a server whose availabilities lie between 0 and the
    capacities is three percentages between 0 and 100, also when a capacity
    is zero. *)
Theorem utilization_is_percentage (s : Server) :
  within_capacity s ->
  (0 <= (utilization s).1.1 <= 100)%Q
  /\ (0 <= (utilization s).1.2 <= 100)%Q
  /\ (0 <= (utilization s).2 <= 100)%Q.
Proof.
  intros (Hc & Hs & Hm). unfold utilization. simpl.
  split; [|split]; by apply util_of_bounds.
Qed.

End Utilization.

(** Witness: [Edge_1] holding the first task. *)
Lemma utilization_is_percentage_witness :
  (0 <= (server.utilization examples.edge_1_scheduled).1.1 <= 100)%Q
  /\ (0 <= (server.utilization examples.edge_1_scheduled).1.2 <= 100)%Q
  /\ (0 <= (server.utilization examples.edge_1_scheduled).2 <= 100)%Q.
Proof.
  apply utilization_is_percentage. vm_compute. intuition discriminate.
Defined.

(** ** The greedy tier scheduler: tier order, choice within a tier, frame *)

Section TierOrder.
Import server ledger placement.
Variable W : config.Workload.

Lemma eligible_intro (tier : string) (t : task.Task) (servers : list Server)
    (i : nat) (s : Server) :
  servers !! i = Some s ->
  String.prefix tier (name s) = true ->
  can_allocate s (task.cpu_demand t) (task.storage_demand t)
    (task.memory_demand t) = true ->
  (i, s) ∈ scheduler.eligible tier t servers.
Proof.
  intros Hs Hp Hc. unfold scheduler.eligible.
  rewrite list_elem_of_In, filter_In, <- list_elem_of_In. split.
  - by apply (elem_of_lookup_imap_2 pair).
  - simpl. by rewrite Hp, Hc.
Qed.

Lemma eligible_nil (tier : string) (t : task.Task) (servers : list Server) :
  scheduler.eligible tier t servers = [] <-> ~ tier_can_take tier t servers.
Proof.
  split.
  - intros E (j & s & Hs & Hp & Hc).
    pose proof (eligible_intro tier t servers j s Hs Hp Hc) as H.
    rewrite E in H. by apply elem_of_nil in H.
  - intros H. destruct (scheduler.eligible tier t servers) as [|[j s] l] eqn:E;
      [done|].
    exfalso. apply H. exists j, s.
    apply (eligible_elem tier t servers j s). rewrite E. by left.
Qed.

Lemma try_tier_some (tier : string) (t : task.Task) (servers : list Server)
    (now : Z) :
  tier_can_take tier t servers ->
  is_Some (scheduler.try_tier W tier t servers now).
Proof.
  intros H. unfold scheduler.try_tier.
  destruct (scheduler.eligible tier t servers) as [|p l] eqn:E.
  - apply eligible_nil in E. done.
  - simpl. by destruct (fold_left _ _ _).
Qed.

(** [schedule] tries the tiers in the fixed order Edge, Regional, Cloud: the
    task goes to an Edge server whenever some Edge server can take it, to a
    Regional server only if no Edge server can, to a Cloud server only if
    neither can, and it stays without a server, the store untouched, exactly
    when no server of the three tiers can take it.  A server whose name does
    not start with one of the three tier names is never chosen. *)
Theorem schedule_task_tier_order (t : task.Task) (servers : list Server)
    (now : Z) :
  match scheduler.schedule_task W t servers now with
  | (Some i, servers') =>
      exists s,
        servers !! i = Some s
        /\ can_allocate s (task.cpu_demand t) (task.storage_demand t)
             (task.memory_demand t) = true
        /\ (String.prefix "Edge" (name s) = true
            \/ (~ tier_can_take "Edge" t servers
                /\ String.prefix "Regional" (name s) = true)
            \/ (~ tier_can_take "Edge" t servers
                /\ ~ tier_can_take "Regional" t servers
                /\ String.prefix "Cloud" (name s) = true))
  | (None, servers') =>
      servers' = servers
      /\ ~ tier_can_take "Edge" t servers
      /\ ~ tier_can_take "Regional" t servers
      /\ ~ tier_can_take "Cloud" t servers
  end.
Proof.
  unfold scheduler.schedule_task.
  destruct (scheduler.try_tier W "Edge" t servers now) as [[i l]|] eqn:He.
  { apply try_tier_placed in He as (s & ? & ? & ? & ?). exists s. tauto. }
  apply try_tier_none, eligible_nil in He.
  destruct (scheduler.try_tier W "Regional" t servers now) as [[i l]|] eqn:Hr.
  { apply try_tier_placed in Hr as (s & ? & ? & ? & ?). exists s. tauto. }
  apply try_tier_none, eligible_nil in Hr.
  destruct (scheduler.try_tier W "Cloud" t servers now) as [[i l]|] eqn:Hc.
  { apply try_tier_placed in Hc as (s & ? & ? & ? & ?). exists s. tauto. }
  apply try_tier_none, eligible_nil in Hc. tauto.
Qed.

(** [min] with a key returns an element of least key, and among the elements
    of least key the first one of a list sorted by index. *)
Lemma min_by_first_least {A} (key : A -> Z) (idx : A -> nat) (l : list A)
    (a : A) :
  StronglySorted (fun p q => (idx p < idx q)%nat) l ->
  py.min_by key l = Some a ->
  forall b, b ∈ l -> key a <= key b /\ (key b = key a -> (idx a <= idx b)%nat).
Proof.
  destruct l as [|b0 l]; simpl; [done|]. intros Hs [= <-].
  revert b0 Hs. induction l as [|c l IH]; intros b0 Hs b Hb; simpl.
  - apply list_elem_of_singleton in Hb as ->. split; [lia|done].
  - apply StronglySorted_inv in Hs as [Hs Hb0].
    pose proof Hs as Hs'. apply StronglySorted_inv in Hs' as [Hl Hc].
    apply Forall_cons in Hb0 as [Hb0c Hb0l].
    assert (Hs1 : StronglySorted (fun p q => (idx p < idx q)%nat)
                    ((if key c <? key b0 then c else b0) :: l)).
    { apply SSorted_cons; [done|]. by destruct (key c <? key b0). }
    specialize (IH _ Hs1).
    set (r := fold_left (fun best c0 => if key c0 <? key best then c0 else best)
                l (if key c <? key b0 then c else b0)) in *.
    destruct (key c <? key b0) eqn:E.
    + apply Z.ltb_lt in E.
      destruct (IH c ltac:(by left)) as [Hrc Htie].
      apply elem_of_cons in Hb as [->|Hb]; [split; lia|].
      apply IH. done.
    + apply Z.ltb_ge in E.
      destruct (IH b0 ltac:(by left)) as [Hrb Htie].
      apply elem_of_cons in Hb as [->|Hb]; [by apply IH; left|].
      apply elem_of_cons in Hb as [->|Hb].
      * split; [lia|]. intros Hk.
        assert ((idx r <= idx b0)%nat) by (apply Htie; lia). lia.
      * apply IH. by right.
Qed.

Lemma eligible_sorted (tier : string) (t : task.Task) (servers : list Server) :
  StronglySorted (fun p q : nat * Server => (p.1 < q.1)%nat)
    (scheduler.eligible tier t servers).
Proof.
  unfold scheduler.eligible.
  set (f := fun p : nat * Server =>
              String.prefix tier (name p.2)
              && can_allocate p.2 (task.cpu_demand t) (task.storage_demand t)
                   (task.memory_demand t)).
  assert (G : forall (l : list Server) (k : nat),
             StronglySorted (fun p q : nat * Server => (p.1 < q.1)%nat)
               (List.filter f (imap (fun i => pair (k + i)%nat) l))
             /\ Forall (fun p : nat * Server => (k <= p.1)%nat)
                  (List.filter f (imap (fun i => pair (k + i)%nat) l))).
  { induction l as [|s l IH]; intros k; simpl.
    - split; constructor.
    - destruct (IH (S k)) as [IH1 IH2].
      assert (E : imap ((fun i => pair (k + i)%nat) ∘ S) l
                  = imap (fun i => pair (S k + i)%nat) l).
      { apply imap_ext. intros i x _. simpl. f_equal. lia. }
      rewrite E.
      destruct (f ((k + 0)%nat, s)).
      + split.
        * apply SSorted_cons; [done|].
          eapply Forall_impl; [exact IH2|]. simpl. intros; lia.
        * apply Forall_cons. split; [simpl; lia|].
          eapply Forall_impl; [exact IH2|]. simpl. intros; lia.
      + split; [done|].
        eapply Forall_impl; [exact IH2|]. simpl. intros; lia. }
  destruct (G servers 0%nat) as [H _]. exact H.
Qed.

(** Within a tier the scheduler picks, among the servers that can take the
    task, one whose sum of available CPU, memory and storage is least, and
    the first such server of the store when several are tied. *)
Theorem try_tier_least_loaded (tier : string) (t : task.Task)
    (servers : list Server) (now : Z) (i : nat) (servers' : list Server) :
  scheduler.try_tier W tier t servers now = Some (i, servers') ->
  exists s,
    servers !! i = Some s
    /\ String.prefix tier (name s) = true
    /\ forall j s',
         servers !! j = Some s' ->
         String.prefix tier (name s') = true ->
         can_allocate s' (task.cpu_demand t) (task.storage_demand t)
           (task.memory_demand t) = true ->
         scheduler.load s <= scheduler.load s'
         /\ (scheduler.load s' = scheduler.load s -> (i <= j)%nat).
Proof.
  unfold scheduler.try_tier.
  destruct (py.min_by _ _) as [[k sel]|] eqn:Hmin; [|done].
  intros [= <- <-].
  pose proof (min_by_elem _ _ _ Hmin) as Hin.
  apply eligible_elem in Hin as (Hs & Hp & _).
  exists sel. split; [done|]. split; [done|].
  intros j s' Hs' Hp' Hc'.
  apply (min_by_first_least (fun p : nat * Server => scheduler.load p.2) fst
           _ _ (eligible_sorted tier t servers) Hmin (j, s')).
  by apply eligible_intro.
Qed.

(** One allocation relates a server to its successor by any preorder that
    [allocate] respects; so does a whole scheduling pass. *)
Lemma schedule_from_related (R : Server -> Server -> Prop)
    (tasks : list task.Task) (k : nat) (servers : list Server) (now : Z) :
  (forall s, R s s) -> (forall s1 s2 s3, R s1 s2 -> R s2 s3 -> R s1 s3) ->
  (forall s id c st m rt, R s (allocate W s id c st m rt).2) ->
  Forall2 R servers (scheduler.schedule_from W k tasks servers now).2.
Proof.
  intros Hrefl Htrans Halloc. revert k servers.
  induction tasks as [|t tasks IH]; intros k servers; simpl.
  - by apply Forall_Forall2_diag, Forall_forall.
  - eapply Forall2_trans; [exact Htrans| |apply IH].
    destruct (scheduler.schedule_task W t servers now) as [[i|] servers'] eqn:E.
    + apply schedule_task_placed in E as (s & Hs & _ & ->). simpl.
      apply Forall2_same_length_lookup_2; [by rewrite length_insert|].
      intros j s1 s2 H1 H2.
      destruct (decide (i = j)) as [->|Hne].
      * rewrite list_lookup_insert_eq in H2 by (by eapply lookup_lt_Some).
        injection H2 as <-. rewrite Hs in H1. injection H1 as <-. apply Halloc.
      * rewrite list_lookup_insert_ne in H2 by done.
        rewrite H1 in H2. injection H2 as <-. apply Hrefl.
    + apply schedule_task_unplaced in E as [-> _]. simpl.
      by apply Forall_Forall2_diag, Forall_forall.
Qed.

(** A scheduling pass returns one pair per submitted task, in order, leaves
    the tasks untouched, and changes no server's name, index, capacities,
    bandwidth, latency, rates or position: only the ledger part moves. *)
Theorem schedule_frame (tasks : list task.Task) (servers : list Server)
    (now : Z) :
  (scheduler.schedule W tasks servers now).1.1.*1 = seq 0 (length tasks)
  /\ (scheduler.schedule W tasks servers now).1.2 = tasks
  /\ Forall2
       (fun s s' => same_identity s s' /\ x s' = x s /\ y s' = y s
                    /\ location s' = location s /\ mobility s' = mobility s)
       servers (scheduler.schedule W tasks servers now).2.
Proof.
  unfold scheduler.schedule. simpl.
  split; [apply schedule_from_fst|]. split; [done|].
  apply schedule_from_related.
  - intros s. unfold same_identity. done.
  - intros s1 s2 s3 (I1 & ? & ? & ? & ?) (I2 & ? & ? & ? & ?).
    unfold same_identity in *.
    destruct I1 as (? & ? & ? & ? & ? & ? & ? & ? & ?).
    destruct I2 as (? & ? & ? & ? & ? & ? & ? & ? & ?).
    repeat split; congruence.
  - intros s id c st m rt. unfold allocate, same_identity.
    destruct (can_allocate s c st m); simpl; done.
Qed.

End TierOrder.

(** Witness: the first task on the configured servers, where the three Edge
    servers are tied and [Edge_1] comes first. *)
Lemma try_tier_least_loaded_witness :
  exists s,
    examples.SERVERS !! 0%nat = Some s
    /\ String.prefix "Edge" (server.name s) = true
    /\ forall j s',
         examples.SERVERS !! j = Some s' ->
         String.prefix "Edge" (server.name s') = true ->
         server.can_allocate s' (task.cpu_demand examples.first_task)
           (task.storage_demand examples.first_task)
           (task.memory_demand examples.first_task) = true ->
         scheduler.load s <= scheduler.load s'
         /\ (scheduler.load s' = scheduler.load s -> (0 <= j)%nat).
Proof.
  apply (try_tier_least_loaded config.WORKLOAD "Edge" examples.first_task
           examples.SERVERS 0 0
           (<[0%nat := examples.edge_1_scheduled]> examples.SERVERS)).
  vm_compute. reflexivity.
Defined.

(** ** Tasks through a round: generation, pending list, completion *)

Section Rounds.
Import server ledger placement.
Variable W : config.Workload.
Variable M : config.MobilityConfig.

Lemma generated_task_fields (g : generator.WorkloadGenerator)
    (uuid : nat -> string) (choice : nat -> Z) (r : Z) (i : nat)
    (t : task.Task) :
  generator.generate_tasks W g uuid choice r !! i = Some t ->
  task.id t = uuid i /\ task.priority t = choice i
  /\ task.status t = task.created
  /\ task.is_assigned t = false /\ task.assigned_server t = None
  /\ task.execution_delay t = 0
  /\ task.data_size_kb t = config.data_per_device_kb W
  /\ task.bandwidth t = generator.data_per_device_kb g.
Proof.
  unfold generator.generate_tasks. rewrite list_lookup_fmap.
  destruct (seq 0 _ !! i) as [d|] eqn:Hd; simpl; [|done].
  apply lookup_seq in Hd as [-> _]. intros [= <-]. done.
Qed.

(** Whatever the round number, the generator emits at most [max_devices]
    tasks (none when the count is not positive), and its [i]-th task is
    fresh: it carries the [i]-th drawn id and priority, status [created], no
    server, no execution window, and [data_size_kb] from [WORKLOAD]. *)
Theorem generate_tasks_fresh (g : generator.WorkloadGenerator)
    (uuid : nat -> string) (choice : nat -> Z) (r : Z) :
  Z.of_nat (length (generator.generate_tasks W g uuid choice r))
  <= Z.max 0 (generator.max_devices g)
  /\ forall i t,
       generator.generate_tasks W g uuid choice r !! i = Some t ->
       task.id t = uuid i /\ task.priority t = choice i
       /\ task.status t = task.created
       /\ task.is_assigned t = false /\ task.assigned_server t = None
       /\ task.execution_delay t = 0
       /\ task.data_size_kb t = config.data_per_device_kb W
       /\ task.bandwidth t = generator.data_per_device_kb g.
Proof.
  split.
  - rewrite generate_tasks_length. unfold generator.current_devices.
    destruct (_ >? _) eqn:E; [lia|].
    rewrite Z.gtb_ltb in E. apply Z.ltb_ge in E. lia.
  - intros i t. apply generated_task_fields.
Qed.

Lemma filter_all {A} (f : A -> bool) (l : list A) :
  Forall (fun a => f a = true) l -> List.filter f l = l.
Proof.
  induction 1 as [|a l Ha _ IH]; simpl; [done|]. by rewrite Ha, IH.
Qed.

Lemma apply_assignments_lengths (now : Z) (prs : list (nat * option nat))
    (st st' : list task.Task * list Server) :
  simulator.apply_assignments now st prs = Some st' ->
  length st'.1 = length st.1 /\ length st'.2 = length st.2.
Proof.
  revert st. induction prs as [|pr prs IH]; intros st; simpl.
  - by intros [= <-].
  - destruct (simulator.apply_assignment now st pr) as [st1|] eqn:E; simpl;
      [|done].
    apply apply_assignment_inv in E as (t & si & srv & _ & _ & _ & ->).
    intros H. apply IH in H. simpl in H. by rewrite !length_insert in H.
Qed.

(** The filter on [is_assigned] after the scheduler call removes nothing:
    it reads the legacy field [server_assigned], which nobody sets.  After
    a round driven by the greedy tier scheduler [self.tasks] still refers to
    every task of the round. *)
Theorem pending_keeps_every_task (sim sim' : simulator.Simulator)
    (round_no : Z) (o : simulator.Oracle) (log : simulator.RoundLog) :
  simulator.run_round (scheduler.schedule W) W M sim round_no o
  = Some (sim', log) ->
  simulator.tasks sim' = seq 0 (simulator.num_devices log)
  /\ length (simulator.task_objects sim') = simulator.num_devices log.
Proof.
  unfold simulator.run_round.
  destruct (manager.update_all M _ _ _) as [mob|]; simpl; [|done].
  destruct (simulator.apply_assignments _ _ _) as [st|] eqn:Happ; simpl;
    [|done].
  intros [= <- <-]. simpl.
  apply apply_assignments_lengths in Happ as [Hlen _]. simpl in Hlen.
  split; [|done].
  apply filter_all, Forall_forall. intros i Hi.
  apply elem_of_seq in Hi as [_ Hi]. simpl in Hi.
  destruct (lookup_lt_is_Some_2 _ i Hi) as [t Ht]. rewrite Ht.
  rewrite list_lookup_imap in Ht.
  destruct (generator.generate_tasks _ _ _ _ _ !! i) as [t0|] eqn:Hg;
    simpl in Ht; [|done].
  injection Ht as <-.
  apply generated_task_fields in Hg as (_ & _ & _ & Hna & _). simpl.
  unfold task.is_assigned in *. simpl. by destruct (task.server_assigned t0).
Qed.

(** Applying a returned pair marks the task completed with an execution
    delay equal to the latency of its server, whatever the demand. *)
Theorem completed_task_delay_is_latency (now : Z) (tasks : list task.Task)
    (servers : list Server) (ti si : nat) (t : task.Task) (srv : Server) :
  tasks !! ti = Some t -> servers !! si = Some srv ->
  exists st t',
    simulator.apply_assignment now (tasks, servers) (ti, Some si) = Some st
    /\ st.1 !! ti = Some t'
    /\ task.status t' = task.completed
    /\ task.execution_delay t' = latency srv
    /\ task.id t' = task.id t.
Proof.
  intros Ht Hs. eexists _, _.
  split; [by apply apply_assignment_placed|]. simpl.
  split; [apply list_lookup_insert_eq; by eapply lookup_lt_Some|].
  split; [done|]. split; [|done].
  unfold task.execution_delay. simpl. lia.
Qed.

Lemma schedule_from_pairs_valid (tasks : list task.Task) (k : nat)
    (servers : list Server) (now : Z) :
  length (scheduler.schedule_from W k tasks servers now).2 = length servers
  /\ Forall (fun pr : nat * option nat =>
               forall si, pr.2 = Some si -> (si < length servers)%nat)
       (scheduler.schedule_from W k tasks servers now).1.
Proof.
  revert k servers. induction tasks as [|t tasks IH]; intros k servers; simpl;
    [done|].
  destruct (IH (S k) (scheduler.schedule_task W t servers now).2) as [IH1 IH2].
  assert (Hlen : length (scheduler.schedule_task W t servers now).2
                 = length servers).
  { destruct (scheduler.schedule_task W t servers now) as [[i|] l] eqn:E.
    - apply schedule_task_placed in E as (s & _ & _ & ->). simpl.
      apply length_insert.
    - by apply schedule_task_unplaced in E as [-> _]. }
  rewrite Hlen in IH1, IH2. split; [done|].
  apply Forall_cons. split; [|done]. simpl. intros si Hsi.
  destruct (scheduler.schedule_task W t servers now) as [[i|] l] eqn:E;
    simpl in Hsi; [|done].
  injection Hsi as ->.
  apply schedule_task_placed in E as (s & Hs & _). by eapply lookup_lt_Some.
Qed.

Lemma apply_assignments_defined (now : Z) (prs : list (nat * option nat))
    (st : list task.Task * list Server) :
  Forall (fun pr : nat * option nat =>
            (pr.1 < length st.1)%nat
            /\ exists si, pr.2 = Some si /\ (si < length st.2)%nat) prs ->
  is_Some (simulator.apply_assignments now st prs).
Proof.
  revert st. induction prs as [|[ti osi] prs IH]; intros st H; simpl; [done|].
  apply Forall_cons in H as [(Hti & si & Hosi & Hsi) Hprs]. simpl in *.
  subst osi.
  destruct (lookup_lt_is_Some_2 _ _ Hti) as [t Ht].
  destruct (lookup_lt_is_Some_2 _ _ Hsi) as [srv Hs].
  destruct st as [tasks servers]. simpl in *.
  rewrite (apply_assignment_placed now tasks servers ti si t srv Ht Hs). simpl.
  apply IH. simpl. by rewrite !length_insert.
Qed.

Lemma total_rounds_value :
  config.increment W <> 0 ->
  simulator.total_rounds W
  = Some ((config.max_devices W - config.start_devices W)
          `div` config.increment W + 1).
Proof.
  intros H. unfold simulator.total_rounds.
  destruct (config.increment W =? 0) eqn:E; [|done].
  by apply Z.eqb_eq in E.
Qed.

(** The number of rounds fits the ramp: with a positive increment and
    [start_devices <= max_devices] there is at least one round, in every
    round of the run the generator's cap is not reached, so round [r] has
    exactly [start_devices + (r - 1) * increment] devices, and the last round
    is the last step of the ramp that does not exceed [max_devices]. *)
Theorem rounds_follow_the_ramp :
  0 < config.increment W ->
  config.start_devices W <= config.max_devices W ->
  let n := (config.max_devices W - config.start_devices W)
           `div` config.increment W + 1 in
  simulator.total_rounds W = Some n
  /\ 1 <= n
  /\ (forall r, 1 <= r <= n ->
        generator.current_devices (generator.init W) r
        = config.start_devices W + (r - 1) * config.increment W)
  /\ config.max_devices W - config.increment W
     < config.start_devices W + (n - 1) * config.increment W
     <= config.max_devices W.
Proof.
  intros Hinc Hle. simpl.
  set (q := (config.max_devices W - config.start_devices W)
            `div` config.increment W).
  assert (Hq0 : 0 <= q) by (apply Z.div_pos; lia).
  assert (Hq1 : config.increment W * q
                <= config.max_devices W - config.start_devices W)
    by (apply Z.mul_div_le; lia).
  assert (Hq2 : config.max_devices W - config.start_devices W
                < config.increment W * Z.succ q)
    by (apply Z.mul_succ_div_gt; lia).
  split; [apply total_rounds_value; lia|]. split; [lia|]. split; [|lia].
  intros r Hr. unfold generator.current_devices. simpl.
  destruct (_ >? _) eqn:E; [|done].
  apply Z.gtb_lt in E. nia.
Qed.

End Rounds.

(** Witness: the ramp 100, 110, ..., 150 has six rounds. *)
Lemma rounds_follow_the_ramp_witness :
  simulator.total_rounds examples.RAMP_WORKLOAD = Some 6
  /\ 1 <= 6
  /\ (forall r, 1 <= r <= 6 ->
        generator.current_devices (generator.init examples.RAMP_WORKLOAD) r
        = 100 + (r - 1) * 10)
  /\ 150 - 10 < 100 + (6 - 1) * 10 <= 150.
Proof.
  apply (rounds_follow_the_ramp examples.RAMP_WORKLOAD); simpl; lia.
Defined.

(** Witness: the first task completed on [Edge_1]. *)
Lemma completed_task_delay_is_latency_witness :
  exists st t',
    simulator.apply_assignment 0
      ([examples.first_task], examples.scheduled_servers) (0%nat, Some 0%nat)
    = Some st
    /\ st.1 !! 0%nat = Some t'
    /\ task.status t' = task.completed
    /\ task.execution_delay t' = server.latency examples.edge_1_scheduled
    /\ task.id t' = task.id examples.first_task.
Proof.
  apply (completed_task_delay_is_latency 0 [examples.first_task]
           examples.scheduled_servers 0 0 examples.first_task
           examples.edge_1_scheduled).
  - reflexivity.
  - vm_compute. reflexivity.
Defined.

(** The one round of the single-device simulator, up to its metrics step:
    the device is handed over to the near server, which costs 20 time units,
    and the task of the round is placed. *)
Lemma single_round_completes :
  exists sim' log,
    simulator.run_round (scheduler.schedule examples.SINGLE_WORKLOAD)
      examples.SINGLE_WORKLOAD config.MOBILITY_CONFIG examples.single_simulator
      1 examples.paused_round = Some (sim', log)
    /\ simulator.assignments log = [(0%nat, Some 0%nat)]
    /\ simulator.current_time sim' = 21.
Proof.
  unfold simulator.run_round.
  change (manager.update_all config.MOBILITY_CONFIG
            (simulator.mobility examples.single_simulator)
            (simulator.servers examples.single_simulator)
            (simulator.motion examples.paused_round))
    with (manager.update_all config.MOBILITY_CONFIG examples.far_manager
            [examples.node_A; examples.node_B] examples.paused).
  rewrite update_all_far.
  eexists _, _. split; [vm_compute; reflexivity|]. split; reflexivity.
Qed.

(** Witness: the round of the single-device simulator, one task for the one
    device. *)
Lemma pending_keeps_every_task_witness :
  exists sim' log,
    simulator.run_round (scheduler.schedule examples.SINGLE_WORKLOAD)
      examples.SINGLE_WORKLOAD config.MOBILITY_CONFIG examples.single_simulator
      1 examples.paused_round = Some (sim', log)
    /\ simulator.tasks sim' = seq 0 (simulator.num_devices log)
    /\ length (simulator.task_objects sim') = simulator.num_devices log.
Proof.
  destruct single_round_completes as (sim' & log & H & _).
  exists sim', log. split; [exact H|].
  exact (pending_keeps_every_task examples.SINGLE_WORKLOAD
           config.MOBILITY_CONFIG examples.single_simulator sim' 1
           examples.paused_round log H).
Defined.

(** ** Signal strength and the choice of a serving node *)

Section Signals.
Import mobile_entity handover placement.

Lemma ln_nonneg (r : R) : (1 <= r)%R -> (0 <= ln r)%R.
Proof.
  intros [H| <-].
  - rewrite <- ln_1. left. apply ln_increasing; lra.
  - rewrite ln_1. lra.
Qed.

(** The signal is never positive, and it is 0 within the unit distance:
    the clamp [max(dist, 1)] keeps the logarithm defined and non-negative. *)
Theorem signal_strength_nonpositive (e : MobileEntity) (s : server.Server) :
  (signal_strength e s <= 0)%R
  /\ ((distance e s <= 1)%R -> signal_strength e s = 0%R).
Proof.
  unfold signal_strength, py.log10. pose proof ln_10_pos as H10. split.
  - assert (H : (0 <= ln (Rmax (distance e s) 1))%R)
      by (apply ln_nonneg, Rmax_r).
    assert (H' : (0 <= ln (Rmax (distance e s) 1) / ln 10)%R).
    { apply Rmult_le_pos; [done|]. left. by apply Rinv_0_lt_compat. }
    lra.
  - intros Hd. rewrite Rmax_right by done. rewrite ln_1. field. lra.
Qed.

Lemma max_by_greatest {A} (key : A -> R) (l : list A) (b : A) :
  py.max_by key l = Some b -> forall a, a ∈ l -> (key a <= key b)%R.
Proof.
  destruct l as [|a0 l]; simpl; [done|]. intros [= <-]. revert a0.
  induction l as [|c l IH]; intros a0 a Ha; simpl.
  - apply list_elem_of_singleton in Ha as ->. lra.
  - specialize (IH (if Rlt_dec (key a0) (key c) then c else a0)).
    destruct (Rlt_dec (key a0) (key c)) as [Hlt|Hge].
    + apply elem_of_cons in Ha as [->|Ha].
      * pose proof (IH c ltac:(by left)). lra.
      * by apply IH.
    + apply elem_of_cons in Ha as [->|Ha]; [by apply IH; left|].
      apply elem_of_cons in Ha as [->|Ha].
      * pose proof (IH a0 ltac:(by left)). lra.
      * apply IH. by right.
Qed.

Lemma best_server_greatest (e : MobileEntity) (servers : list server.Server)
    (p : nat * server.Server) :
  py.max_by (fun p => signal_strength e p.2) (imap pair servers) = Some p ->
  servers !! p.1 = Some p.2
  /\ forall j s, servers !! j = Some s ->
                 (signal_strength e s <= signal_strength e p.2)%R.
Proof.
  intros H. split; [by apply best_server_signal in H as [? _]|].
  intros j s Hs.
  apply (max_by_greatest (fun p => signal_strength e p.2) _ _ H (j, s)).
  by apply (elem_of_lookup_imap_2 pair).
Qed.

Lemma pick_best_bs_cases (e : MobileEntity) (servers : list server.Server)
    (b : nat) :
  pick_best_bs e servers = Some b ->
  exists sb,
    servers !! b = Some sb
    /\ (attached_server e = None ->
        forall j s, servers !! j = Some s ->
                    (signal_strength e s <= signal_strength e sb)%R)
    /\ (forall a cur,
          attached_server e = Some a -> servers !! a = Some cur -> b <> a ->
          (signal_strength e sb - signal_strength e cur >= ho_threshold_db e)%R
          /\ forall j s, servers !! j = Some s ->
                         (signal_strength e s <= signal_strength e sb)%R).
Proof.
  unfold pick_best_bs.
  destruct (py.max_by _ _) as [p|] eqn:Hmax; simpl; [|done].
  apply best_server_greatest in Hmax as [Hp Hbest].
  destruct (attached_server e) as [a|] eqn:Ha.
  - destruct (servers !! a) as [cur|] eqn:Hcur; simpl; [|done].
    destruct (Rge_dec _ _) as [Hge|Hlt]; intros [= <-].
    + exists p.2. split; [done|]. split; [done|].
      intros a' cur' [= <-] Hcur' _. rewrite Hcur in Hcur'.
      injection Hcur' as <-. done.
    + exists cur. split; [done|]. split; [done|]. intros a' cur' [= <-]. done.
  - intros [= <-]. exists p.2. split; [done|]. split; [done|]. done.
Qed.


Lemma pick_best_bs_valid (e : MobileEntity) (servers : list server.Server)
    (b : nat) :
  pick_best_bs e servers = Some b -> (b < length servers)%nat.
Proof.
  intros H. apply pick_best_bs_cases in H as (sb & Hsb & _).
  by eapply lookup_lt_Some.
Qed.

End Signals.


(** ** What a mobility step changes *)

Section MobilityStep.
Import mobile_entity handover placement.
Variable M : config.MobilityConfig.

Lemma move_server_frame (mo : manager.Motion) (i : nat) (s : server.Server) :
  same_identity s (manager.move_server mo i s)
  /\ same_ledger s (manager.move_server mo i s)
  /\ server.mobility (manager.move_server mo i s) = server.mobility s
  /\ (server.mobility s = false -> manager.move_server mo i s = s).
Proof.
  unfold manager.move_server, same_identity, same_ledger.
  destruct (server.mobility s) eqn:E; simpl; done.
Qed.

(** [update_all] touches no ledger: every server keeps its identity, its
    availabilities, reservations and counters; only the position of a server
    that has a mobility model changes. *)
Theorem update_all_keeps_ledgers (mgr mgr' : manager.MobilityManager)
    (servers servers' : list server.Server) (mo : manager.Motion) (r : Z * Z) :
  manager.update_all M mgr servers mo = Some (mgr', servers', r) ->
  Forall2
    (fun s s' => same_identity s s' /\ same_ledger s s'
                 /\ server.mobility s' = server.mobility s
                 /\ (server.mobility s = false -> s' = s))
    servers servers'.
Proof.
  intros H. apply update_all_servers in H as ->.
  apply Forall2_same_length_lookup_2; [by rewrite length_imap|].
  intros i s s' Hs Hs'. rewrite list_lookup_imap, Hs in Hs'.
  injection Hs' as <-. apply move_server_frame.
Qed.

Lemma attach_attached (servers : list server.Server) (e e' : MobileEntity)
    (c d c' d' : Z) :
  manager.attach M servers e c d = Some (e', c', d') ->
  (exists b, attached_server e' = Some b /\ (b < length servers)%nat)
  /\ id e' = id e /\ position e' = position e.
Proof.
  unfold manager.attach.
  destruct (pick_best_bs e servers) as [nb|] eqn:Hp; simpl; [|done].
  apply pick_best_bs_valid in Hp.
  destruct (attached_server e) as [a|] eqn:Ha.
  - destruct (decide (nb = a)) as [->|Hne].
    { intros [= <- <- <-]. eauto. }
    destruct (servers !! a) as [old|] eqn:Hold; simpl; [|done].
    destruct (servers !! nb) as [new|]; simpl; [|done].
    destruct (Rge_dec _ _); intros [= <- <- <-]; simpl; [eauto|].
    split; [|done]. exists a. split; [done|]. by eapply lookup_lt_Some.
  - intros [= <- <- <-]. simpl. eauto.
Qed.

Lemma update_entities_attached (mo : manager.Motion) (dt : Z)
    (servers : list server.Server) (ents ents' : list MobileEntity)
    (i : nat) (c d c' d' : Z) :
  manager.update_entities M mo dt servers i ents c d = Some (ents', c', d') ->
  length ents' = length ents
  /\ Forall (fun e => exists b, attached_server e = Some b
                                /\ (b < length servers)%nat) ents'.
Proof.
  revert ents' i c d. induction ents as [|e ents IH]; intros ents' i c d; simpl.
  - by intros [= <- <- <-].
  - destruct (manager.attach M servers _ c d) as [[[e1 c1] d1]|] eqn:Hat;
      simpl; [|done].
    destruct (manager.update_entities M mo dt servers (S i) ents c1 d1)
      as [[[es2 c2] d2]|] eqn:Hrest; simpl; [|done].
    intros [= <- <- <-]. apply IH in Hrest as [Hlen Hall].
    apply attach_attached in Hat as [Hb _]. simpl.
    split; [by rewrite Hlen|]. by apply Forall_cons.
Qed.


(** With at least one server and every attached entity referring to a
    server of the store, [update_all] returns, and so does [pick_best_bs]
    for every entity that is unattached or attached to a server of the
    store: its result is an index of the store.  On the empty list
    [pick_best_bs] raises, whatever the entity. *)
Theorem mobility_step_returns (mgr : manager.MobilityManager)
    (servers : list server.Server) (mo : manager.Motion) :
  servers <> [] ->
  attachments_valid servers (manager.entities mgr) ->
  is_Some (manager.update_all M mgr servers mo)
  /\ (forall e,
        (forall a, attached_server e = Some a -> (a < length servers)%nat) ->
        exists b, pick_best_bs e servers = Some b /\ (b < length servers)%nat)
  /\ (forall e, pick_best_bs e [] = None).
Proof.
  intros Hne Hval. split; [by apply update_all_defined|]. split.
  - intros e He. by apply pick_best_bs_defined.
  - done.
Qed.

End MobilityStep.

(** Witness: the step of the scenario that hands the device over. *)
Lemma update_all_keeps_ledgers_witness :
  Forall2
    (fun s s' => placement.same_identity s s' /\ placement.same_ledger s s'
                 /\ server.mobility s' = server.mobility s
                 /\ (server.mobility s = false -> s' = s))
    [examples.node_A; examples.node_B] [examples.node_A; examples.node_B].
Proof.
  apply (update_all_keeps_ledgers config.MOBILITY_CONFIG examples.far_manager
           (manager.mkMobilityManager [examples.device_at_origin 0] 1 20 100)
           [examples.node_A; examples.node_B]
           [examples.node_A; examples.node_B] examples.paused (1, 20)).
  apply update_all_far.
Defined.


(** Witness: the far manager over the two servers of the scenario. *)
Lemma mobility_step_returns_witness :
  is_Some (manager.update_all config.MOBILITY_CONFIG examples.far_manager
             [examples.node_A; examples.node_B] examples.paused)
  /\ (forall e,
        (forall a, mobile_entity.attached_server e = Some a ->
                   (a < length [examples.node_A; examples.node_B])%nat) ->
        exists b,
          mobile_entity.pick_best_bs e [examples.node_A; examples.node_B]
          = Some b
          /\ (b < length [examples.node_A; examples.node_B])%nat)
  /\ (forall e, mobile_entity.pick_best_bs e [] = None).
Proof.
  apply mobility_step_returns.
  - discriminate.
  - apply Forall_cons. split; [|constructor].
    intros a [= <-]. simpl. lia.
Defined.

(** ** The random-waypoint model *)

Section Waypoint.
Import random_waypoint waypoint.

Lemma hypot_zero : py.hypot 0 0 = 0%R.
Proof.
  unfold py.hypot. replace (0 * 0 + 0 * 0)%R with 0%R by ring. apply sqrt_0.
Qed.

(** A call on a paused model never moves it: the returned position is the
    stored one, which is unchanged, whether the pause goes on or ends in this
    call.  In particular the call [next_position(0.0)] of [Server.__init__]
    returns the configured position. *)
Theorem next_position_paused (w : RandomWaypoint) (dr : Draws) (dt_ms : R) :
  state w = pause ->
  exists w',
    next_position w dr dt_ms = Some (w', pos w)
    /\ pos w' = pos w
    /\ pause_time w' = (pause_time w - dt_ms / 1000)%R
    /\ ((0 < pause_time w - dt_ms / 1000)%R ->
        state w' = pause /\ target w' = target w /\ vel w' = vel w)
    /\ ((pause_time w - dt_ms / 1000 <= 0)%R ->
        state w' = move /\ target w' = point dr /\ speed w' = drawn_speed dr
        /\ is_Some (vel w')).
Proof.
  intros Hs. unfold next_position. rewrite Hs.
  destruct (Rle_dec _ 0) as [Hle|Hgt]; eexists; (split; [reflexivity|]); simpl.
  - split; [done|]. split; [done|]. split; [lra|]. intros _. eauto.
  - split; [done|]. split; [done|]. split; [done|]. lra.
Qed.

(** The model never raises once built by [__init__]: a moving model always
    has its velocity, every call returns, the returned position is the one
    the model stores afterwards, and the area and ranges never change. *)
Theorem next_position_defined (w : RandomWaypoint) (dr : Draws) (dt_ms : R) :
  ready w ->
  exists w' p,
    next_position w dr dt_ms = Some (w', p)
    /\ ready w' /\ p = pos w'
    /\ area w' = area w /\ speed_range w' = speed_range w
    /\ pause_range w' = pause_range w.
Proof.
  intros Hr. unfold next_position, ready in *.
  destruct (state w) eqn:Hs.
  - destruct (Rle_dec _ 0); eexists _, _; (split; [reflexivity|]); simpl.
    + split; [eauto|]. done.
    + split; [done|]. done.
  - destruct (Hr eq_refl) as [v Hv]. rewrite Hv. simpl.
    destruct (Rlt_dec _ _); eexists _, _; (split; [reflexivity|]); simpl.
    + split; [done|]. done.
    + split; [eauto|]. done.
Qed.

(** When the drawn target is the current position the distance is zero; the
    divisor falls back to 1, the velocity is (0, 0) and nothing is divided by
    zero.  The next call moves by nothing, finds the model at its target and
    pauses it again with the drawn pause. *)
Theorem zero_distance_target (w : RandomWaypoint) (dr : Draws) (dt_ms : R) :
  state w = pause ->
  (pause_time w - dt_ms / 1000 <= 0)%R ->
  point dr = pos w ->
  exists w1,
    next_position w dr dt_ms = Some (w1, pos w)
    /\ state w1 = move
    /\ vel w1 = Some (0, 0)%R
    /\ forall dr2 dt2,
         exists w2,
           next_position w1 dr2 dt2 = Some (w2, pos w)
           /\ state w2 = pause /\ pos w2 = pos w
           /\ pause_time w2 = drawn_pause dr2.
Proof.
  intros Hs Hle Hpt. unfold next_position at 1. rewrite Hs.
  destruct (Rle_dec _ 0) as [_|Hn]; [|lra].
  cbv zeta. rewrite Hpt.
  assert (Hd : hypot_or_one ((pos w).1 - (pos w).1) ((pos w).2 - (pos w).2)
               = 1%R).
  { unfold hypot_or_one. rewrite !Rminus_diag, hypot_zero.
    by destruct (Req_dec_T 0 0). }
  rewrite Hd, !Rminus_diag.
  replace (drawn_speed dr * 0 / 1)%R with 0%R by (unfold Rdiv; ring).
  eexists. split; [reflexivity|]. simpl. split; [done|]. split; [done|].
  intros dr2 dt2. unfold next_position. simpl.
  assert (Hp : ((pos w).1 + 0 * (dt2 / 1000), (pos w).2 + 0 * (dt2 / 1000))%R
               = pos w).
  { destruct (pos w) as [a b]. simpl. f_equal; ring. }
  replace ((pos w).1 + 0 * (dt2 / 1000) - (pos w).1)%R with 0%R by ring.
  replace ((pos w).2 + 0 * (dt2 / 1000) - (pos w).2)%R with 0%R by ring.
  rewrite hypot_zero, Hp.
  destruct (Rlt_dec 0 (1 / 1000)) as [_|Hn]; [|lra].
  eexists. split; [reflexivity|]. done.
Qed.

End Waypoint.

(** Witness: the call [next_position(0.0)] in [Server.__init__] for
    [Edge_1], configured at (100, 200). *)
Lemma next_position_paused_witness :
  exists w',
    random_waypoint.next_position examples.edge_1_waypoint
      examples.same_point_draws 0
    = Some (w', (100, 200)%R)
    /\ random_waypoint.pos w' = (100, 200)%R
    /\ random_waypoint.pause_time w' = (1 - 0 / 1000)%R
    /\ ((0 < 1 - 0 / 1000)%R ->
        random_waypoint.state w' = random_waypoint.pause
        /\ random_waypoint.target w' = (310, 820)%R
        /\ random_waypoint.vel w' = None)
    /\ ((1 - 0 / 1000 <= 0)%R ->
        random_waypoint.state w' = random_waypoint.move
        /\ random_waypoint.target w' = (100, 200)%R
        /\ random_waypoint.speed w' = 3%R
        /\ is_Some (random_waypoint.vel w')).
Proof.
  apply (next_position_paused examples.edge_1_waypoint
           examples.same_point_draws 0).
  reflexivity.
Defined.

Lemma next_position_defined_witness :
  exists w' p,
    random_waypoint.next_position examples.edge_1_waypoint
      examples.same_point_draws 100 = Some (w', p)
    /\ waypoint.ready w' /\ p = random_waypoint.pos w'
    /\ random_waypoint.area w' = random_waypoint.mkArea 0 1000 0 1000
    /\ random_waypoint.speed_range w' = (1, 5)%R
    /\ random_waypoint.pause_range w' = (0, 2)%R.
Proof.
  apply (next_position_defined examples.edge_1_waypoint
           examples.same_point_draws 100).
  intros H. discriminate H.
Defined.

(** Witness: [Edge_1]'s model, paused for 1 s, stepped by 1000 ms towards
    the point where it already is. *)
Lemma zero_distance_target_witness :
  exists w1,
    random_waypoint.next_position examples.edge_1_waypoint
      examples.same_point_draws 1000 = Some (w1, (100, 200)%R)
    /\ random_waypoint.state w1 = random_waypoint.move
    /\ random_waypoint.vel w1 = Some (0, 0)%R
    /\ forall dr2 dt2,
         exists w2,
           random_waypoint.next_position w1 dr2 dt2 = Some (w2, (100, 200)%R)
           /\ random_waypoint.state w2 = random_waypoint.pause
           /\ random_waypoint.pos w2 = (100, 200)%R
           /\ random_waypoint.pause_time w2 = random_waypoint.drawn_pause dr2.
Proof.
  apply (zero_distance_target examples.edge_1_waypoint
           examples.same_point_draws 1000).
  - reflexivity.
  - simpl. lra.
  - reflexivity.
Defined.

(** ** Server names, tier lookup and construction *)

Section Construction.
Import server ledger placement.
Variable M : config.MobilityConfig.

Lemma split_head_no_underscore (s : string) :
  metrics.contains_underscore s = false -> py.split_head s = s.
Proof.
  induction s as [|c s IH]; simpl; [done|].
  destruct (Ascii.eqb c py.underscore); simpl; [done|].
  intros H. by rewrite IH.
Qed.

Lemma split_head_app (tier rest : string) :
  metrics.contains_underscore tier = false ->
  py.split_head (tier +:+ "_" +:+ rest) = tier.
Proof.
  induction tier as [|c tier IH]; simpl; [done|].
  destruct (Ascii.eqb c py.underscore); simpl; [done|].
  intros H. by rewrite IH.
Qed.

(** [extract_base_layer] is [split('_')[0]] on every name, its test for an
    underscore changes nothing; and a name built as [tier_suffix] from a tier
    name without underscore gives the tier name back. *)
Theorem extract_base_layer_round_trip (layer_name tier rest : string) :
  metrics.extract_base_layer layer_name = py.split_head layer_name
  /\ (metrics.contains_underscore tier = false ->
      metrics.extract_base_layer (tier +:+ "_" +:+ rest) = tier
      /\ py.split_head (tier +:+ "_" +:+ rest) = tier).
Proof.
  assert (G : forall s, metrics.extract_base_layer s = py.split_head s).
  { intros s. unfold metrics.extract_base_layer.
    destruct (metrics.contains_underscore s) eqn:E; [done|].
    symmetry. by apply split_head_no_underscore. }
  split; [apply G|]. intros H. rewrite G. split; by apply split_head_app.
Qed.

Lemma lookup_tier_unique (cfg : list config.TierSpec) (spec : config.TierSpec) :
  NoDup (config.tier <$> cfg) -> spec ∈ cfg ->
  config.lookup_tier cfg (config.tier spec) = Some spec.
Proof.
  unfold config.lookup_tier.
  induction cfg as [|sp cfg IH]; simpl; intros Hnd Hin.
  - by apply elem_of_nil in Hin.
  - apply NoDup_cons in Hnd as [Hni Hnd].
    destruct (String.eqb (config.tier sp) (config.tier spec)) eqn:E.
    + apply String.eqb_eq in E.
      apply elem_of_cons in Hin as [->|Hin]; [done|].
      exfalso. apply Hni. rewrite E. by apply list_elem_of_fmap_2.
    + apply elem_of_cons in Hin as [->|Hin].
      * by rewrite String.eqb_refl in E.
      * by apply IH.
Qed.

Lemma init_full (cfg : list config.TierSpec) (nm : string) (i : nat)
    (c st m bw lat : Z) (co tx : Q) (s : Server) :
  server.init cfg M nm i c st m bw lat co tx = Some s ->
  availability s = (cpu_capacity s, storage_capacity s, memory_capacity s)
  /\ running_tasks s = ∅
  /\ cpu_capacity s = c /\ storage_capacity s = st /\ memory_capacity s = m.
Proof.
  unfold server.init.
  destruct (config.lookup_tier cfg _) as [spec|]; simpl; [|done].
  destruct (config.positions spec !! i) as [pos|]; simpl; [|done].
  by intros [= <-].
Qed.

Lemma length_concat_mapM {A B} (f : A -> option (list B)) (size : A -> nat)
    (l : list A) (k : list (list B)) :
  (forall a b, f a = Some b -> length b = size a) ->
  mapM f l = Some k -> length (concat k) = sum_list_with size l.
Proof.
  intros Hf H. apply mapM_Some_1 in H.
  induction H as [|a b l k Hab _ IH]; simpl; [done|].
  by rewrite length_app, IH, (Hf a b Hab).
Qed.

(** When the tier names are distinct and free of underscores and every tier
    lists at least [num_datacenters] positions, [_initialize_servers] raises
    neither [KeyError] nor [IndexError]: it builds [num_datacenters] servers
    per tier, each with full availability and no reservation. *)
Theorem initialize_servers_defined (cfg : list config.TierSpec) :
  NoDup (config.tier <$> cfg) ->
  Forall (fun spec =>
            metrics.contains_underscore (config.tier spec) = false
            /\ (config.num_datacenters spec
                <= length (config.positions spec))%nat) cfg ->
  exists l,
    simulator.initialize_servers cfg M = Some l
    /\ length l = sum_list_with config.num_datacenters cfg
    /\ Forall (fun s =>
                 availability s
                 = (cpu_capacity s, storage_capacity s, memory_capacity s)
                 /\ running_tasks s = ∅) l.
Proof.
  intros Hnd Hcfg. unfold simulator.initialize_servers.
  assert (Hsome : is_Some (mapM (simulator.tier_servers cfg M) cfg)).
  { apply mapM_is_Some_2, Forall_forall. intros spec Hin.
    destruct (proj1 (Forall_forall _ _) Hcfg spec Hin) as [Hu Hn].
    unfold compose, simulator.tier_servers.
    apply mapM_is_Some_2, Forall_forall. intros i Hi.
    apply elem_of_seq in Hi as [_ Hi]. unfold compose, server.init.
    rewrite split_head_app by done.
    rewrite (lookup_tier_unique cfg spec Hnd Hin). simpl.
    destruct (lookup_lt_is_Some_2 (config.positions spec) i ltac:(lia))
      as [pos ->].
    done. }
  destruct Hsome as [tiers Ht]. rewrite Ht. simpl.
  exists (concat tiers). split; [done|]. split.
  - eapply length_concat_mapM; [|exact Ht].
    intros spec k Hk. unfold simulator.tier_servers in Hk.
    apply length_mapM in Hk. by rewrite length_seq in Hk.
  - apply Forall_concat.
    eapply Forall2_Forall_r; [apply mapM_Some_1, Ht|].
    apply Forall_forall. intros spec _ k Hk.
    eapply Forall2_Forall_r; [apply mapM_Some_1, Hk|].
    apply Forall_forall. intros i _ s Hs.
    apply init_full in Hs as (? & ? & _). done.
Qed.

End Construction.

Section SimulatorInit.
Import server placement.
Variable M : config.MobilityConfig.

Lemma device_entity_inv (servers : list Server) (i : nat)
    (e : mobile_entity.MobileEntity) :
  simulator.device_entity M servers i = Some e ->
  exists srv,
    servers !! (i mod length servers)%nat = Some srv
    /\ (i mod length servers < length servers)%nat
    /\ mobile_entity.id e = i
    /\ mobile_entity.attached_server e = Some (i mod length servers)%nat
    /\ mobile_entity.position e = mobile_entity.Pos2 (x srv) (y srv)
    /\ mobile_entity.mobility e = true.
Proof.
  unfold simulator.device_entity.
  destruct (decide (length servers = 0%nat)) as [|Hne]; [done|].
  destruct (servers !! (i mod length servers)%nat) as [srv|] eqn:Hs; simpl;
    [|done].
  intros [= <-]. exists srv. split; [done|].
  split; [by eapply lookup_lt_Some|]. done.
Qed.

(** A simulator that [__init__] has built starts at time 0 with zeroed
    handover counters and one entity per device slot; entity [i] sits on
    server [i mod n], attached to it, with a mobility model; and the first
    mobility step cannot raise. *)
Theorem simulator_init_ready (cfg : list config.TierSpec) (W : config.Workload)
    (sim : simulator.Simulator) :
  simulator.init cfg W M = Some sim ->
  simulator.current_time sim = 0
  /\ manager.ho_count (simulator.mobility sim) = 0
  /\ manager.ho_delay (simulator.mobility sim) = 0
  /\ length (manager.entities (simulator.mobility sim))
     = Z.to_nat (config.max_devices W)
  /\ (forall i e,
        manager.entities (simulator.mobility sim) !! i = Some e ->
        exists srv,
          simulator.servers sim !! (i mod length (simulator.servers sim))%nat
          = Some srv
          /\ mobile_entity.id e = i
          /\ mobile_entity.attached_server e
             = Some (i mod length (simulator.servers sim))%nat
          /\ mobile_entity.position e = mobile_entity.Pos2 (x srv) (y srv)
          /\ mobile_entity.mobility e = true)
  /\ forall mo,
       is_Some (manager.update_all M (simulator.mobility sim)
                  (simulator.servers sim) mo).
Proof.
  unfold simulator.init.
  destruct (simulator.initialize_servers cfg M) as [l|]; simpl; [|done].
  destruct (mapM _ _) as [ents|] eqn:He; simpl; [|done].
  intros [= <-]. simpl.
  pose proof (length_mapM _ _ _ He) as Hlen. rewrite length_seq in Hlen.
  apply mapM_Some_1 in He.
  assert (Hent : forall i e, ents !! i = Some e ->
            simulator.device_entity M l i = Some e).
  { intros i e Hi.
    destruct (Forall2_lookup_r _ _ _ _ _ He Hi) as (j & Hj & Hd).
    apply lookup_seq in Hj as [-> _]. done. }
  split; [done|]. split; [done|]. split; [done|]. split; [done|]. split.
  - intros i e Hi. apply Hent, device_entity_inv in Hi
      as (srv & ? & ? & ? & ? & ? & ?). exists srv. done.
  - intros mo. destruct l as [|s0 l].
    + destruct ents as [|e ents]; [by eexists|].
      specialize (Hent 0%nat e eq_refl). done.
    + apply update_all_defined; [done|].
      apply Forall_lookup_2. intros i e Hi a Ha. simpl.
      apply Hent, device_entity_inv in Hi as (srv & _ & Hlt & _ & Hatt & _).
      rewrite Hatt in Ha. injection Ha as <-. exact Hlt.
Qed.

End SimulatorInit.

(** Witness: the shipped tiers: three, two and one server. *)
Lemma initialize_servers_defined_witness :
  exists l,
    simulator.initialize_servers config.SERVER_CONFIG config.MOBILITY_CONFIG
    = Some l
    /\ length l = sum_list_with config.num_datacenters config.SERVER_CONFIG
    /\ Forall (fun s =>
                 ledger.availability s
                 = (server.cpu_capacity s, server.storage_capacity s,
                    server.memory_capacity s)
                 /\ server.running_tasks s = ∅) l.
Proof.
  apply (initialize_servers_defined config.MOBILITY_CONFIG config.SERVER_CONFIG).
  - apply (bool_decide_unpack _). vm_compute. exact I.
  - repeat (apply Forall_cons; split; [split; [reflexivity | simpl; lia]|]).
    constructor.
Defined.

(** Witness: the shipped tiers with the small workload, four device slots. *)
Lemma simulator_init_ready_witness :
  exists sim,
    simulator.init config.SERVER_CONFIG examples.SMALL_WORKLOAD
      config.MOBILITY_CONFIG = Some sim
    /\ simulator.current_time sim = 0
    /\ length (manager.entities (simulator.mobility sim)) = 4%nat
    /\ forall mo,
         is_Some (manager.update_all config.MOBILITY_CONFIG
                    (simulator.mobility sim) (simulator.servers sim) mo).
Proof.
  destruct (simulator.init config.SERVER_CONFIG examples.SMALL_WORKLOAD
              config.MOBILITY_CONFIG) as [sim|] eqn:E.
  - exists sim. split; [done|].
    destruct (simulator_init_ready config.MOBILITY_CONFIG config.SERVER_CONFIG
                examples.SMALL_WORKLOAD sim E) as (H0 & _ & _ & Hn & _ & Hu).
    split; [done|]. split; [exact Hn | exact Hu].
  - exfalso. vm_compute in E. discriminate E.
Defined.

(** ** Lifetime of a reservation, and the clock over a run *)

Section Lifetime.
Import server ledger.
Variable W : config.Workload.

(** A reservation admitted with release time [rt] is held by every release
    before [rt] and freed by every release at or after [rt]. *)
Theorem reservation_lifetime (s : Server) (task_id : string) (c st m rt : Z) :
  can_allocate s c st m = true ->
  let s1 := (allocate W s task_id c st m rt).2 in
  running_tasks s1 !! task_id = Some (mkReservation c st m rt)
  /\ (forall now, now < rt ->
        running_tasks (release_completed_tasks s1 now) !! task_id
        = Some (mkReservation c st m rt))
  /\ (forall now, rt <= now ->
        running_tasks (release_completed_tasks s1 now) !! task_id = None).
Proof.
  intros Hcan. simpl. rewrite allocate_admitted by done. simpl.
  split; [apply lookup_insert_eq|]. split.
  - intros now Hlt. rewrite release_running. simpl.
    apply map_lookup_filter_Some. split; [apply lookup_insert_eq | done].
  - intros now Hle. rewrite release_running. simpl.
    apply map_lookup_filter_None. right. intros r.
    rewrite lookup_insert_eq. intros [= <-]. simpl. lia.
Qed.

End Lifetime.

(** Witness: the first task on [Edge_1], released at 5. *)
Lemma reservation_lifetime_witness :
  let s1 := (server.allocate config.WORKLOAD examples.edge_1 "task-0"
               10 10 10 5).2 in
  server.running_tasks s1 !! "task-0" = Some (server.mkReservation 10 10 10 5)
  /\ (forall now, now < 5 ->
        server.running_tasks (server.release_completed_tasks s1 now) !! "task-0"
        = Some (server.mkReservation 10 10 10 5))
  /\ (forall now, 5 <= now ->
        server.running_tasks (server.release_completed_tasks s1 now) !! "task-0"
        = None).
Proof.
  apply (reservation_lifetime config.WORKLOAD examples.edge_1 "task-0"
           10 10 10 5).
  reflexivity.
Defined.

Section Clock.
Variable sched : scheduler.Scheduler.
Variable W : config.Workload.
Variable M : config.MobilityConfig.

(** Over any number of completed rounds, with a non-negative handover
    latency, there is one log per round, the handover delay of the manager
    never decreases, and the clock advances by at least one unit per round
    (by one unit plus the returned delay in each). *)
Theorem run_rounds_clock (oracle : nat -> simulator.Oracle)
    (rounds : list nat) (sim sim' : simulator.Simulator)
    (logs : list simulator.RoundLog) :
  0 <= config.handover_latency_ms M ->
  0 <= manager.ho_delay (simulator.mobility sim) ->
  simulator.run_rounds sched W M oracle sim rounds = Some (sim', logs) ->
  length logs = length rounds
  /\ manager.ho_delay (simulator.mobility sim)
     <= manager.ho_delay (simulator.mobility sim')
  /\ simulator.current_time sim + Z.of_nat (length rounds)
     <= simulator.current_time sim'.
Proof.
  intros Hlat. revert sim logs.
  induction rounds as [|r rounds IH]; intros sim logs Hd; simpl.
  - intros [= <- <-]. simpl. lia.
  - destruct (simulator.run_round sched W M sim _ _) as [[sim1 log]|] eqn:E;
      simpl; [|done].
    destruct (simulator.run_rounds sched W M oracle sim1 rounds)
      as [[sim2 logs2]|] eqn:E2; simpl; [|done].
    intros [= <- <-]. simpl.
    apply run_round_clock in E as [[s1 Hu] Hc].
    apply update_all_accounting in Hu as (_ & Hd1 & _ & Hd2).
    assert (Hmono : manager.ho_delay (simulator.mobility sim)
                    <= manager.ho_delay (simulator.mobility sim1)) by nia.
    destruct (IH sim1 logs2 ltac:(lia) E2) as (Hl & Hm & Ht).
    split; [by rewrite Hl|]. split; [lia|]. lia.
Qed.

End Clock.

(** Witness: the one round of the single-device simulator. *)
Lemma run_rounds_clock_witness :
  exists sim' logs,
    simulator.run_rounds (scheduler.schedule examples.SINGLE_WORKLOAD)
      examples.SINGLE_WORKLOAD config.MOBILITY_CONFIG
      (fun _ => examples.paused_round) examples.single_simulator [1%nat]
    = Some (sim', logs)
    /\ length logs = 1%nat
    /\ 0 <= manager.ho_delay (simulator.mobility sim')
    /\ 0 + 1 <= simulator.current_time sim'.
Proof.
  destruct single_round_completes as (sim1 & log & H & _).
  assert (E : simulator.run_rounds (scheduler.schedule examples.SINGLE_WORKLOAD)
                examples.SINGLE_WORKLOAD config.MOBILITY_CONFIG
                (fun _ => examples.paused_round) examples.single_simulator
                [1%nat] = Some (sim1, [log])).
  { simpl. change (Z.of_nat 1) with 1. rewrite H. reflexivity. }
  exists sim1, [log]. split; [exact E|].
  apply (run_rounds_clock (scheduler.schedule examples.SINGLE_WORKLOAD)
           examples.SINGLE_WORKLOAD config.MOBILITY_CONFIG
           (fun _ => examples.paused_round) [1%nat] examples.single_simulator
           sim1 [log]); [simpl; lia | simpl; lia | exact E].
Defined.

(** ** The metrics step, and when a whole round completes *)

Section Reports.
Import server placement reporting.
Variable cfg : list config.TierSpec.

Lemma extract_base_layer_split_head (s : string) :
  metrics.extract_base_layer s = py.split_head s.
Proof.
  unfold metrics.extract_base_layer.
  destruct (metrics.contains_underscore s) eqn:E; [done|].
  symmetry. by apply split_head_no_underscore.
Qed.

Lemma same_identity_refl (s : Server) : same_identity s s.
Proof. by unfold same_identity. Qed.

Lemma same_identity_trans (s1 s2 s3 : Server) :
  same_identity s1 s2 -> same_identity s2 s3 -> same_identity s1 s3.
Proof.
  unfold same_identity.
  intros (? & ? & ? & ? & ? & ? & ? & ? & ?) (? & ? & ? & ? & ? & ? & ? & ? & ?).
  repeat split; congruence.
Qed.

Lemma reportable_identity (s s' : Server) :
  same_identity s s' -> reportable cfg s <-> reportable cfg s'.
Proof.
  unfold same_identity, reportable, tier_known.
  intros (-> & _ & -> & -> & -> & -> & _). done.
Qed.

(** *** When the loop over the tasks of a server returns *)

Lemma task_metrics_is_Some (entities : list mobile_entity.MobileEntity)
    (srv : Server) (acc : simulator.Accumulators) (t : task.Task) :
  is_Some (simulator.task_metrics cfg entities srv acc t)
  <-> (exists k, task.entity_id t = Some k /\ (k < length entities)%nat)
      /\ tier_known cfg srv.
Proof.
  unfold simulator.task_metrics, tier_known,
    metrics.calculate_transmission_delay, metrics.calculate_propagation_delay,
    metrics.calculate_edge_energy, metrics.calculate_regional_energy,
    metrics.calculate_cloud_energy.
  rewrite extract_base_layer_split_head.
  set (tier := py.split_head (name srv)).
  destruct (task.entity_id t) as [k|]; simpl;
    [|split; [by intros [? ?]|by intros [(? & ? & _) _]]].
  destruct (entities !! k) as [dev|] eqn:Hk; simpl.
  2:{ apply lookup_ge_None in Hk.
      split; [by intros [? ?]|]. intros [(k' & [= <-] & Hlt) _]. lia. }
  apply lookup_lt_Some in Hk.
  destruct (config.lookup_tier cfg tier) as [spec|] eqn:Hspec; simpl;
    [|split; [by intros [? ?]|by intros [_ [(? & ? & _) _]]]].
  destruct (config.bandwidth spec =? 0) eqn:Hbw; simpl.
  { apply Z.eqb_eq in Hbw.
    split; [by intros [? ?]|]. by intros [_ [(? & [= <-] & ?) _]]. }
  apply Z.eqb_neq in Hbw.
  destruct (String.eqb tier "Edge") eqn:HE.
  { apply String.eqb_eq in HE. rewrite <- HE, Hspec. simpl.
    split; [|done]. intros _. split; [eauto|]. split; [eauto|]. done. }
  destruct (String.eqb tier "Regional") eqn:HR.
  { apply String.eqb_eq in HR. rewrite <- HR, Hspec. simpl.
    split; [|done]. intros _. split; [eauto|]. split; [eauto|]. done. }
  apply String.eqb_neq in HE, HR.
  destruct (config.lookup_tier cfg "Cloud") as [cloud|]; simpl.
  - split; [|done]. intros _. split; [eauto|]. split; [eauto|]. done.
  - split; [by intros [? ?]|]. intros [_ [_ H]].
    by destruct (H HE HR).
Qed.

Lemma accumulate_is_Some (entities : list mobile_entity.MobileEntity)
    (srv : Server) (ts : list task.Task) (acc : simulator.Accumulators) :
  is_Some (simulator.accumulate cfg entities srv acc ts)
  <-> Forall (fun t => (exists k, task.entity_id t = Some k
                                  /\ (k < length entities)%nat)
                       /\ tier_known cfg srv) ts.
Proof.
  revert acc. induction ts as [|t ts IH]; intros acc; simpl.
  - split; [by intros _|by intros _].
  - rewrite Forall_cons, <- (task_metrics_is_Some entities srv acc t).
    destruct (simulator.task_metrics cfg entities srv acc t) as [acc'|];
      simpl.
    + rewrite IH. split; [by intros ?|by intros [_ ?]].
    + split; [by intros [? ?]|by intros [[? ?] _]].
Qed.

Lemma used_percent_is_Some (used capacity : Z) :
  is_Some (simulator.used_percent used capacity) <-> capacity <> 0.
Proof.
  unfold simulator.used_percent. destruct (capacity =? 0) eqn:E.
  - apply Z.eqb_eq in E. split; [by intros [? ?]|done].
  - apply Z.eqb_neq in E. done.
Qed.

Lemma calculate_congestion_is_Some (total bandwidth_kbps : Z) :
  is_Some (metrics.calculate_congestion total bandwidth_kbps)
  <-> bandwidth_kbps <> 0.
Proof.
  unfold metrics.calculate_congestion. destruct (bandwidth_kbps =? 0) eqn:E.
  - apply Z.eqb_eq in E. split; [by intros [? ?]|done].
  - apply Z.eqb_neq in E. done.
Qed.

(** The tasks placed on server [i]: those of the pairs that name it. *)
Lemma assigned_here_elem (tasks : list task.Task)
    (prs : list (nat * option nat)) (i : nat) (here : list task.Task)
    (t : task.Task) :
  simulator.assigned_here tasks prs i = Some here ->
  t ∈ here <-> exists ti, (ti, Some i) ∈ prs /\ tasks !! ti = Some t.
Proof.
  unfold simulator.assigned_here. intros H. apply mapM_Some_1 in H.
  split.
  - intros Ht. apply list_elem_of_lookup in Ht as [k Hk].
    destruct (Forall2_lookup_r _ _ _ _ _ H Hk) as ([ti osi] & Hpr & Hti).
    apply list_elem_of_lookup_2, list_elem_of_In, filter_In in Hpr
      as [Hin Hf].
    simpl in *. destruct osi as [si|]; [|done].
    apply Nat.eqb_eq in Hf as ->. exists ti.
    split; [by apply list_elem_of_In|done].
  - intros (ti & Hin & Hti).
    assert (Hf : (ti, Some i) ∈ List.filter
                   (fun pr : nat * option nat =>
                      match pr.2 with
                      | Some si => Nat.eqb si i
                      | None => false
                      end) prs).
    { apply list_elem_of_In, filter_In. split; [by apply list_elem_of_In|].
      simpl. apply Nat.eqb_refl. }
    apply list_elem_of_lookup in Hf as [k Hk].
    destruct (Forall2_lookup_l _ _ _ _ _ H Hk) as (t' & Ht' & Heq).
    simpl in Heq. rewrite Hti in Heq. injection Heq as <-.
    by eapply list_elem_of_lookup_2.
Qed.

Lemma assigned_here_defined (tasks : list task.Task)
    (prs : list (nat * option nat)) (i : nat) :
  Forall (fun pr : nat * option nat => (pr.1 < length tasks)%nat) prs ->
  is_Some (simulator.assigned_here tasks prs i).
Proof.
  intros H. unfold simulator.assigned_here. apply mapM_is_Some_2.
  apply Forall_forall. intros pr Hpr. simpl.
  apply list_elem_of_In, filter_In in Hpr as [Hin _].
  apply lookup_lt_is_Some_2.
  by apply (proj1 (Forall_forall _ _) H), list_elem_of_In.
Qed.

Lemma server_metrics_is_Some (entities : list mobile_entity.MobileEntity)
    (tasks : list task.Task) (prs : list (nat * option nat)) (round_no : Z)
    (num_devices : nat) (mob : R * Z * Z) (failed : Z) (i : nat)
    (srv : Server) (here : list task.Task) :
  simulator.assigned_here tasks prs i = Some here ->
  is_Some (simulator.server_metrics cfg entities tasks prs round_no
             num_devices mob failed i srv)
  <-> (here = []
       \/ Forall (fun t => exists k, task.entity_id t = Some k
                                     /\ (k < length entities)%nat) here
          /\ reportable cfg srv).
Proof.
  intros Hhere. unfold simulator.server_metrics. rewrite Hhere. simpl.
  destruct here as [|first rest]; [split; [by left|done]|].
  set (here := first :: rest).
  pose proof (accumulate_is_Some entities srv here
                (simulator.mkAccumulators 0 0 0 0 0 [])) as Hacc.
  pose proof (used_percent_is_Some (cpu_capacity srv - available_cpu srv)
                (cpu_capacity srv)) as Hc.
  pose proof (used_percent_is_Some
                (memory_capacity srv - available_memory srv)
                (memory_capacity srv)) as Hm.
  pose proof (used_percent_is_Some
                (storage_capacity srv - available_storage srv)
                (storage_capacity srv)) as Hs.
  pose proof (calculate_congestion_is_Some
                (foldr Z.add 0 (task.data_size_kb <$> here)) (bandwidth srv))
    as Hb.
  unfold reportable.
  destruct (simulator.accumulate _ _ _ _ _) as [acc|]; simpl.
  2:{ split; [by intros [? ?]|]. intros [?|[Hall (_ & _ & _ & _ & Ht)]];
        [done|].
      assert (Hx : is_Some (@None simulator.Accumulators)); [|by destruct Hx].
      apply Hacc. eapply Forall_impl; [exact Hall|]. by intros t ?. }
  assert (Hok : Forall (fun t => (exists k, task.entity_id t = Some k
                                            /\ (k < length entities)%nat)
                                 /\ tier_known cfg srv) here)
    by (by apply Hacc).
  assert (Hents : Forall (fun t => exists k, task.entity_id t = Some k
                                             /\ (k < length entities)%nat)
                    here)
    by (eapply Forall_impl; [exact Hok|]; by intros t [? _]).
  assert (Htier : tier_known cfg srv)
    by (apply Forall_cons in Hok as [[_ ?] _]; done).
  destruct (simulator.used_percent _ (cpu_capacity srv)) as [cu|]; simpl.
  2:{ split; [by intros [? ?]|]. intros [?|[_ (H & _)]]; [done|].
      assert (Hx : is_Some (@None Q)) by (by apply Hc). by destruct Hx. }
  destruct (simulator.used_percent _ (memory_capacity srv)) as [mu|]; simpl.
  2:{ split; [by intros [? ?]|]. intros [?|[_ (_ & H & _)]]; [done|].
      assert (Hx : is_Some (@None Q)) by (by apply Hm). by destruct Hx. }
  destruct (simulator.used_percent _ (storage_capacity srv)) as [su|]; simpl.
  2:{ split; [by intros [? ?]|]. intros [?|[_ (_ & _ & H & _)]]; [done|].
      assert (Hx : is_Some (@None Q)) by (by apply Hs). by destruct Hx. }
  destruct (metrics.calculate_congestion _ _) as [cg|]; simpl.
  2:{ split; [by intros [? ?]|]. intros [?|[_ (_ & _ & _ & H & _)]]; [done|].
      assert (Hx : is_Some (@None Q)) by (by apply Hb). by destruct Hx. }
  split; [|done]. intros _. right. split; [done|].
  split; [by apply Hc|]. split; [by apply Hm|]. split; [by apply Hs|].
  split; [by apply Hb|]. done.
Qed.

(** *** When step 7 returns *)

Lemma report_metrics_is_Some (sim : simulator.Simulator)
    (log : simulator.RoundLog) (round_no : Z) :
  Forall (fun pr : nat * option nat =>
            (pr.1 < length (simulator.task_objects sim))%nat)
    (simulator.assignments log) ->
  (forall k t, simulator.task_objects sim !! k = Some t ->
               task.entity_id t = Some k) ->
  is_Some (simulator.report_metrics cfg sim log round_no)
  <-> forall ti si srv,
        (ti, Some si) ∈ simulator.assignments log ->
        simulator.servers sim !! si = Some srv ->
        (ti < length (manager.entities (simulator.mobility sim)))%nat
        /\ reportable cfg srv.
Proof.
  intros Hidx Hids. unfold simulator.report_metrics.
  set (f := fun p : nat * Server => simulator.server_metrics cfg _ _ _ _ _ _ _ p.1 p.2).
  transitivity (is_Some (mapM f (imap pair (simulator.servers sim)))).
  { destruct (mapM f _); simpl; [split; by intros _|split; by intros [? ?]]. }
  rewrite mapM_is_Some, Forall_lookup.
  split.
  - intros H ti si srv Hin Hsrv.
    assert (Hrow : is_Some (f (si, srv))).
    { apply (H si). by rewrite list_lookup_imap, Hsrv. }
    unfold f in Hrow. simpl in Hrow.
    destruct (assigned_here_defined (simulator.task_objects sim)
                (simulator.assignments log) si Hidx) as [here Hhere].
    apply (server_metrics_is_Some _ _ _ _ _ _ _ _ _ _ Hhere) in Hrow.
    assert (Hti : (ti < length (simulator.task_objects sim))%nat)
      by (apply (proj1 (Forall_forall _ _) Hidx (ti, Some si) Hin)).
    destruct (lookup_lt_is_Some_2 _ _ Hti) as [t Ht].
    assert (Hmem : t ∈ here)
      by (apply (assigned_here_elem _ _ _ _ _ Hhere); eauto).
    destruct Hrow as [->|[Hall Hrep]]; [by apply elem_of_nil in Hmem|].
    split; [|done].
    destruct (proj1 (Forall_forall _ _) Hall t Hmem) as (k & Hk & Hlt).
    rewrite (Hids _ _ Ht) in Hk. by injection Hk as <-.
  - intros H i [j srv] Hp. rewrite list_lookup_imap in Hp.
    destruct (simulator.servers sim !! i) as [srv'|] eqn:Hsrv; simpl in Hp;
      [|done].
    injection Hp as <- <-. unfold f, compose. simpl.
    destruct (assigned_here_defined (simulator.task_objects sim)
                (simulator.assignments log) i Hidx) as [here Hhere].
    apply (server_metrics_is_Some _ _ _ _ _ _ _ _ _ _ Hhere).
    destruct here as [|first rest]; [by left|]. right.
    assert (Hfirst : first ∈ first :: rest) by apply list_elem_of_here.
    apply (assigned_here_elem _ _ _ _ _ Hhere) in Hfirst as (ti0 & Hin0 & _).
    split; [|by apply (H ti0 i srv')].
    apply Forall_forall. intros t Ht.
    apply (assigned_here_elem _ _ _ _ _ Hhere) in Ht as (ti & Hin & Hti).
    exists ti. split; [by apply Hids|]. by apply (H ti i srv').
Qed.


(** *** What a round keeps *)

Lemma deduct_identity (srv : Server) (t : task.Task) :
  same_identity srv (simulator.deduct srv t).
Proof. by unfold same_identity. Qed.

Lemma apply_assignments_frame (now : Z) (prs : list (nat * option nat))
    (st st' : list task.Task * list Server) :
  simulator.apply_assignments now st prs = Some st' ->
  (forall k t, st.1 !! k = Some t -> task.entity_id t = Some k) ->
  Forall2 same_identity st.2 st'.2
  /\ forall k t, st'.1 !! k = Some t -> task.entity_id t = Some k.
Proof.
  revert st. induction prs as [|pr prs IH]; intros st; simpl.
  - intros [= <-] Hids. split; [|done].
    apply Forall_Forall2_diag, Forall_forall. intros s _.
    apply same_identity_refl.
  - destruct (simulator.apply_assignment now st pr) as [st1|] eqn:E; simpl;
      [|done].
    apply apply_assignment_inv in E as (t & si & srv & Ht & _ & Hs & ->).
    intros H Hids. apply IH in H as [Hid Hids']; simpl in *.
    + split; [|done].
      eapply Forall2_trans; [exact same_identity_trans| |exact Hid].
      apply Forall2_same_length_lookup_2; [by rewrite length_insert|].
      intros j s1 s2 H1 H2. destruct (decide (si = j)) as [->|Hne].
      * rewrite list_lookup_insert_eq in H2 by (by eapply lookup_lt_Some).
        injection H2 as <-. rewrite Hs in H1. injection H1 as <-.
        apply deduct_identity.
      * rewrite list_lookup_insert_ne in H2 by done.
        rewrite H1 in H2. injection H2 as <-. apply same_identity_refl.
    + intros k t' Hk. destruct (decide (pr.1 = k)) as [<-|Hne].
      * rewrite list_lookup_insert_eq in Hk by (by eapply lookup_lt_Some).
        injection Hk as <-. simpl. by apply Hids.
      * rewrite list_lookup_insert_ne in Hk by done. by apply Hids.
Qed.

Variable W : config.Workload.
Variable M : config.MobilityConfig.

Lemma update_all_entities_length (mgr mgr' : manager.MobilityManager)
    (servers servers' : list Server) (mo : manager.Motion) (r : Z * Z) :
  manager.update_all M mgr servers mo = Some (mgr', servers', r) ->
  length (manager.entities mgr') = length (manager.entities mgr).
Proof.
  unfold manager.update_all.
  destruct (manager.update_entities _ _ _ _ _ _ _ _) as [[[es c1] d1]|] eqn:E;
    simpl; [|done].
  intros [= <- _ _]. simpl. by apply update_entities_attached in E as [? _].
Qed.

(** The servers keep their identity through steps 1, 2 and 4. *)
Lemma scheduled_servers_identity (servers : list Server)
    (mo : manager.Motion) (now : Z) (tasks : list task.Task) (k : nat) :
  Forall2 same_identity servers
    (scheduler.schedule_from W k tasks
       ((fun srv => release_completed_tasks srv now)
          <$> imap (manager.move_server mo) servers) now).2.
Proof.
  eapply Forall2_trans; [exact same_identity_trans| |].
  2:{ apply schedule_from_related.
      - apply same_identity_refl.
      - apply same_identity_trans.
      - intros s id c st m rt. unfold allocate, same_identity.
        destruct (can_allocate s c st m); simpl; done. }
  apply Forall2_same_length_lookup_2;
    [by rewrite length_fmap, length_imap|].
  intros i s s' Hs Hs'.
  rewrite list_lookup_fmap, list_lookup_imap, Hs in Hs'. simpl in Hs'.
  injection Hs' as <-.
  eapply same_identity_trans; [apply move_server_frame|apply release_frame].
Qed.

Lemma generated_entity_ids (g : generator.WorkloadGenerator)
    (uuid : nat -> string) (choice : nat -> Z) (r : Z) (k : nat)
    (t : task.Task) :
  imap task.set_entity_id (generator.generate_tasks W g uuid choice r) !! k
  = Some t ->
  task.entity_id t = Some k.
Proof.
  rewrite list_lookup_imap.
  destruct (generator.generate_tasks W g uuid choice r !! k); simpl; [|done].
  by intros [= <-].
Qed.

(** Given that the mobility step returns, a round driven by the greedy tier
    scheduler completes, metrics step included, exactly when the scheduler
    found a server for every task of the round and, for every returned pair,
    the task's device exists ([entity_id] is an index of the entity list)
    and the server can be reported: its capacities and bandwidth are not
    zero and the tier of its name is configured with a non-zero
    bandwidth. *)
Theorem run_round_reported_completes (sim : simulator.Simulator)
    (round_no : Z) (o : simulator.Oracle) (mgr' : manager.MobilityManager)
    (servers1 : list Server) (c d : Z) :
  manager.update_all M (simulator.mobility sim) (simulator.servers sim)
    (simulator.motion o) = Some (mgr', servers1, (c, d)) ->
  let pairs :=
    (scheduler.schedule W
       (imap task.set_entity_id
          (generator.generate_tasks W (simulator.generator sim)
             (simulator.uuid o) (simulator.choice o) round_no))
       ((fun srv => release_completed_tasks srv
                      (simulator.current_time sim + d)) <$> servers1)
       (simulator.current_time sim + d)).1.1 in
  is_Some (simulator.run_round_reported cfg (scheduler.schedule W) W M sim
             round_no o)
  <-> Forall (fun pr : nat * option nat => is_Some pr.2) pairs
      /\ forall ti si,
           (ti, Some si) ∈ pairs ->
           (ti < length (manager.entities (simulator.mobility sim)))%nat
           /\ exists srv,
                simulator.servers sim !! si = Some srv /\ reportable cfg srv.
Proof.
  intros Hmob. simpl.
  pose proof (update_all_entities_length _ _ _ _ _ _ Hmob) as Hents.
  pose proof (update_all_servers M _ _ _ _ _ _ Hmob) as Hsrv1.
  unfold simulator.run_round_reported, simulator.run_round.
  rewrite Hmob. simpl.
  set (gen := imap task.set_entity_id _).
  set (now := simulator.current_time sim + d).
  set (srv1 := _ <$> servers1).
  set (S := scheduler.schedule_from W 0 gen srv1 now).
  pose proof (schedule_from_fst W gen 0 srv1 now) as Hfst.
  destruct (schedule_from_pairs_valid W gen 0 srv1 now) as [Hlen Hval].
  assert (Hid0 : Forall2 same_identity (simulator.servers sim) S.2).
  { unfold S, srv1. rewrite Hsrv1. apply scheduled_servers_identity. }
  fold S in Hfst, Hlen, Hval.
  assert (Hidx : Forall (fun pr : nat * option nat =>
                           (pr.1 < length gen)%nat) S.1).
  { apply Forall_forall. intros pr Hpr.
    assert (Hin : pr.1 ∈ S.1.*1) by (apply list_elem_of_fmap; eauto).
    rewrite Hfst in Hin. apply elem_of_seq in Hin. lia. }
  destruct (simulator.apply_assignments now (gen, S.2) S.1) as [st|] eqn:Happ;
    simpl.
  - pose proof (apply_assignments_all_placed _ _ _ _ Happ) as Hall.
    destruct (apply_assignments_lengths _ _ _ _ Happ) as [Hl1 Hl2].
    destruct (apply_assignments_frame _ _ _ _ Happ) as [Hid Hids];
      [intros k t; apply generated_entity_ids|].
    simpl in *.
    set (sim' := simulator.mkSimulator _ _ _ _ _ _).
    set (log := simulator.mkRoundLog _ _ _ _ _).
    assert (Hrep : is_Some (simulator.report_metrics cfg sim' log round_no)
                   <-> forall ti si srv,
                         (ti, Some si) ∈ S.1 -> st.2 !! si = Some srv ->
                         (ti < length (manager.entities mgr'))%nat
                         /\ reportable cfg srv).
    { apply report_metrics_is_Some; simpl; [|done].
      eapply Forall_impl; [exact Hidx|]. intros pr. simpl. lia. }
    transitivity (is_Some (simulator.report_metrics cfg sim' log round_no)).
    { destruct (simulator.report_metrics cfg sim' log round_no); simpl;
        [split; by intros _|split; by intros [? ?]]. }
    rewrite Hrep, Hents.
    assert (Hid1 : Forall2 same_identity (simulator.servers sim) st.2)
      by (eapply Forall2_trans; [exact same_identity_trans|exact Hid0|exact Hid]).
    split.
    + intros H. split; [done|]. intros ti si Hin.
      assert (Hsi : (si < length st.2)%nat).
      { rewrite Hl2, Hlen.
        by apply (proj1 (Forall_forall _ _) Hval (ti, Some si) Hin). }
      destruct (lookup_lt_is_Some_2 _ _ Hsi) as [srv' Hsrv'].
      destruct (H ti si srv' Hin Hsrv') as [Hti Hrp]. split; [done|].
      destruct (Forall2_lookup_r _ _ _ _ _ Hid1 Hsrv') as (srv & Hs & Hi).
      exists srv. split; [done|]. by apply (reportable_identity srv srv').
    + intros [_ H] ti si srv' Hin Hsrv'.
      destruct (H ti si Hin) as (Hti & srv & Hs & Hrp). split; [done|].
      apply (reportable_identity srv srv'); [|done].
      by eapply Forall2_lookup_lr.
  - split; [by intros [? ?]|]. intros [Hall _]. exfalso.
    destruct (apply_assignments_defined now S.1 (gen, S.2)) as [st Hst];
      [|by rewrite Hst in Happ].
    apply Forall_forall. intros pr Hpr. simpl. split.
    + by apply (proj1 (Forall_forall _ _) Hidx pr Hpr).
    + destruct (proj1 (Forall_forall _ _) Hall pr Hpr) as [si Hsi].
      exists si. split; [done|]. rewrite Hlen.
      by apply (proj1 (Forall_forall _ _) Hval pr Hpr).
Qed.

(** A reported round, or run, is a round, or run, of [run_round]: what is
    proved of every result of [run_round] holds of the rounds that also
    pass the metrics step. *)
Lemma run_round_reported_run_round (sched : scheduler.Scheduler)
    (sim sim' : simulator.Simulator) (round_no : Z) (o : simulator.Oracle)
    (log : simulator.RoundLog) (rows : list simulator.MetricsRow) :
  simulator.run_round_reported cfg sched W M sim round_no o
  = Some (sim', log, rows) ->
  simulator.run_round sched W M sim round_no o = Some (sim', log).
Proof.
  unfold simulator.run_round_reported.
  destruct (simulator.run_round sched W M sim round_no o) as [[s l]|]; simpl;
    [|done].
  destruct (simulator.report_metrics cfg s l round_no); simpl; [|done].
  by intros [= <- <- _].
Qed.

Lemma run_rounds_reported_run_rounds (sched : scheduler.Scheduler)
    (oracle : nat -> simulator.Oracle) (rounds : list nat)
    (sim sim' : simulator.Simulator) (logs : list simulator.RoundLog)
    (rows : list simulator.MetricsRow) :
  simulator.run_rounds_reported cfg sched W M oracle sim rounds
  = Some (sim', logs, rows) ->
  simulator.run_rounds sched W M oracle sim rounds = Some (sim', logs).
Proof.
  revert sim sim' logs rows.
  induction rounds as [|r rounds IH]; intros sim sim' logs rows; simpl.
  - by intros [= <- <- _].
  - destruct (simulator.run_round_reported cfg sched W M sim _ _)
      as [[[s1 l1] rows1]|] eqn:E; simpl; [|done].
    apply run_round_reported_run_round in E. rewrite E. simpl.
    destruct (simulator.run_rounds_reported cfg sched W M oracle s1 rounds)
      as [[[s2 l2] rows2]|] eqn:E2; simpl; [|done].
    apply IH in E2. rewrite E2. simpl. by intros [= <- <- _].
Qed.

End Reports.

(** Witness: the one round of the single-device simulator under the shipped
    [SERVER_CONFIG].  The mobility step hands the device over and returns
    (1, 20); the scheduler pairs the task of device 0 with [Edge_1], whose
    tier is configured; so the round completes, metrics step included. *)
Lemma run_round_reported_completes_witness :
  is_Some (simulator.run_round_reported config.SERVER_CONFIG
             (scheduler.schedule examples.SINGLE_WORKLOAD)
             examples.SINGLE_WORKLOAD config.MOBILITY_CONFIG
             examples.single_simulator 1 examples.paused_round).
Proof.
  apply (run_round_reported_completes config.SERVER_CONFIG
           examples.SINGLE_WORKLOAD config.MOBILITY_CONFIG
           examples.single_simulator 1 examples.paused_round
           (manager.mkMobilityManager [examples.device_at_origin 0] 1 20 100)
           [examples.node_A; examples.node_B] 1 20 update_all_far).
  assert (E : (scheduler.schedule examples.SINGLE_WORKLOAD
                 (imap task.set_entity_id
                    (generator.generate_tasks examples.SINGLE_WORKLOAD
                       (simulator.generator examples.single_simulator)
                       (simulator.uuid examples.paused_round)
                       (simulator.choice examples.paused_round) 1))
                 ((fun srv => server.release_completed_tasks srv
                                (simulator.current_time
                                   examples.single_simulator + 20))
                    <$> [examples.node_A; examples.node_B])
                 (simulator.current_time examples.single_simulator + 20)).1.1
              = [(0%nat, Some 0%nat)])
    by (vm_compute; reflexivity).
  rewrite E. split.
  - apply Forall_cons. split; [by exists 0%nat|constructor].
  - intros ti si Hin. apply list_elem_of_singleton in Hin.
    injection Hin as -> ->. split; [simpl; lia|].
    exists examples.node_A. split; [reflexivity|].
    unfold reporting.reportable, reporting.tier_known. simpl.
    split; [lia|]. split; [lia|]. split; [lia|]. split; [lia|]. split.
    + eexists. split; [reflexivity|]. simpl. lia.
    + intros H. by destruct H.
Defined.
